(** * Proof-of-work mining over a toy ledger: model and properties

    A shallow embedding of [blockchain.py] (transactions, blocks, the chain
    and its validator, the sequential nonce search) and of the worker and
    coordinator of [pow_parallel.py], with the properties of the design
    document stated over it.

    Conventions of the embedding.
    - A Python [str] is a [string] whose characters are code points below 256;
      [int] is [Z]; a [dict] is an association list in insertion order.
    - [hashlib.sha256] is implemented in full (module [SHA256]) so that
      digests of concrete blocks can be evaluated.
    - A Python [float] is kept abstract (class [PyFloat]): only its two
      renderings, the one of [str()] and the one of [json.dumps], enter the
      code.
    - [time.time()] readings are explicit arguments; [print] appends to a
      list of diagnostics; a [while] loop whose exit is not bounded by its
      arguments takes fuel and answers [None] when the fuel runs out. *)

From Stdlib Require Import ZArith List Bool Lia.
From Stdlib Require Import Strings.String Strings.Ascii DecimalString DecimalZ.
From stdpp Require Import base gmap.
Import ListNotations.
Local Open Scope Z_scope.

(** ** hashlib.sha256 (FIPS 180-4) over byte lists *)

Module SHA256.

Definition wrap32 (x : Z) : Z := Z.land x 0xffffffff.
Definition add32 (x y : Z) : Z := wrap32 (x + y).
Definition rotr (n x : Z) : Z :=
  Z.lor (Z.shiftr x n) (wrap32 (Z.shiftl x (32 - n))).
Definition not32 (x : Z) : Z := Z.lxor x 0xffffffff.

Definition Ch (x y z : Z) : Z := Z.lxor (Z.land x y) (Z.land (not32 x) z).
Definition Maj (x y z : Z) : Z :=
  Z.lxor (Z.lxor (Z.land x y) (Z.land x z)) (Z.land y z).
Definition bsig0 (x : Z) : Z :=
  Z.lxor (Z.lxor (rotr 2 x) (rotr 13 x)) (rotr 22 x).
Definition bsig1 (x : Z) : Z :=
  Z.lxor (Z.lxor (rotr 6 x) (rotr 11 x)) (rotr 25 x).
Definition ssig0 (x : Z) : Z :=
  Z.lxor (Z.lxor (rotr 7 x) (rotr 18 x)) (Z.shiftr x 3).
Definition ssig1 (x : Z) : Z :=
  Z.lxor (Z.lxor (rotr 17 x) (rotr 19 x)) (Z.shiftr x 10).

(** The round constants are the first thirty-two bits of the fractional
    parts of the cube roots of the first sixty-four primes; the initial hash
    value takes the square roots of the first eight.  Both are computed
    here, once. *)
Definition is_prime (n : Z) : bool :=
  forallb (fun k => negb (n mod k =? 0))
          (map Z.of_nat (seq 2 (Z.to_nat n - 2))).

Definition primes : list Z :=
  Eval vm_compute in filter is_prime (map Z.of_nat (seq 2 310)).

(** The integer cube root of [n], decided bit by bit from bit [b] down. *)
Fixpoint cube_root (b : nat) (n r : Z) : Z :=
  let r' := r + 2 ^ Z.of_nat b in
  let r := if r' * r' * r' <=? n then r' else r in
  match b with
  | O => r
  | S b' => cube_root b' n r
  end.

Definition frac_cube_root (p : Z) : Z :=
  wrap32 (cube_root 40 (p * 2 ^ 96) 0).

Definition frac_square_root (p : Z) : Z := wrap32 (Z.sqrt (p * 2 ^ 64)).

Definition K : list Z := Eval vm_compute in map frac_cube_root primes.

(** The eight working words a..h; also the running hash value. *)
Record state : Type := State {
  sa : Z; sb : Z; sc : Z; sd : Z; se : Z; sf : Z; sg : Z; sh : Z }.

Definition init : state :=
  Eval vm_compute in
    match map frac_square_root (firstn 8 primes) with
    | [a; b; c; d; e; f; g; h] => State a b c d e f g h
    | _ => State 0 0 0 0 0 0 0 0
    end.

(** The message schedule, newest word first while it grows from the sixteen
    words of a chunk to sixty-four. *)
Fixpoint extend (n : nat) (rw : list Z) : list Z :=
  match n with
  | O => rw
  | S n' =>
      let w := add32 (add32 (ssig1 (nth 1 rw 0)) (nth 6 rw 0))
                     (add32 (ssig0 (nth 14 rw 0)) (nth 15 rw 0)) in
      extend n' (w :: rw)
  end.

Definition schedule (chunk : list Z) : list Z :=
  rev (extend 48 (rev chunk)).

Definition round (s : state) (kw : Z * Z) : state :=
  let '(k, w) := kw in
  let t1 := add32 (add32 (add32 (sh s) (bsig1 (se s)))
                         (add32 (Ch (se s) (sf s) (sg s)) k)) w in
  let t2 := add32 (bsig0 (sa s)) (Maj (sa s) (sb s) (sc s)) in
  State (add32 t1 t2) (sa s) (sb s) (sc s)
        (add32 (sd s) t1) (se s) (sf s) (sg s).

Definition compress (h : state) (chunk : list Z) : state :=
  let s := fold_left round (combine K (schedule chunk)) h in
  State (add32 (sa h) (sa s)) (add32 (sb h) (sb s))
        (add32 (sc h) (sc s)) (add32 (sd h) (sd s))
        (add32 (se h) (se s)) (add32 (sf h) (sf s))
        (add32 (sg h) (sg s)) (add32 (sh h) (sh s)).

(** Big-endian packing of the padded bytes into 32-bit words. *)
Fixpoint words (bs : list Z) : list Z :=
  match bs with
  | b0 :: b1 :: b2 :: b3 :: rest =>
      (((b0 * 256 + b1) * 256 + b2) * 256 + b3) :: words rest
  | _ => []
  end.

Definition be64 (n : Z) : list Z :=
  map (fun i => Z.shiftr n (8 * i) mod 256) [7; 6; 5; 4; 3; 2; 1; 0].

Definition pad (msg : list Z) : list Z :=
  let len := Z.of_nat (length msg) in
  msg ++ 0x80 :: repeat 0 (Z.to_nat ((55 - len) mod 64)) ++ be64 (8 * len).

Fixpoint chunks (n : nat) (ws : list Z) : list (list Z) :=
  match n with
  | O => []
  | S n' => firstn 16 ws :: chunks n' (skipn 16 ws)
  end.

Definition digest (msg : list Z) : state :=
  let ws := words (pad msg) in
  fold_left compress (chunks (length ws / 16) ws) init.

Definition hexchars : list ascii :=
  list_ascii_of_string "0123456789abcdef".

Definition hexdigit (n : Z) : ascii :=
  nth (Z.to_nat (Z.land n 15)) hexchars "0"%char.

Definition hexword (w : Z) (tail : string) : string :=
  String (hexdigit (Z.shiftr w 28)) (String (hexdigit (Z.shiftr w 24))
  (String (hexdigit (Z.shiftr w 20)) (String (hexdigit (Z.shiftr w 16))
  (String (hexdigit (Z.shiftr w 12)) (String (hexdigit (Z.shiftr w 8))
  (String (hexdigit (Z.shiftr w 4)) (String (hexdigit w) tail))))))).

Definition hexstate (s : state) : string :=
  hexword (sa s) (hexword (sb s) (hexword (sc s) (hexword (sd s)
  (hexword (se s) (hexword (sf s) (hexword (sg s)
  (hexword (sh s) EmptyString))))))).

(** [hashlib.sha256(bytes).hexdigest()] *)
Definition hexdigest (msg : list Z) : string := hexstate (digest msg).

End SHA256.

(** ** Python strings, integers and exceptions *)

Local Open Scope string_scope.
Local Open Scope Z_scope.

(** The double quote character, and a string holding just it. *)
Definition dquote : ascii := "034"%char.
Definition dq : string := String dquote EmptyString.

(** [str.encode()]: UTF-8, here for code points below 256. *)
Definition utf8 (c : ascii) : list Z :=
  let n := Z.of_N (N_of_ascii c) in
  if n <? 128 then [n]
  else [Z.lor 0xc0 (Z.shiftr n 6); Z.lor 0x80 (Z.land n 63)].

Definition str_encode (s : string) : list Z :=
  flat_map utf8 (list_ascii_of_string s).

(** [str(n)] for an [int]. *)
Definition str_of_int (n : Z) : string := NilZero.string_of_int (Z.to_int n).

(** [s * n]: repetition; empty when [n] is not positive. *)
Fixpoint str_repeat (s : string) (n : nat) : string :=
  match n with
  | O => EmptyString
  | S n' => s ++ str_repeat s n'
  end.

Definition str_mul (s : string) (n : Z) : string := str_repeat s (Z.to_nat n).

(** [s.startswith(p)] *)
Definition startswith (s p : string) : bool := String.prefix p s.

(** [s[:n]] *)
Definition str_take (n : nat) (s : string) : string := substring 0 n s.

(** [sep.join(items)] *)
Fixpoint str_join (sep : string) (items : list string) : string :=
  match items with
  | [] => EmptyString
  | [x] => x
  | x :: rest => x ++ sep ++ str_join sep rest
  end.

(** Exceptions the modelled code can raise.  [Untyped] is not a Python
    exception: it marks a dictionary entry whose value is not of the
    annotated type, where Python would carry on with the value as it is;
    such inputs are outside this model. *)
Inductive pyerror : Type :=
| KeyError (key : string)
| TypeError
| Untyped (key : string).

Inductive result (A : Type) : Type :=
| Ok (a : A)
| Raise (e : pyerror).
Arguments Ok {A} a.
Arguments Raise {A} e.

Definition rbind {A B : Type} (m : result A) (k : A -> result B) : result B :=
  match m with
  | Ok a => k a
  | Raise e => Raise e
  end.

Notation "'let*' x ':=' m 'in' k" := (rbind m (fun x => k))
  (at level 10, x name, m at level 100, k at level 200).

(** A list comprehension whose body can raise: the first exception wins. *)
Fixpoint rmap {A B : Type} (f : A -> result B) (l : list A) : result (list B) :=
  match l with
  | [] => Ok []
  | a :: rest => let* b := f a in let* bs := rmap f rest in Ok (b :: bs)
  end.

(** ** Python floats, as far as the code looks at them *)

Class PyFloat : Type := {
  pyfloat : Type;
  (** [str(x)], which is what an f-string field renders. *)
  float_str : pyfloat -> string;
  (** the rendering of a float by [json.dumps]. *)
  float_json : pyfloat -> string;
  (** the literal [0.0]. *)
  float_zero : pyfloat
}.

Section Model.
Context {F : PyFloat}.

(** ** JSON-like values and json.dumps(..., sort_keys=True) *)

#[warnings="-register-all"] Inductive pyvalue : Type :=
| PyStr (s : string)
| PyInt (n : Z)
| PyFloat_ (x : pyfloat)
| PyList (items : list pyvalue)
| PyDict (items : list (string * pyvalue)).

Definition hex2 (n : Z) : string :=
  String (SHA256.hexdigit (Z.shiftr n 4)) (String (SHA256.hexdigit n) EmptyString).

(** One character of a string literal under [ensure_ascii=True]. *)
Definition json_escape (c : ascii) : string :=
  let n := Z.of_N (N_of_ascii c) in
  if n =? 34 then "\" ++ dq
  else if n =? 92 then "\\"
  else if n =? 10 then "\n"
  else if n =? 13 then "\r"
  else if n =? 9 then "\t"
  else if n =? 8 then "\b"
  else if n =? 12 then "\f"
  else if (32 <=? n) && (n <=? 126) then String c EmptyString
  else "\u00" ++ hex2 n.

Fixpoint json_escape_all (s : string) : string :=
  match s with
  | EmptyString => EmptyString
  | String c rest => json_escape c ++ json_escape_all rest
  end.

Definition json_string (s : string) : string := dq ++ json_escape_all s ++ dq.

(** [sort_keys=True]: the items of a dict are emitted in key order. *)
Fixpoint insert_by_key {A : Type} (kv : string * A) (l : list (string * A))
  : list (string * A) :=
  match l with
  | [] => [kv]
  | kv' :: rest =>
      if String.leb (fst kv) (fst kv') then kv :: l
      else kv' :: insert_by_key kv rest
  end.

Fixpoint sort_by_key {A : Type} (l : list (string * A)) : list (string * A) :=
  match l with
  | [] => []
  | kv :: rest => insert_by_key kv (sort_by_key rest)
  end.

(** The default separators of [json.dumps] are a comma and a colon, each
    followed by one space. *)
Definition item_separator : string := ", ".
Definition key_separator : string := ": ".

Fixpoint json_dumps (v : pyvalue) : string :=
  match v with
  | PyStr s => json_string s
  | PyInt n => str_of_int n
  | PyFloat_ x => float_json x
  | PyList items =>
      "[" ++ str_join item_separator (map json_dumps items) ++ "]"
  | PyDict items =>
      let rendered := map (fun '(k, x) => (k, json_dumps x)) items in
      "{" ++ str_join item_separator
               (map (fun '(k, r) => json_string k ++ key_separator ++ r)
                    (sort_by_key rendered)) ++ "}"
  end.

(** [d[key]] *)
Fixpoint assoc {A : Type} (key : string) (items : list (string * A)) : option A :=
  match items with
  | [] => None
  | (k, x) :: rest => if String.eqb key k then Some x else assoc key rest
  end.

Definition getitem (d : pyvalue) (key : string) : result pyvalue :=
  match d with
  | PyDict items =>
      match assoc key items with
      | Some x => Ok x
      | None => Raise (KeyError key)
      end
  | _ => Raise TypeError
  end.

Definition get_str (d : pyvalue) (key : string) : result string :=
  let* x := getitem d key in
  match x with PyStr s => Ok s | _ => Raise (Untyped key) end.

Definition get_int (d : pyvalue) (key : string) : result Z :=
  let* x := getitem d key in
  match x with PyInt n => Ok n | _ => Raise (Untyped key) end.

Definition get_float (d : pyvalue) (key : string) : result pyfloat :=
  let* x := getitem d key in
  match x with PyFloat_ f => Ok f | _ => Raise (Untyped key) end.

Definition get_list (d : pyvalue) (key : string) : result (list pyvalue) :=
  let* x := getitem d key in
  match x with PyList l => Ok l | _ => Raise (Untyped key) end.

(** ** blockchain.py: Transaction *)

Record Transaction : Type := mkTransaction {
  sender : string;
  recipient : string;
  amount : pyfloat;
  tx_timestamp : pyfloat
}.

(** [Transaction.to_dict]: the keys in the order the source writes them. *)
Definition Transaction_to_dict (self : Transaction) : pyvalue :=
  PyDict [ ("sender", PyStr (sender self));
           ("recipient", PyStr (recipient self));
           ("amount", PyFloat_ (amount self));
           ("timestamp", PyFloat_ (tx_timestamp self)) ].

Definition Transaction_from_dict (data : pyvalue) : result Transaction :=
  let* s := get_str data "sender" in
  let* r := get_str data "recipient" in
  let* a := get_float data "amount" in
  let* t := get_float data "timestamp" in
  Ok (mkTransaction s r a t).

(** ** blockchain.py: Block *)

Record Block : Type := mkBlock {
  previous_hash : string;
  timestamp : pyfloat;
  nonce : Z;
  transactions : list Transaction;
  hash : string
}.

(** The string that [calculate_hash] digests. *)
Definition block_string (prev : string) (ts : pyfloat) (n : Z)
    (txs : list Transaction) : string :=
  let transactions_str := json_dumps (PyList (map Transaction_to_dict txs)) in
  prev ++ float_str ts ++ str_of_int n ++ transactions_str.

Definition digest_of (prev : string) (ts : pyfloat) (n : Z)
    (txs : list Transaction) : string :=
  SHA256.hexdigest (str_encode (block_string prev ts n txs)).

Definition Block_calculate_hash (self : Block) : string :=
  digest_of (previous_hash self) (timestamp self) (nonce self)
            (transactions self).

(** [Block.__init__], called with all four arguments (every call site of the
    modelled code passes the timestamp). *)
Definition Block_init (prev : string) (txs : list Transaction)
    (ts : pyfloat) (n : Z) : Block :=
  mkBlock prev ts n txs (digest_of prev ts n txs).

(** [block.hash = h] *)
Definition set_hash (b : Block) (h : string) : Block :=
  mkBlock (previous_hash b) (timestamp b) (nonce b) (transactions b) h.

Definition Block_to_dict (self : Block) : pyvalue :=
  PyDict [ ("previous_hash", PyStr (previous_hash self));
           ("timestamp", PyFloat_ (timestamp self));
           ("nonce", PyInt (nonce self));
           ("transactions", PyList (map Transaction_to_dict (transactions self)));
           ("hash", PyStr (hash self)) ].

Definition Block_from_dict (data : pyvalue) : result Block :=
  let* txs_data := get_list data "transactions" in
  let* txs := rmap Transaction_from_dict txs_data in
  let* prev := get_str data "previous_hash" in
  let* ts := get_float data "timestamp" in
  let* n := get_int data "nonce" in
  let block := Block_init prev txs ts n in
  let* h := get_str data "hash" in
  Ok (set_hash block h).

(** ** blockchain.py: Blockchain *)

Record Blockchain : Type := mkBlockchain { chain : list Block }.

(** What the validator prints, one constructor per [print] statement. *)
Inductive diagnostic : Type :=
| InvalidPreviousHash (expected got : string)
| HashMismatch (expected got : string)
| DifficultyNotMet (difficulty : Z)
| NoTransactions
| ValidationFailed.

Definition render (d : diagnostic) : string :=
  match d with
  | InvalidPreviousHash e g =>
      "Invalid previous_hash: expected " ++ str_take 16 e ++ "..., got "
        ++ str_take 16 g ++ "..."
  | HashMismatch e g =>
      "Hash mismatch: expected " ++ str_take 16 e ++ "..., got "
        ++ str_take 16 g ++ "..."
  | DifficultyNotMet d =>
      "Hash does not meet difficulty requirement (needs " ++ str_of_int d
        ++ " leading zeros)"
  | NoTransactions => "Block has no transactions"
  | ValidationFailed => "Block validation failed"
  end.

(** [create_genesis_block]; the two clock readings are its arguments. *)
Definition create_genesis_block (t_tx t_block : pyfloat) : Block :=
  let genesis_tx :=
    mkTransaction (str_mul "0" 64) (str_mul "0" 64) float_zero t_tx in
  Block_init (str_mul "0" 64) [genesis_tx] t_block 0.

Definition Blockchain_init (t_tx t_block : pyfloat) : Blockchain :=
  mkBlockchain ([] ++ [create_genesis_block t_tx t_block])%list.

(** [self.chain[-1]] *)
Definition get_latest_block (self : Blockchain) : option Block :=
  last (chain self).

(** [validate_block]: the verdict and what was printed on the way. *)
Definition validate_block (self : Blockchain) (block : Block)
    (difficulty : Z) : bool * list diagnostic :=
  let linkage :=
    if 0 <? Z.of_nat (length (chain self)) then
      match get_latest_block self with
      | Some tip =>
          let expected_previous_hash := hash tip in
          if negb (String.eqb (previous_hash block) expected_previous_hash)
          then Some (InvalidPreviousHash expected_previous_hash
                                         (previous_hash block))
          else None
      | None => None
      end
    else None in
  match linkage with
  | Some d => (false, [d])
  | None =>
      let recalculated_hash := Block_calculate_hash block in
      if negb (String.eqb recalculated_hash (hash block)) then
        (false, [HashMismatch recalculated_hash (hash block)])
      else
        let required_prefix := str_mul "0" difficulty in
        if negb (startswith (hash block) required_prefix) then
          (false, [DifficultyNotMet difficulty])
        else
          match transactions block with
          | [] => (false, [NoTransactions])
          | _ :: _ => (true, [])
          end
  end.

(** [add_block]: the returned flag, the chain afterwards, the output. *)
Definition add_block (self : Blockchain) (block : Block) (difficulty : Z)
    : bool * Blockchain * list diagnostic :=
  let '(ok, out) := validate_block self block difficulty in
  if negb ok then (false, self, (out ++ [ValidationFailed])%list)
  else (true, mkBlockchain (chain self ++ [block])%list, out).

Definition Blockchain_to_dict (self : Blockchain) : pyvalue :=
  PyDict [ ("length", PyInt (Z.of_nat (length (chain self))));
           ("blocks", PyList (map Block_to_dict (chain self))) ].

(** [Blockchain.from_dict]: the constructor runs (and reads the clock) before
    its chain is replaced by the blocks read. *)
Definition Blockchain_from_dict (t_tx t_block : pyfloat) (data : pyvalue)
    : result Blockchain :=
  let blockchain := Blockchain_init t_tx t_block in
  let blockchain := mkBlockchain [] in
  let* blocks_data := get_list data "blocks" in
  let* blocks := rmap Block_from_dict blocks_data in
  Ok (mkBlockchain (chain blockchain ++ blocks)%list).

(** ** blockchain.py: the sequential search, mine_block *)

(** The loop test [max_nonce is None or nonce < max_nonce]. *)
Definition below_bound (max_nonce : option Z) (n : Z) : bool :=
  match max_nonce with
  | None => true
  | Some m => n <? m
  end.

(** The [while] loop of [mine_block].  [fuel] bounds the number of loop
    bodies run; [calls] collects the arguments of the progress callback.
    [None]: the loop is still running when the fuel is spent. *)
Fixpoint mine_loop (prev : string) (txs : list Transaction) (difficulty : Z)
    (max_nonce : option Z) (progress_callback : bool) (ts : pyfloat)
    (fuel : nat) (n nonces_tested : Z) (calls : list (Z * string))
    : option (option Block * Z * list (Z * string)) :=
  let required_prefix := str_mul "0" difficulty in
  if negb (below_bound max_nonce n) then Some (None, nonces_tested, calls)
  else
    match fuel with
    | O => None
    | S fuel' =>
        let block := Block_init prev txs ts n in
        let nonces_tested := nonces_tested + 1 in
        let calls :=
          if progress_callback && (nonces_tested mod 100000 =? 0)
          then (calls ++ [(n, hash block)])%list else calls in
        if startswith (hash block) required_prefix
        then Some (Some block, nonces_tested, calls)
        else mine_loop prev txs difficulty max_nonce progress_callback ts
                       fuel' (n + 1) nonces_tested calls
    end.

(** [mine_block]; [now] is the reading of [time.time()] it takes once. *)
Definition mine_block (prev : string) (txs : list Transaction)
    (difficulty start_nonce : Z) (max_nonce : option Z)
    (progress_callback : bool) (now : pyfloat) (fuel : nat)
    : option (option Block * Z * list (Z * string)) :=
  mine_loop prev txs difficulty max_nonce progress_callback now
            fuel start_nonce 0 [].

(** ** pow_parallel.py: worker_mine *)

(** The two shapes of the dictionary a worker puts on the queue. *)
Inductive worker_result : Type :=
| Found (worker_id w_nonce : Z) (w_hash : string) (block_data : pyvalue)
        (nonces_tested : Z)
| NotFound (worker_id nonces_tested : Z).

Definition result_worker_id (r : worker_result) : Z :=
  match r with Found i _ _ _ _ => i | NotFound i _ => i end.

Definition result_nonces_tested (r : worker_result) : Z :=
  match r with Found _ _ _ _ k => k | NotFound _ k => k end.

Definition result_found (r : worker_result) : bool :=
  match r with Found _ _ _ _ _ => true | NotFound _ _ => false end.

Definition check_interval : Z := 10000.

(** The [while True] loop of a worker.  [flag_seen k] is the value of the
    shared flag that the worker reads at the check it makes after [k]
    attempts.  The first component lists the nonces for which a block was
    built, in order; the second is the result put on the queue ([None]
    while the worker is still running).  A [Found] result also sets the
    flag. *)
Fixpoint worker_loop (worker_id : Z) (prev : string)
    (txs : list Transaction) (ts : pyfloat) (difficulty step : Z)
    (flag_seen : Z -> bool) (fuel : nat) (n nonces_tested : Z)
    : list Z * option worker_result :=
  let required_prefix := str_mul "0" difficulty in
  match fuel with
  | O => ([], None)
  | S fuel' =>
      let block := Block_init prev txs ts n in
      let nonces_tested := nonces_tested + 1 in
      if startswith (hash block) required_prefix then
        let block_data :=
          PyDict [ ("previous_hash", PyStr (previous_hash block));
                   ("timestamp", PyFloat_ (timestamp block));
                   ("nonce", PyInt (nonce block));
                   ("transactions",
                    PyList (map Transaction_to_dict (transactions block)));
                   ("hash", PyStr (hash block)) ] in
        ([n], Some (Found worker_id n (hash block) block_data nonces_tested))
      else if (nonces_tested mod check_interval =? 0)
              && flag_seen nonces_tested then
        ([n], Some (NotFound worker_id nonces_tested))
      else
        let '(tested, r) :=
          worker_loop worker_id prev txs ts difficulty step flag_seen
                      fuel' (n + step) nonces_tested in
        (n :: tested, r)
  end.

Definition worker_mine (worker_id : Z) (prev : string)
    (transactions_data : list pyvalue) (ts : pyfloat)
    (difficulty start_nonce step : Z) (flag_seen : Z -> bool) (fuel : nat)
    : result (list Z * option worker_result) :=
  let* txs := rmap Transaction_from_dict transactions_data in
  Ok (worker_loop worker_id prev txs ts difficulty step flag_seen
                  fuel start_nonce 0).

(** ** pow_parallel.py: the coordinator, mine_block_parallel *)

(** [range(n)] *)
Definition py_range (n : Z) : list Z := map Z.of_nat (seq 0 (Z.to_nat n)).

(** The arguments of one [pool.apply_async(worker_mine, ...)]. *)
Record worker_args : Type := mkArgs {
  a_worker_id : Z;
  a_previous_hash : string;
  a_transactions_data : list pyvalue;
  a_timestamp : pyfloat;
  a_difficulty : Z;
  a_start_nonce : Z;
  a_step : Z
}.

Definition spawn (prev : string) (transactions_data : list pyvalue)
    (ts : pyfloat) (difficulty num_workers : Z) : list worker_args :=
  map (fun worker_id =>
         mkArgs worker_id prev transactions_data ts difficulty
                worker_id num_workers)
      (py_range num_workers).

Definition run_worker (a : worker_args) (flag_seen : Z -> bool) (fuel : nat)
    : result (list Z * option worker_result) :=
  worker_mine (a_worker_id a) (a_previous_hash a) (a_transactions_data a)
              (a_timestamp a) (a_difficulty a) (a_start_nonce a) (a_step a)
              flag_seen fuel.

(** The coordinator's local variables. *)
Record coordinator : Type := mkCoordinator {
  found_block : option Block;
  total_nonces_tested : Z;
  worker_stats : gmap Z Z
}.

(** The two counter updates made for every result; [None] when the lookup
    in [worker_stats] raises. *)
Definition account (st : coordinator) (r : worker_result)
    : option coordinator :=
  let worker_id := result_worker_id r in
  let nonces_tested := result_nonces_tested r in
  match worker_stats st !! worker_id with
  | Some count =>
      Some (mkCoordinator (found_block st)
                          (total_nonces_tested st + nonces_tested)
                          (<[worker_id := count + nonces_tested]>
                             (worker_stats st)))
  | None => None
  end.

(** The block built from a report, before its hash is overwritten. *)
Definition rebuild (block_data : pyvalue) : result Block :=
  let* txs_data := get_list block_data "transactions" in
  let* block_transactions := rmap Transaction_from_dict txs_data in
  let* prev := get_str block_data "previous_hash" in
  let* ts := get_float block_data "timestamp" in
  let* n := get_int block_data "nonce" in
  Ok (Block_init prev block_transactions ts n).

(** The body of the [try] of the waiting loop, for a result that arrived.
    An exception leaves whatever was assigned before it: the bare [except]
    swallows it. *)
Definition on_result (st : coordinator) (r : worker_result) : coordinator :=
  match account st r with
  | None => st
  | Some st' =>
      match r with
      | Found _ _ _ block_data _ =>
          match rebuild block_data with
          | Raise _ => st'
          | Ok b =>
              let b' :=
                match get_str block_data "hash" with
                | Ok h => set_hash b h
                | Raise _ => b
                end in
              mkCoordinator (Some b') (total_nonces_tested st')
                            (worker_stats st')
          end
      | NotFound _ _ => st'
      end
  end.

(** [while found_block is None]: one queue event per turn, [None] for a
    [get] that timed out.  Returns the state and the events not consumed;
    the loop is still waiting if the events run out first. *)
Fixpoint await_winner (events : list (option worker_result))
    (st : coordinator) : coordinator * list (option worker_result) :=
  match events with
  | [] => (st, [])
  | e :: rest =>
      let st' := match e with Some r => on_result st r | None => st end in
      match found_block st' with
      | Some _ => (st', rest)
      | None => await_winner rest st'
      end
  end.

(** [for _ in range(num_workers - 1)]: any exception, a timeout included,
    leaves the loop. *)
Fixpoint drain (turns : nat) (events : list (option worker_result))
    (st : coordinator) : coordinator :=
  match turns with
  | O => st
  | S turns' =>
      match events with
      | Some r :: rest =>
          match account st r with
          | Some st' => drain turns' rest st'
          | None => st
          end
      | _ => st
      end
  end.

Definition initial_stats (num_workers : Z) : gmap Z Z :=
  list_to_map (map (fun i => (i, 0)) (py_range num_workers)).

(** [mine_block_parallel].  The pool argument is the scheduler: it runs the
    spawned workers and decides what arrives on the queue, and when; here it
    is the function [pool] from the spawned calls to the queue events the
    coordinator sees.  [now] is the clock reading.  [None]: no winner among
    the events, the coordinator is still waiting. *)
Definition mine_block_parallel
    (pool : list worker_args -> list (option worker_result))
    (prev : string) (txs : list Transaction) (difficulty num_workers : Z)
    (now : pyfloat) : option (Block * Z * gmap Z Z) :=
  let ts := now in
  let transactions_data := map Transaction_to_dict txs in
  let async_results := spawn prev transactions_data ts difficulty num_workers in
  let events := pool async_results in
  let st0 := mkCoordinator None 0 (initial_stats num_workers) in
  let '(st1, rest) := await_winner events st0 in
  match found_block st1 with
  | None => None
  | Some b =>
      let st2 := drain (Z.to_nat (num_workers - 1)) rest st1 in
      Some (b, total_nonces_tested st2, worker_stats st2)
  end.

(** ** The vocabulary of the design document *)

(** The hash contract: the stored hash is the digest of the other fields. *)
Definition hash_contract (b : Block) : Prop :=
  Block_calculate_hash b = hash b.

(** The prefix test the searches apply to the block of nonce [n]. *)
Definition meets (prev : string) (txs : list Transaction) (ts : pyfloat)
    (difficulty n : Z) : bool :=
  startswith (digest_of prev ts n txs) (str_mul "0" difficulty).

(** What the attempt on nonce [n], made after [t] earlier attempts, adds to
    the calls of the progress callback. *)
Definition progress_log (prev : string) (txs : list Transaction) (cb : bool)
    (ts : pyfloat) (n t : Z) (calls : list (Z * string))
    : list (Z * string) :=
  if cb && ((t + 1) mod 100000 =? 0)
  then (calls ++ [(n, digest_of prev ts n txs)])%list else calls.

(** After [t] earlier attempts and one more that failed, the worker makes
    its check of the flag and sees it set. *)
Definition told_to_stop (flag_seen : Z -> bool) (t : Z) : bool :=
  ((t + 1) mod check_interval =? 0) && flag_seen (t + 1).

(** [h] begins with [d] consecutive characters 0. *)
Definition begins_with_zeros (d : Z) (h : string) : Prop :=
  forall i : nat, (i < Z.to_nat d)%nat -> String.get i h = Some "0"%char.

(** The four rejections of the validator, in the order of its checks. *)
Inductive error_kind : Type :=
| LinkageError
| HashMismatchError
| DifficultyNotMetError
| EmptyBlockError.

Definition rank (k : error_kind) : nat :=
  match k with
  | LinkageError => 0
  | HashMismatchError => 1
  | DifficultyNotMetError => 2
  | EmptyBlockError => 3
  end.

(** The condition whose failure is the rejection [k]. *)
Definition condition (self : Blockchain) (block : Block) (difficulty : Z)
    (k : error_kind) : Prop :=
  match k with
  | LinkageError =>
      forall tip, get_latest_block self = Some tip ->
                  previous_hash block = hash tip
  | HashMismatchError => hash_contract block
  | DifficultyNotMetError => begins_with_zeros difficulty (hash block)
  | EmptyBlockError => transactions block <> []
  end.

Definition violated (self : Blockchain) (block : Block) (difficulty : Z)
    (k : error_kind) : Prop :=
  ~ condition self block difficulty k.

(** The rejection a printed diagnostic stands for. *)
Definition kind_of (d : diagnostic) : option error_kind :=
  match d with
  | InvalidPreviousHash _ _ => Some LinkageError
  | HashMismatch _ _ => Some HashMismatchError
  | DifficultyNotMet _ => Some DifficultyNotMetError
  | NoTransactions => Some EmptyBlockError
  | ValidationFailed => None
  end.

(** Two readings of the rejection rule of section 4.2.  First: the value
    [add_block] returns tells which condition was violated. *)
Definition returns_error_kind : Prop :=
  exists classify : bool -> error_kind,
    forall self block d,
      fst (validate_block self block d) = false ->
      violated self block d (classify (fst (fst (add_block self block d)))).

(** Second: every check runs, so every violated condition shows in the
    output. *)
Definition runs_every_check : Prop :=
  forall self block d k,
    violated self block d k ->
    exists diag, In diag (snd (add_block self block d)) /\
                 kind_of diag = Some k.

(** The serialization of section 4.1, in the words of the document: one
    record per transaction with its fields in alphabetical order, the
    records in sequence; the two separators are left open here. *)
Definition canonical_record (item_sep key_sep : string) (tx : Transaction)
    : string :=
  "{" ++ json_string "amount" ++ key_sep ++ float_json (amount tx)
      ++ item_sep
      ++ json_string "recipient" ++ key_sep ++ json_string (recipient tx)
      ++ item_sep
      ++ json_string "sender" ++ key_sep ++ json_string (sender tx)
      ++ item_sep
      ++ json_string "timestamp" ++ key_sep ++ float_json (tx_timestamp tx)
      ++ "}".

Definition canonical_input (item_sep key_sep : string) (prev : string)
    (ts : pyfloat) (n : Z) (txs : list Transaction) : string :=
  prev ++ float_str ts ++ str_of_int n
       ++ "[" ++ str_join item_sep (map (canonical_record item_sep key_sep) txs)
       ++ "]".

Definition canonical_digest (item_sep key_sep : string) (b : Block) : string :=
  SHA256.hexdigest
    (str_encode (canonical_input item_sep key_sep (previous_hash b)
                                 (timestamp b) (nonce b) (transactions b))).

(** A digest in lowercase hexadecimal: sixty-four characters of 0-9a-f,
    four bits each. *)
Definition lowercase_hex_256 (h : string) : Prop :=
  String.length h = 64%nat /\
  Forall (fun c => In c SHA256.hexchars) (list_ascii_of_string h).

(** [r] is a report that the spawned call [a] can put on the queue. *)
Definition reported (a : worker_args) (r : worker_result) : Prop :=
  exists (flag_seen : Z -> bool) (fuel : nat) (tested : list Z),
    run_worker a flag_seen fuel = Ok (tested, Some r).

(** Every report the coordinator receives comes from a spawned worker. *)
Definition delivers_reports
    (pool : list worker_args -> list (option worker_result))
    (spawned : list worker_args) : Prop :=
  forall r, In (Some r) (pool spawned) ->
            exists a, In a spawned /\ reported a r.

(** ** Chains as a whole *)

(** Every block names the hash of the block before it. *)
Fixpoint linked (c : list Block) : Prop :=
  match c with
  | b1 :: rest =>
      match rest with
      | b2 :: _ => previous_hash b2 = hash b1 /\ linked rest
      | [] => True
      end
  | [] => True
  end.

(** What the validator demanded of a block it let in at difficulty [d]. *)
Definition admitted (d : Z) (b : Block) : Prop :=
  hash_contract b /\ begins_with_zeros d (hash b) /\ transactions b <> [].

(** A chain whose blocks are linked and, from the second on, were all let
    in at difficulty [d] or above. *)
Definition sound_chain (d : Z) (c : list Block) : Prop :=
  linked c /\ Forall (admitted d) (List.tl c).

(** A call of the progress callback as the search makes them: the nonce of
    an attempt that completed a hundred thousand, counted from the nonce
    [first], and the digest of that attempt. *)
Definition reported_progress (prev : string) (txs : list Transaction)
    (ts : pyfloat) (first : Z) (c : Z * string) : Prop :=
  snd c = digest_of prev ts (fst c) txs /\
  (fst c - first + 1) mod 100000 = 0.

(** The sum of the counters of the workers [0], ..., [num_workers - 1]. *)
Definition stats_sum (num_workers : Z) (stats : gmap Z Z) : Z :=
  fold_right Z.add 0
    (map (fun i => default 0 (stats !! i)) (py_range num_workers)).

(** A queue event that cannot end the wait: a timed-out [get], or a report
    without a block. *)
Definition no_winner (e : option worker_result) : Prop :=
  match e with
  | Some (Found _ _ _ _ _) => False
  | _ => True
  end.

(** The keys of [worker_stats] are the worker numbers, and the total is the
    sum of its counters. *)
Definition tallied (n : Z) (st : coordinator) : Prop :=
  (forall i, is_Some (worker_stats st !! i) <-> 0 <= i < n) /\
  total_nonces_tested st = stats_sum n (worker_stats st).


(** ** utils.py: get_config_suffix *)

(** [get_config_suffix]; an argument left at its default [None] adds no
    part. *)
Definition get_config_suffix (difficulty num_blocks : Z)
    (txs_per_block num_workers : option Z) : string :=
  let parts := ["d" ++ str_of_int difficulty; "b" ++ str_of_int num_blocks] in
  let parts :=
    match txs_per_block with
    | Some t => (parts ++ [("t" ++ str_of_int t)%string])%list
    | None => parts
    end in
  let parts :=
    match num_workers with
    | Some w => (parts ++ [("w" ++ str_of_int w)%string])%list
    | None => parts
    end in
  str_join "_" parts.

(** The characters of a decimal integer: the digits and the minus sign. *)
Definition numeric_char (c : ascii) : Prop :=
  In c (list_ascii_of_string "-0123456789").

Definition numeric (s : string) : Prop :=
  Forall numeric_char (list_ascii_of_string s).

(** A string that is empty or begins with a character no integer holds. *)
Definition ends_number (s : string) : Prop :=
  match s with
  | EmptyString => True
  | String c _ => ~ numeric_char c
  end.

(** ** pow_sequential.py and pow_parallel.py: the mining loops

    Each driver builds a fresh chain and then, once per block, takes a
    batch of generated transactions, searches a nonce on the hash of the
    tip and offers the block to the chain.  The batches are the results of
    the calls of [generate_random_transactions], given here together with
    the clock reading the search of each block takes.  Of the record a
    driver keeps per block, the fields kept here are those that do not come
    from the clock; the timings, the rates computed from them and the
    printing are not modelled. *)

Record progress_entry : Type := mkProgress {
  block_number : Z;
  entry_nonce : Z;
  entry_nonces_tested : Z;
  entry_hash : string;
  num_transactions : Z
}.

(** How a loop that is not bounded by its arguments can be found: ended,
    still running when the fuel is spent, or left by an exception. *)
Inductive outcome (A : Type) : Type :=
| Done (a : A)
| Running
| Crashed.
#[global] Arguments Done {A} a.
#[global] Arguments Running {A}.
#[global] Arguments Crashed {A}.

(** The [for] loop of [mine_blockchain_sequential], from block number
    [i + 1] on.  The search runs from nonce 0 with no bound and with the
    progress callback; a block the chain rejects is skipped by [continue],
    before anything is recorded. *)
Fixpoint sequential_loop (difficulty : Z) (fuel : nat)
    (batches : list (list Transaction * pyfloat)) (i : Z)
    (blockchain : Blockchain) (progress_data : list progress_entry)
    (total_nonces_tested : Z)
    : outcome (Blockchain * list progress_entry * Z) :=
  match batches with
  | [] => Done (blockchain, progress_data, total_nonces_tested)
  | (txs, now) :: rest =>
      let block_num := i + 1 in
      match get_latest_block blockchain with
      | None => Crashed
      | Some tip =>
          let prev := hash tip in
          match mine_block prev txs difficulty 0 None true now fuel with
          | None => Running
          | Some (None, _, _) => Crashed
          | Some (Some block, nonces_tested, _) =>
              let '(ok, blockchain', _) :=
                add_block blockchain block difficulty in
              if ok then
                sequential_loop difficulty fuel rest (i + 1) blockchain'
                  (progress_data ++
                   [mkProgress block_num (nonce block) nonces_tested
                               (hash block) (Z.of_nat (length txs))])%list
                  (total_nonces_tested + nonces_tested)
              else
                sequential_loop difficulty fuel rest (i + 1) blockchain'
                  progress_data total_nonces_tested
          end
      end
  end.

Definition mine_blockchain_sequential (difficulty : Z)
    (batches : list (list Transaction * pyfloat)) (t_tx t_block : pyfloat)
    (fuel : nat) : outcome (Blockchain * list progress_entry * Z) :=
  sequential_loop difficulty fuel batches 0 (Blockchain_init t_tx t_block)
                  [] 0.

(** The [for] loop of [mine_blockchain_parallel].  The block is offered to
    the chain, and the record is appended whether or not it was taken. *)
Fixpoint parallel_loop
    (pool : list worker_args -> list (option worker_result))
    (difficulty num_workers : Z)
    (batches : list (list Transaction * pyfloat)) (i : Z)
    (blockchain : Blockchain) (progress_data : list progress_entry)
    (total_nonces_tested : Z)
    : outcome (Blockchain * list progress_entry * Z) :=
  match batches with
  | [] => Done (blockchain, progress_data, total_nonces_tested)
  | (txs, now) :: rest =>
      let block_num := i + 1 in
      match get_latest_block blockchain with
      | None => Crashed
      | Some tip =>
          let prev := hash tip in
          match mine_block_parallel pool prev txs difficulty num_workers now
          with
          | None => Running
          | Some (block, nonces_tested, _) =>
              let '(_, blockchain', _) :=
                add_block blockchain block difficulty in
              parallel_loop pool difficulty num_workers rest (i + 1)
                blockchain'
                (progress_data ++
                 [mkProgress block_num (nonce block) nonces_tested
                             (hash block) (Z.of_nat (length txs))])%list
                (total_nonces_tested + nonces_tested)
          end
      end
  end.

(** [mine_blockchain_parallel].  Its first step builds the pool, and
    [mp.Pool(processes=num_workers)] raises [ValueError] for a number of
    processes below 1; the scheduler [pool] stands for the pool built. *)
Definition mine_blockchain_parallel
    (pool : list worker_args -> list (option worker_result))
    (difficulty num_workers : Z)
    (batches : list (list Transaction * pyfloat)) (t_tx t_block : pyfloat)
    : outcome (Blockchain * list progress_entry * Z) :=
  if num_workers <? 1 then Crashed
  else parallel_loop pool difficulty num_workers batches 0
                     (Blockchain_init t_tx t_block) [] 0.

(** The record [e] is the record of the block [b]. *)
Definition describes (e : progress_entry) (b : Block) : Prop :=
  entry_nonce e = nonce b /\
  entry_hash e = hash b /\
  num_transactions e = Z.of_nat (length (transactions b)).

(** The numbers of the blocks whose batch has a transaction, the batches
    being numbered from [i + 1]. *)
Fixpoint kept_numbers (i : Z) (batches : list (list Transaction * pyfloat))
  : list Z :=
  match batches with
  | [] => []
  | (txs, _) :: rest =>
      match txs with
      | [] => kept_numbers (i + 1) rest
      | _ :: _ => (i + 1) :: kept_numbers (i + 1) rest
      end
  end.

(** The attempts recorded, summed. *)
Definition attempts (progress_data : list progress_entry) : Z :=
  fold_right Z.add 0 (map entry_nonces_tested progress_data).

(** The records of blocks that have a transaction. *)
Definition with_transactions (progress_data : list progress_entry)
  : list progress_entry :=
  filter (fun e => 0 <? num_transactions e) progress_data.

End Model.

(** ** A concrete reading of floats, and sample data

    Floats with an integral value below 10^16 in magnitude: Python renders
    such a value with its digits followed by [.0], in [str()] and in
    [json.dumps] alike. *)

Definition whole_str (z : Z) : string := str_of_int z ++ ".0".

Definition whole_floats : PyFloat :=
  {| pyfloat := Z; float_str := whole_str; float_json := whole_str;
     float_zero := 0 |}.

Module Sample.

#[local] Existing Instance whole_floats.

(** One transfer of 10.0 from the address aaa...a to the address bbb...b. *)
Definition tx1 : Transaction :=
  mkTransaction (str_mul "a" 64) (str_mul "b" 64) (10 : Z) (1700000000 : Z).

Definition zeros64 : string := str_mul "0" 64.

(** A fresh chain whose constructor read the clock at 1700000000.0. *)
Definition chain0 : Blockchain :=
  Blockchain_init (1700000000 : Z) (1700000000 : Z).

Definition tip_hash : string :=
  match get_latest_block chain0 with
  | Some b => hash b
  | None => EmptyString
  end.

(** The clock reading of the sample searches. *)
Definition now : pyfloat := (1700000022 : Z).

(** The block on top of the genesis block with nonce [n]. *)
Definition candidate (n : Z) : Block := Block_init tip_hash [tx1] now n.

(** The same block with its hash field replaced by sixty-four zeros. *)
Definition forged : Block := set_hash (candidate 3) zeros64.

(** Blocks that break one or two conditions of the validator. *)
Definition unlinked : Block := Block_init zeros64 [tx1] now 0.
Definition empty_block : Block := Block_init tip_hash [] now 0.
Definition unlinked_empty : Block := Block_init zeros64 [] now 0.

(** A scheduler that runs every worker for at most [fuel] attempts with
    the flag never seen set, and delivers the reports in spawn order; a
    worker that has not reported shows as a timed-out [get]. *)
Definition pool_in_order (fuel : nat) (spawned : list worker_args)
    : list (option worker_result) :=
  map (fun a =>
         match run_worker a (fun _ => false) fuel with
         | Ok (_, r) => r
         | Raise _ => None
         end) spawned.

(** A queue on which a timeout and a stopped worker come first, then two
    winners. *)
Definition two_winners : list (option worker_result) :=
  [ None;
    Some (NotFound 0 10000);
    Some (Found 1 3 (hash (candidate 3)) (Block_to_dict (candidate 3)) 2);
    Some (Found 0 44 (hash (candidate 44)) (Block_to_dict (candidate 44)) 23) ].

(** A scheduler that delivers a given queue. *)
Definition pool_of (events : list (option worker_result))
    (spawned : list worker_args) : list (option worker_result) :=
  events.

(** The genesis block of the sample chain. *)
Definition genesis : Block :=
  create_genesis_block (1700000000 : Z) (1700000000 : Z).

End Sample.

(** * Properties *)

#[local] Arguments String.append !s1 s2 : simpl nomatch.

Section Properties.
Context {F : PyFloat}.

(** ** Strings *)

Lemma append_assoc (a b c : string) : (a ++ b) ++ c = a ++ (b ++ c).
Proof.
  induction a as [|x a IH]; simpl; [reflexivity | now rewrite IH].
Qed.

Lemma str_repeat_zero_succ (n : nat) :
  str_repeat "0" (S n) = String "0"%char (str_repeat "0" n).
Proof. reflexivity. Qed.

Lemma prefix_cons (a b : ascii) (p s : string) :
  String.prefix (String a p) (String b s) =
  if ascii_dec a b then String.prefix p s else false.
Proof. reflexivity. Qed.

(** The prefix test against a run of zeros, character by character. *)
Lemma prefix_zeros_get (n : nat) (h : string) :
  String.prefix (str_repeat "0" n) h = true <->
  (forall i : nat, (i < n)%nat -> String.get i h = Some "0"%char).
Proof.
  revert h; induction n as [|n IH]; intros h.
  - simpl. split; [intros _ i Hi; lia | intros _; now destruct h].
  - rewrite str_repeat_zero_succ. destruct h as [|c h].
    + split; [discriminate |].
      intros H. specialize (H 0%nat ltac:(lia)). discriminate.
    + rewrite prefix_cons. destruct (ascii_dec "0" c) as [<-|Hne].
      * rewrite IH. split.
        -- intros H [|i] Hi; [reflexivity | simpl; apply H; lia].
        -- intros H i Hi. apply (H (S i)). lia.
      * split; [discriminate |].
        intros H. specialize (H 0%nat ltac:(lia)). simpl in H.
        congruence.
Qed.

Lemma startswith_zeros (d : Z) (h : string) :
  startswith h (str_mul "0" d) = true <-> begins_with_zeros d h.
Proof. apply prefix_zeros_get. Qed.

Lemma startswith_no_zeros (d : Z) (h : string) :
  d <= 0 -> startswith h (str_mul "0" d) = true.
Proof.
  intros Hd. apply startswith_zeros. intros i Hi. lia.
Qed.

(** ** Dictionaries written by to_dict are read back by from_dict *)

Lemma Transaction_round_trip (tx : Transaction) :
  Transaction_from_dict (Transaction_to_dict tx) = Ok tx.
Proof. destruct tx; reflexivity. Qed.

Lemma Transactions_round_trip (txs : list Transaction) :
  rmap Transaction_from_dict (map Transaction_to_dict txs) = Ok txs.
Proof.
  induction txs as [|tx txs IH]; [reflexivity |].
  cbn [map rmap]. rewrite Transaction_round_trip. cbn [rbind].
  rewrite IH. reflexivity.
Qed.

Lemma set_hash_init (b : Block) :
  set_hash (Block_init (previous_hash b) (transactions b) (timestamp b)
                       (nonce b)) (hash b) = b.
Proof. destruct b; reflexivity. Qed.

Lemma Block_round_trip (b : Block) :
  Block_from_dict (Block_to_dict b) = Ok b.
Proof.
  unfold Block_from_dict, Block_to_dict.
  change (get_list _ "transactions")
    with (Ok (A := list pyvalue) (map Transaction_to_dict (transactions b))).
  cbn [rbind]. rewrite Transactions_round_trip.
  change (Ok (set_hash (Block_init (previous_hash b) (transactions b)
                                   (timestamp b) (nonce b)) (hash b)) = Ok b).
  now rewrite set_hash_init.
Qed.

Lemma Blocks_round_trip (bs : list Block) :
  rmap Block_from_dict (map Block_to_dict bs) = Ok bs.
Proof.
  induction bs as [|b bs IH]; [reflexivity |].
  cbn [map rmap]. rewrite Block_round_trip. cbn [rbind].
  rewrite IH. reflexivity.
Qed.

Lemma rbind_Ok {A B : Type} (m : result A) (k : A -> result B) (b : B) :
  rbind m k = Ok b -> exists a, m = Ok a /\ k a = Ok b.
Proof. destruct m as [a|e]; simpl; [eauto | discriminate]. Qed.

(** What a successful [Block.from_dict] has read. *)
Lemma Block_from_dict_Ok (data : pyvalue) (b : Block) :
  Block_from_dict data = Ok b ->
  exists txs_data,
    get_list data "transactions" = Ok txs_data /\
    rmap Transaction_from_dict txs_data = Ok (transactions b) /\
    get_str data "previous_hash" = Ok (previous_hash b) /\
    get_float data "timestamp" = Ok (timestamp b) /\
    get_int data "nonce" = Ok (nonce b) /\
    get_str data "hash" = Ok (hash b).
Proof.
  unfold Block_from_dict. intros H.
  apply rbind_Ok in H as (txs_data & Htd & H).
  apply rbind_Ok in H as (txs & Htxs & H).
  apply rbind_Ok in H as (prev & Hprev & H).
  apply rbind_Ok in H as (ts & Hts & H).
  apply rbind_Ok in H as (n & Hn & H).
  apply rbind_Ok in H as (h & Hh & H).
  injection H as <-. exists txs_data. simpl. auto 10.
Qed.

Lemma rmap_Ok_Forall2 {A B : Type} (f : A -> result B) (l : list A)
    (l' : list B) :
  rmap f l = Ok l' -> Forall2 (fun a b => f a = Ok b) l l'.
Proof.
  revert l'; induction l as [|a l IH]; simpl; intros l' H.
  - injection H as <-. constructor.
  - apply rbind_Ok in H as (b & Hb & H).
    apply rbind_Ok in H as (bs & Hbs & H).
    injection H as <-. constructor; auto.
Qed.

Lemma Block_init_contract (prev : string) (txs : list Transaction)
    (ts : pyfloat) (n : Z) :
  hash_contract (Block_init prev txs ts n).
Proof. reflexivity. Qed.

(** Overwriting the hash keeps the contract exactly when the value written
    is the digest of the fields. *)
Lemma set_hash_contract (b : Block) (h : string) :
  hash_contract (set_hash b h) <-> h = Block_calculate_hash b.
Proof.
  unfold hash_contract, Block_calculate_hash, set_hash.
  cbn [previous_hash timestamp nonce transactions hash].
  split; congruence.
Qed.

(** ** The validator, check by check *)

Lemma linkage_of_empty (block : Block) (d : Z) :
  condition (mkBlockchain []) block d LinkageError.
Proof. intros tip H. discriminate. Qed.

(** The verdict and the output of [validate_block], by the first condition
    that fails. *)
Lemma validate_block_cases (self : Blockchain) (block : Block) (d : Z) :
  (exists tip,
      get_latest_block self = Some tip /\
      previous_hash block <> hash tip /\
      validate_block self block d =
        (false, [InvalidPreviousHash (hash tip) (previous_hash block)]))
  \/ (condition self block d LinkageError /\
      violated self block d HashMismatchError /\
      validate_block self block d =
        (false, [HashMismatch (Block_calculate_hash block) (hash block)]))
  \/ (condition self block d LinkageError /\
      condition self block d HashMismatchError /\
      violated self block d DifficultyNotMetError /\
      validate_block self block d = (false, [DifficultyNotMet d]))
  \/ (condition self block d LinkageError /\
      condition self block d HashMismatchError /\
      condition self block d DifficultyNotMetError /\
      violated self block d EmptyBlockError /\
      validate_block self block d = (false, [NoTransactions]))
  \/ (condition self block d LinkageError /\
      condition self block d HashMismatchError /\
      condition self block d DifficultyNotMetError /\
      condition self block d EmptyBlockError /\
      validate_block self block d = (true, [])).
Proof.
  unfold validate_block, violated.
  assert (Hlink :
    (exists tip, get_latest_block self = Some tip /\
                 (0 <? Z.of_nat (length (chain self))) = true) \/
    (get_latest_block self = None /\
     (0 <? Z.of_nat (length (chain self))) = false)).
  { unfold get_latest_block. destruct self as [c]. cbn [chain].
    destruct c as [|b c].
    - right. split; reflexivity.
    - left. destruct (last (b :: c)) as [tip|] eqn:E.
      + exists tip. split; [reflexivity |]. apply Z.ltb_lt. cbn [length]. lia.
      + apply last_None in E. discriminate. }
  assert (Hrest :
    condition self block d LinkageError ->
    forall out,
      out =
        (let recalculated_hash := Block_calculate_hash block in
         if negb (String.eqb recalculated_hash (hash block)) then
           (false, [HashMismatch recalculated_hash (hash block)])
         else
           let required_prefix := str_mul "0" d in
           if negb (startswith (hash block) required_prefix) then
             (false, [DifficultyNotMet d])
           else
             match transactions block with
             | [] => (false, [NoTransactions])
             | _ :: _ => (true, [])
             end) ->
      (condition self block d LinkageError /\
       ~ condition self block d HashMismatchError /\
       out = (false, [HashMismatch (Block_calculate_hash block) (hash block)]))
      \/ (condition self block d LinkageError /\
          condition self block d HashMismatchError /\
          ~ condition self block d DifficultyNotMetError /\
          out = (false, [DifficultyNotMet d]))
      \/ (condition self block d LinkageError /\
          condition self block d HashMismatchError /\
          condition self block d DifficultyNotMetError /\
          ~ condition self block d EmptyBlockError /\
          out = (false, [NoTransactions]))
      \/ (condition self block d LinkageError /\
          condition self block d HashMismatchError /\
          condition self block d DifficultyNotMetError /\
          condition self block d EmptyBlockError /\
          out = (true, []))).
  { intros HL out ->. cbv zeta. cbn [condition]. unfold hash_contract.
    destruct (String.eqb_spec (Block_calculate_hash block) (hash block))
      as [Heq|Hne]; cbn [negb].
    2:{ left. auto. }
    right.
    destruct (startswith (hash block) (str_mul "0" d)) eqn:Hd; cbn [negb].
    2:{ left. repeat split; auto.
        intros Hz. apply startswith_zeros in Hz. congruence. }
    right. apply startswith_zeros in Hd.
    destruct (transactions block) as [|tx txs] eqn:Htx.
    - left. repeat split; auto.
    - right. repeat split; auto; discriminate. }
  destruct Hlink as [(tip & Htip & Hlen) | (Hnone & Hlen)]; rewrite Hlen.
  - rewrite Htip.
    destruct (String.eqb_spec (previous_hash block) (hash tip)) as [Heq|Hne];
      cbn [negb].
    + right. apply Hrest; [| reflexivity].
      intros tip' Htip'. congruence.
    + left. exists tip. auto.
  - right. apply Hrest; [| reflexivity].
    intros tip' Htip'. congruence.
Qed.

(** C2: for every chain, candidate block and non-negative difficulty,
    [validate_block] answers [True] exactly when the four conditions hold:
    the candidate's previous hash is the hash of the tip (when there is a
    tip), the digest recomputed from its fields is its hash field, the hash
    field begins with [difficulty] characters 0, and its transaction list is
    not empty. *)
Theorem C2_validate_iff_four_conditions
    (self : Blockchain) (block : Block) (difficulty : Z) :
  0 <= difficulty ->
  fst (validate_block self block difficulty) = true <->
  ((forall tip, get_latest_block self = Some tip ->
                previous_hash block = hash tip) /\
   Block_calculate_hash block = hash block /\
   begins_with_zeros difficulty (hash block) /\
   transactions block <> []).
Proof.
  intros _.
  change ((fst (validate_block self block difficulty) = true) <->
          (condition self block difficulty LinkageError /\
           condition self block difficulty HashMismatchError /\
           condition self block difficulty DifficultyNotMetError /\
           condition self block difficulty EmptyBlockError)).
  destruct (validate_block_cases self block difficulty)
    as [(tip & Htip & Hne & ->)
       | [(HL & HH & ->)
         | [(HL & HH & HD & ->)
           | [(HL & HH & HD & HE & ->) | (HL & HH & HD & HE & ->)]]]];
    cbn [fst]; unfold violated in *.
  - split; [discriminate |]. intros (HL & _). exfalso. apply Hne, HL, Htip.
  - split; [discriminate | tauto].
  - split; [discriminate | tauto].
  - split; [discriminate | tauto].
  - tauto.
Qed.

(** C3, as the code has it: when validation fails, [add_block] returns
    [False] and leaves the chain as it was; the checks run in the order
    linkage, hash, difficulty, transactions and stop at the first condition
    that is violated, whose diagnostic is the one printed (followed by the
    line of [add_block]); when validation succeeds the block is appended
    and [True] is returned.  Appending is validate-then-insert. *)
Theorem C3_add_block_rejects_at_first_violation
    (self : Blockchain) (block : Block) (difficulty : Z) :
  (fst (validate_block self block difficulty) = false ->
   exists k diag,
     violated self block difficulty k /\
     (forall k', (rank k' < rank k)%nat ->
                 condition self block difficulty k') /\
     kind_of diag = Some k /\
     add_block self block difficulty = (false, self, [diag; ValidationFailed]))
  /\
  (fst (validate_block self block difficulty) = true ->
   add_block self block difficulty =
     (true, mkBlockchain (chain self ++ [block])%list, [])).
Proof.
  unfold add_block.
  destruct (validate_block_cases self block difficulty)
    as [(tip & Htip & Hne & ->)
       | [(HL & HH & ->)
         | [(HL & HH & HD & ->)
           | [(HL & HH & HD & HE & ->) | (HL & HH & HD & HE & ->)]]]];
    cbn [fst negb app]; (split; intros Hv; try discriminate Hv; clear Hv).
  - exists LinkageError, (InvalidPreviousHash (hash tip) (previous_hash block)).
    repeat split.
    + intros HL. apply Hne, HL, Htip.
    + intros k' Hk'. cbn [rank] in Hk'. lia.
  - exists HashMismatchError,
      (HashMismatch (Block_calculate_hash block) (hash block)).
    repeat split; auto.
    intros [] Hk'; cbn [rank] in Hk'; try lia; assumption.
  - exists DifficultyNotMetError, (DifficultyNotMet difficulty).
    repeat split; auto.
    intros [] Hk'; cbn [rank] in Hk'; try lia; assumption.
  - exists EmptyBlockError, NoTransactions.
    repeat split; auto.
    intros [] Hk'; cbn [rank] in Hk'; try lia; assumption.
  - reflexivity.
Qed.

(** ** The digest and its input *)

Lemma hexdigit_in (n : Z) : In (SHA256.hexdigit n) SHA256.hexchars.
Proof.
  unfold SHA256.hexdigit.
  destruct (Nat.lt_ge_cases (Z.to_nat (Z.land n 15))
                            (length SHA256.hexchars)) as [Hlt|Hge].
  - now apply nth_In.
  - rewrite nth_overflow by exact Hge. cbn. auto.
Qed.

Lemma hexdigest_lowercase_hex (msg : list Z) :
  lowercase_hex_256 (SHA256.hexdigest msg).
Proof.
  unfold lowercase_hex_256, SHA256.hexdigest, SHA256.hexstate,
    SHA256.hexword.
  split; [reflexivity |].
  cbn [list_ascii_of_string].
  repeat (apply List.Forall_cons; [apply hexdigit_in |]).
  apply List.Forall_nil.
Qed.

Lemma json_dumps_list (items : list pyvalue) :
  json_dumps (PyList items) =
  "[" ++ str_join item_separator (map json_dumps items) ++ "]".
Proof. reflexivity. Qed.

Lemma json_dumps_dict (items : list (string * pyvalue)) :
  json_dumps (PyDict items) =
  "{" ++ str_join item_separator
           (map (fun '(k, r) => json_string k ++ key_separator ++ r)
                (sort_by_key (map (fun '(k, x) => (k, json_dumps x)) items)))
      ++ "}".
Proof. reflexivity. Qed.

(** The four keys of a transaction, sorted. *)
Lemma sort_transaction_keys {A : Type} (s r a t : A) :
  sort_by_key [("sender", s); ("recipient", r); ("amount", a);
               ("timestamp", t)] =
  [("amount", a); ("recipient", r); ("sender", s); ("timestamp", t)].
Proof. reflexivity. Qed.

Lemma json_dumps_transaction (tx : Transaction) :
  json_dumps (Transaction_to_dict tx) = canonical_record ", " ": " tx.
Proof.
  destruct tx as [s r a t].
  unfold canonical_record, Transaction_to_dict.
  cbn [sender recipient amount tx_timestamp].
  rewrite json_dumps_dict. cbn [map].
  rewrite sort_transaction_keys. cbn [map str_join].
  change (json_dumps (PyStr s)) with (json_string s).
  change (json_dumps (PyStr r)) with (json_string r).
  change (json_dumps (PyFloat_ a)) with (float_json a).
  change (json_dumps (PyFloat_ t)) with (float_json t).
  unfold item_separator, key_separator.
  rewrite !append_assoc. reflexivity.
Qed.

Lemma block_string_canonical (prev : string) (ts : pyfloat) (n : Z)
    (txs : list Transaction) :
  block_string prev ts n txs = canonical_input ", " ": " prev ts n txs.
Proof.
  unfold block_string, canonical_input. cbv zeta.
  rewrite json_dumps_list, map_map.
  rewrite (map_ext _ _ json_dumps_transaction). reflexivity.
Qed.

(** C4, as the code has it: the digest input is the previous hash, the
    timestamp as [str()] renders it, the nonce in decimal and the JSON list
    of the transactions, in this order; every transaction is a record with
    its fields in alphabetical order (amount, recipient, sender, timestamp);
    a comma and a space separate fields and records, a colon and a space
    separate a key from its value, and there is no other white space
    outside the values.  The digest is SHA-256 in sixty-four lowercase
    hexadecimal characters. *)
Theorem C4_digest_input_format (b : Block) :
  Block_calculate_hash b = canonical_digest ", " ": " b /\
  lowercase_hex_256 (Block_calculate_hash b).
Proof.
  unfold Block_calculate_hash, digest_of, canonical_digest.
  rewrite block_string_canonical.
  split; [reflexivity | apply hexdigest_lowercase_hex].
Qed.

(** ** Construction and loading *)

(** C8, as the code has it: a block built by [Block.__init__], and hence
    every block the sequential search returns, carries the digest of its
    four content fields as its hash.  A block rebuilt by [Block.from_dict]
    carries the stored fields and the stored hash as they are, so it keeps
    the contract exactly when the stored hash is the digest of the stored
    fields; that is the case for the dictionary written by [to_dict] from a
    block that keeps the contract. *)
Theorem C8_hash_contract_of_constructions :
  (forall prev txs ts n, hash_contract (Block_init prev txs ts n)) /\
  (forall prev txs d start max_nonce cb now fuel b k calls,
      mine_block prev txs d start max_nonce cb now fuel
        = Some (Some b, k, calls) ->
      hash_contract b) /\
  (forall data b,
      Block_from_dict data = Ok b ->
      get_str data "hash" = Ok (hash b) /\
      (hash_contract b <->
       get_str data "hash" =
         Ok (digest_of (previous_hash b) (timestamp b) (nonce b)
                       (transactions b)))) /\
  (forall b, hash_contract b ->
             exists b', Block_from_dict (Block_to_dict b) = Ok b' /\
                        hash_contract b').
Proof.
  split; [exact Block_init_contract |].
  split.
  { intros prev txs d start max_nonce cb now fuel. unfold mine_block.
    generalize (@nil (Z * string)) as calls0. generalize 0 as t.
    revert start.
    induction fuel as [|fuel IH]; intros n t calls0 b k calls;
      cbn [mine_loop]; destruct (below_bound max_nonce n); cbn [negb];
      try discriminate.
    match goal with
    | |- context [if startswith ?h ?p then _ else _] =>
        destruct (startswith h p)
    end.
    - intros H. injection H as <- _ _. apply Block_init_contract.
    - apply IH. }
  split.
  { intros data b H.
    destruct (Block_from_dict_Ok _ _ H) as (txs_data & _ & _ & _ & _ & _ & Hh).
    split; [exact Hh |].
    rewrite Hh. unfold hash_contract, Block_calculate_hash.
    split; [intros -> | intros E]; congruence. }
  intros b Hb. exists b. split; [apply Block_round_trip | exact Hb].
Qed.

Lemma Blockchain_round_trip (t_tx t_block : pyfloat) (bc : Blockchain) :
  Blockchain_from_dict t_tx t_block (Blockchain_to_dict bc) = Ok bc.
Proof.
  destruct bc as [c]. unfold Blockchain_from_dict, Blockchain_to_dict.
  cbn [chain].
  change (get_list _ "blocks")
    with (Ok (A := list pyvalue) (map Block_to_dict c)).
  cbn [rbind]. rewrite Blocks_round_trip. reflexivity.
Qed.

(** C9, as the code has it: [Blockchain.from_dict] checks no digest.  It
    rebuilds every stored block with its stored fields and stored hash, in
    order, whatever the hash; a chain written by [to_dict] is read back
    unchanged, so its blocks keep the contract exactly when they kept it
    before. *)
Theorem C9_load_keeps_stored_hashes (t_tx t_block : pyfloat) :
  (forall bc, Blockchain_from_dict t_tx t_block (Blockchain_to_dict bc) = Ok bc)
  /\
  (forall data bc,
      Blockchain_from_dict t_tx t_block data = Ok bc ->
      exists blocks_data,
        get_list data "blocks" = Ok blocks_data /\
        Forall2 (fun d b => Block_from_dict d = Ok b /\
                            get_str d "hash" = Ok (hash b))
                blocks_data (chain bc))
  /\
  (forall bc, Forall hash_contract (chain bc) ->
              exists bc',
                Blockchain_from_dict t_tx t_block (Blockchain_to_dict bc)
                  = Ok bc' /\
                Forall hash_contract (chain bc')).
Proof.
  split; [apply Blockchain_round_trip |]. split.
  - intros data bc H. unfold Blockchain_from_dict in H. cbv zeta in H.
    apply rbind_Ok in H as (blocks_data & Hbd & H).
    apply rbind_Ok in H as (blocks & Hbs & H).
    injection H as <-. exists blocks_data. split; [exact Hbd |].
    cbn [chain app]. apply rmap_Ok_Forall2 in Hbs.
    clear Hbd.
    induction Hbs as [|d b ds bs Hd _ IH]; [constructor |].
    constructor; [| exact IH].
    split; [exact Hd |].
    destruct (Block_from_dict_Ok _ _ Hd) as (? & _ & _ & _ & _ & _ & Hh).
    exact Hh.
  - intros bc Hbc. exists bc.
    split; [apply Blockchain_round_trip | exact Hbc].
Qed.

(** ** The sequential search *)

Section Search.
Variables (prev : string) (txs : list Transaction) (d : Z).
Variables (max_nonce : option Z) (cb : bool) (ts : pyfloat).

Abbreviation loop := (mine_loop prev txs d max_nonce cb ts).
Abbreviation ok := (meets prev txs ts d).
Abbreviation logged := (progress_log prev txs cb ts).

Lemma mine_loop_stop (fuel : nat) (n t : Z) (calls : list (Z * string)) :
  below_bound max_nonce n = false ->
  loop fuel n t calls = Some (None, t, calls).
Proof. intros H. destruct fuel; cbn [mine_loop]; now rewrite H. Qed.

Lemma mine_loop_idle (n t : Z) (calls : list (Z * string)) :
  below_bound max_nonce n = true -> loop 0%nat n t calls = None.
Proof. intros H. cbn [mine_loop]. now rewrite H. Qed.

Lemma mine_loop_hit (fuel : nat) (n t : Z) (calls : list (Z * string)) :
  below_bound max_nonce n = true -> ok n = true ->
  loop (S fuel) n t calls =
  Some (Some (Block_init prev txs ts n), t + 1, logged n t calls).
Proof.
  intros Hb Hok. unfold meets in Hok. cbn [mine_loop].
  rewrite Hb. cbn [negb]. cbn [Block_init hash]. now rewrite Hok.
Qed.

Lemma mine_loop_miss (fuel : nat) (n t : Z) (calls : list (Z * string)) :
  below_bound max_nonce n = true -> ok n = false ->
  loop (S fuel) n t calls = loop fuel (n + 1) (t + 1) (logged n t calls).
Proof.
  intros Hb Hok. unfold meets in Hok. cbn [mine_loop].
  rewrite Hb. cbn [negb]. cbn [Block_init hash]. now rewrite Hok.
Qed.

(** The three ways a turn of the loop can go. *)
Ltac loop_cases n :=
  destruct (below_bound max_nonce n) eqn:Hbound;
  [ destruct (ok n) eqn:Hok | ].

Lemma below_bound_down (n m : Z) :
  n <= m -> below_bound max_nonce m = true -> below_bound max_nonce n = true.
Proof.
  unfold below_bound. destruct max_nonce as [M|]; [| reflexivity].
  rewrite !Z.ltb_lt. lia.
Qed.

(** A returned block: where it is, and how many attempts it took. *)
Lemma mine_loop_found (fuel : nat) :
  forall n t calls b k calls',
    loop fuel n t calls = Some (Some b, k, calls') ->
    n <= nonce b /\
    b = Block_init prev txs ts (nonce b) /\
    ok (nonce b) = true /\
    below_bound max_nonce (nonce b) = true /\
    (forall m, n <= m < nonce b -> ok m = false) /\
    k = t + (nonce b - n) + 1.
Proof.
  induction fuel as [|fuel IH]; intros n t calls b k calls' H.
  - loop_cases n.
    + rewrite mine_loop_idle in H by assumption. discriminate.
    + rewrite mine_loop_idle in H by assumption. discriminate.
    + rewrite mine_loop_stop in H by assumption. discriminate.
  - loop_cases n.
    + rewrite mine_loop_hit in H by assumption.
      injection H as <- <- _. cbn [Block_init nonce].
      repeat split; auto; try lia.
    + rewrite mine_loop_miss in H by assumption.
      apply IH in H as (Hle & Hb & Hm & Hbb & Hmin & Hk).
      repeat split; auto; try lia.
      intros m Hm'. destruct (Z.eq_dec m n) as [->|Hne]; [exact Hok |].
      apply Hmin. lia.
    + rewrite mine_loop_stop in H by assumption. discriminate.
Qed.

(** An exhausted search: the bound, and how many attempts it took. *)
Lemma mine_loop_exhausted (fuel : nat) :
  forall n t calls k calls',
    loop fuel n t calls = Some (None, k, calls') ->
    exists M, max_nonce = Some M /\
              (forall m, n <= m < M -> ok m = false) /\
              k = t + Z.max 0 (M - n).
Proof.
  induction fuel as [|fuel IH]; intros n t calls k calls' H.
  - loop_cases n; try (rewrite mine_loop_idle in H by assumption;
                       discriminate).
    rewrite mine_loop_stop in H by assumption. injection H as <- _.
    unfold below_bound in Hbound. destruct max_nonce as [M|]; [| discriminate].
    apply Z.ltb_ge in Hbound. exists M. repeat split; [intros; lia | lia].
  - loop_cases n.
    + rewrite mine_loop_hit in H by assumption. discriminate.
    + rewrite mine_loop_miss in H by assumption.
      apply IH in H as (M & HM & Hmin & Hk). exists M.
      assert (n < M).
      { unfold below_bound in Hbound. rewrite HM in Hbound.
        now apply Z.ltb_lt. }
      repeat split; [exact HM | | lia].
      intros m Hm'. destruct (Z.eq_dec m n) as [->|Hne]; [exact Hok |].
      apply Hmin. lia.
    + rewrite mine_loop_stop in H by assumption. injection H as <- _.
      unfold below_bound in Hbound. destruct max_nonce as [M|]; [| discriminate].
      apply Z.ltb_ge in Hbound. exists M. repeat split; [intros; lia | lia].
Qed.

(** More fuel does not change an answer. *)
Lemma mine_loop_more_fuel (fuel : nat) :
  forall extra n t calls r,
    loop fuel n t calls = Some r ->
    loop (fuel + extra) n t calls = Some r.
Proof.
  induction fuel as [|fuel IH]; intros extra n t calls r H.
  - loop_cases n; try (rewrite mine_loop_idle in H by assumption;
                       discriminate).
    rewrite mine_loop_stop in H by assumption.
    now rewrite mine_loop_stop by assumption.
  - cbn [Nat.add]. loop_cases n.
    + rewrite mine_loop_hit in * by assumption. exact H.
    + rewrite mine_loop_miss in * by assumption. now apply IH.
    + rewrite mine_loop_stop in * by assumption. exact H.
Qed.

Lemma mine_loop_deterministic (fuel fuel' : nat) (n t : Z)
    (calls : list (Z * string)) r r' :
  loop fuel n t calls = Some r -> loop fuel' n t calls = Some r' -> r = r'.
Proof.
  intros H H'.
  apply (mine_loop_more_fuel _ fuel') in H.
  apply (mine_loop_more_fuel _ fuel) in H'.
  rewrite Nat.add_comm in H'. congruence.
Qed.

(** A nonce that passes the test is found, or an earlier one is. *)
Lemma mine_loop_finds (gap : nat) :
  forall n t calls,
    ok (n + Z.of_nat gap) = true ->
    below_bound max_nonce (n + Z.of_nat gap) = true ->
    exists b k calls',
      loop (S gap) n t calls = Some (Some b, k, calls').
Proof.
  induction gap as [|gap IH]; intros n t calls Hok' Hb'.
  - replace (n + Z.of_nat 0) with n in * by lia.
    rewrite mine_loop_hit by assumption. eauto.
  - assert (Hbn : below_bound max_nonce n = true)
      by (eapply below_bound_down; [| exact Hb']; lia).
    destruct (ok n) eqn:Hok.
    + rewrite mine_loop_hit by assumption. eauto.
    + rewrite mine_loop_miss by assumption. apply IH.
      * replace (n + 1 + Z.of_nat gap) with (n + Z.of_nat (S gap)) by lia.
        exact Hok'.
      * replace (n + 1 + Z.of_nat gap) with (n + Z.of_nat (S gap)) by lia.
        exact Hb'.
Qed.

End Search.

(** With a bound and no nonce below it that passes, the loop ends within
    [M - n] turns. *)
Lemma mine_loop_runs_out (prev : string) (txs : list Transaction) (d M : Z)
    (cb : bool) (ts : pyfloat) (gap : nat) :
  forall n t calls fuel,
    M - n <= Z.of_nat gap ->
    (gap <= fuel)%nat ->
    (forall m, n <= m < M -> meets prev txs ts d m = false) ->
    exists calls',
      mine_loop prev txs d (Some M) cb ts fuel n t calls
        = Some (None, t + Z.max 0 (M - n), calls').
Proof.
  induction gap as [|gap IH]; intros n t calls fuel Hgap Hfuel Hnone.
  - rewrite mine_loop_stop by (cbn; apply Z.ltb_ge; lia).
    exists calls. do 2 f_equal. f_equal. lia.
  - destruct (Z.ltb_spec n M) as [Hlt|Hge].
    + destruct fuel as [|fuel]; [lia |].
      rewrite mine_loop_miss
        by (try (cbn; apply Z.ltb_lt; lia); apply Hnone; lia).
      destruct (IH (n + 1) (t + 1) (progress_log prev txs cb ts n t calls) fuel)
        as (calls' & Hc); try lia.
      { intros m Hm. apply Hnone. lia. }
      exists calls'. rewrite Hc. do 2 f_equal. f_equal. lia.
    + rewrite mine_loop_stop by (cbn; apply Z.ltb_ge; lia).
      exists calls. do 2 f_equal. f_equal. lia.
Qed.

(** C5: when the sequential search returns a block, its nonce is the
    smallest one from [start_nonce] on whose digest begins with
    [difficulty] zeros; the answer does not depend on how long the search is
    let run, so repeated runs on the same arguments and clock reading agree;
    a passing nonce below the bound makes the search succeed; and with
    difficulty 0 the first attempt, at [start_nonce], is returned. *)
Theorem C5_mine_block_smallest_nonce
    (prev : string) (txs : list Transaction) (difficulty start_nonce : Z)
    (max_nonce : option Z) (cb : bool) (now : pyfloat) :
  (forall fuel b k calls,
      mine_block prev txs difficulty start_nonce max_nonce cb now fuel
        = Some (Some b, k, calls) ->
      start_nonce <= nonce b /\
      b = Block_init prev txs now (nonce b) /\
      begins_with_zeros difficulty (hash b) /\
      (forall m, start_nonce <= m < nonce b ->
                 ~ begins_with_zeros difficulty (digest_of prev now m txs)))
  /\
  (forall fuel fuel' r r',
      mine_block prev txs difficulty start_nonce max_nonce cb now fuel
        = Some r ->
      mine_block prev txs difficulty start_nonce max_nonce cb now fuel'
        = Some r' ->
      r = r')
  /\
  (forall m,
      start_nonce <= m -> below_bound max_nonce m = true ->
      begins_with_zeros difficulty (digest_of prev now m txs) ->
      exists b k calls,
        mine_block prev txs difficulty start_nonce max_nonce cb now
                   (S (Z.to_nat (m - start_nonce)))
          = Some (Some b, k, calls))
  /\
  (difficulty = 0 -> below_bound max_nonce start_nonce = true ->
   forall fuel,
     mine_block prev txs difficulty start_nonce max_nonce cb now (S fuel)
       = Some (Some (Block_init prev txs now start_nonce), 1, [])).
Proof.
  unfold mine_block. repeat split.
  - apply mine_loop_found in H. tauto.
  - apply mine_loop_found in H. tauto.
  - apply mine_loop_found in H as (_ & Hb & Hok & _).
    apply startswith_zeros. rewrite Hb. exact Hok.
  - intros m Hm Hz. apply mine_loop_found in H as (_ & _ & _ & _ & Hmin & _).
    apply startswith_zeros in Hz. specialize (Hmin m Hm).
    unfold meets in Hmin. congruence.
  - intros fuel fuel' r r'. apply mine_loop_deterministic.
  - intros m Hm Hb Hz. apply mine_loop_finds.
    + apply startswith_zeros in Hz.
      replace (start_nonce + Z.of_nat (Z.to_nat (m - start_nonce)))
        with m by lia.
      exact Hz.
    + replace (start_nonce + Z.of_nat (Z.to_nat (m - start_nonce)))
        with m by lia.
      exact Hb.
  - intros -> Hb fuel.
    rewrite mine_loop_hit;
      [| exact Hb | apply startswith_no_zeros; lia].
    unfold progress_log. destruct cb; reflexivity.
Qed.

(** C6: with a finite upper bound and no nonce from [start_nonce] up to the
    bound whose digest passes the test, the search ends after at most
    [max_nonce - start_nonce] attempts and returns no block, together with
    the number of candidates it tested. *)
Theorem C6_bounded_search_exhausts
    (prev : string) (txs : list Transaction) (difficulty start_nonce M : Z)
    (cb : bool) (now : pyfloat) :
  (forall m, start_nonce <= m < M ->
             ~ begins_with_zeros difficulty (digest_of prev now m txs)) ->
  forall fuel,
    (Z.to_nat (M - start_nonce) <= fuel)%nat ->
    exists calls,
      mine_block prev txs difficulty start_nonce (Some M) cb now fuel
        = Some (None, Z.max 0 (M - start_nonce), calls).
Proof.
  intros Hnone fuel Hfuel. unfold mine_block.
  destruct (mine_loop_runs_out prev txs difficulty M cb now
              (Z.to_nat (M - start_nonce)) start_nonce 0 [] fuel)
    as (calls & Hc); try lia.
  - intros m Hm. specialize (Hnone m Hm).
    unfold meets. destruct (startswith _ _) eqn:E; [| reflexivity].
    apply startswith_zeros in E. contradiction.
  - exists calls. rewrite Hc. reflexivity.
Qed.

(** C10: when the sequential search returns a block, the count it returns
    with it is the block's nonce minus [start_nonce] plus one: every nonce
    from [start_nonce] up to the winner was tested once, the earlier ones
    failing the test. *)
Theorem C10_nonces_tested_count
    (prev : string) (txs : list Transaction) (difficulty start_nonce : Z)
    (max_nonce : option Z) (cb : bool) (now : pyfloat) (fuel : nat)
    (b : Block) (k : Z) (calls : list (Z * string)) :
  mine_block prev txs difficulty start_nonce max_nonce cb now fuel
    = Some (Some b, k, calls) ->
  k = nonce b - start_nonce + 1 /\
  1 <= k /\
  (forall m, start_nonce <= m < nonce b ->
             meets prev txs now difficulty m = false) /\
  meets prev txs now difficulty (nonce b) = true.
Proof.
  unfold mine_block. intros H.
  apply mine_loop_found in H as (Hle & _ & Hok & _ & Hmin & Hk).
  repeat split; auto; lia.
Qed.

(** ** The worker's scan *)

Section Worker.
Variables (worker_id : Z) (prev : string) (txs : list Transaction).
Variables (ts : pyfloat) (d step : Z) (flag_seen : Z -> bool).

Abbreviation scan := (worker_loop worker_id prev txs ts d step flag_seen).
Abbreviation passes := (meets prev txs ts d).

Lemma worker_loop_hit (fuel : nat) (n t : Z) :
  passes n = true ->
  scan (S fuel) n t =
  ([n], Some (Found worker_id n (digest_of prev ts n txs)
                    (Block_to_dict (Block_init prev txs ts n)) (t + 1))).
Proof.
  intros Hok. unfold meets in Hok. cbn [worker_loop].
  cbn [Block_init hash]. rewrite Hok. reflexivity.
Qed.

Lemma worker_loop_quit (fuel : nat) (n t : Z) :
  passes n = false -> told_to_stop flag_seen t = true ->
  scan (S fuel) n t = ([n], Some (NotFound worker_id (t + 1))).
Proof.
  intros Hok Hstop. unfold meets in Hok. unfold told_to_stop in Hstop.
  cbn [worker_loop]. cbn [Block_init hash]. rewrite Hok, Hstop. reflexivity.
Qed.

Lemma worker_loop_miss (fuel : nat) (n t : Z) :
  passes n = false -> told_to_stop flag_seen t = false ->
  scan (S fuel) n t =
  (n :: fst (scan fuel (n + step) (t + 1)), snd (scan fuel (n + step) (t + 1))).
Proof.
  intros Hok Hstop. unfold meets in Hok. unfold told_to_stop in Hstop.
  cbn [worker_loop]. cbn [Block_init hash]. rewrite Hok, Hstop.
  destruct (worker_loop _ _ _ _ _ _ _ fuel (n + step) (t + 1)). reflexivity.
Qed.

Ltac scan_cases n t :=
  destruct (passes n) eqn:Hok;
  [ rewrite worker_loop_hit by assumption
  | destruct (told_to_stop flag_seen t) eqn:Hstop;
    [ rewrite worker_loop_quit by assumption
    | rewrite worker_loop_miss by assumption ] ].

(** The nonces tested are [n], [n + step], [n + 2 step], ... *)
Lemma worker_loop_tested (fuel : nat) :
  forall n t,
    fst (scan fuel n t) =
    map (fun j => n + Z.of_nat j * step)
        (seq 0 (length (fst (scan fuel n t)))).
Proof.
  induction fuel as [|fuel IH]; intros n t; [reflexivity |].
  scan_cases n t; cbn [fst length seq map].
  - f_equal. lia.
  - f_equal. lia.
  - f_equal; [lia |].
    rewrite <- seq_shift, map_map. rewrite IH at 1.
    apply map_ext. intros j. lia.
Qed.

Lemma worker_loop_starts (fuel : nat) (n t : Z) :
  head (fst (scan (S fuel) n t)) = Some n.
Proof. scan_cases n t; reflexivity. Qed.

(** A [Found] report describes a block built at a tested nonce that passes
    the test. *)
Lemma worker_loop_found (fuel : nat) :
  forall n t i w h block_data k,
    snd (scan fuel n t) = Some (Found i w h block_data k) ->
    i = worker_id /\
    h = digest_of prev ts w txs /\
    block_data = Block_to_dict (Block_init prev txs ts w) /\
    passes w = true /\
    In w (fst (scan fuel n t)).
Proof.
  induction fuel as [|fuel IH]; intros n t i w h block_data k;
    [discriminate |].
  scan_cases n t; cbn [fst snd].
  - intros H. injection H as <- <- <- <- _.
    repeat split; auto. now left.
  - discriminate.
  - intros H. apply IH in H as (? & ? & ? & ? & ?).
    repeat split; auto. now right.
Qed.

(** Unless it is stopped or finds a block earlier, the worker gets to its
    [j]-th nonce within [j + 1] attempts. *)
Lemma worker_loop_reaches (j : nat) :
  forall n t,
    (forall c, flag_seen c = false) ->
    (forall i, (i < j)%nat -> passes (n + Z.of_nat i * step) = false) ->
    In (n + Z.of_nat j * step) (fst (scan (S j) n t)).
Proof.
  induction j as [|j IH]; intros n t Hflag Hnone.
  - replace (n + Z.of_nat 0 * step) with n by lia.
    pose proof (worker_loop_starts 0 n t) as H.
    destruct (fst (scan 1 n t)) as [|x l]; [discriminate |].
    injection H as ->. now left.
  - assert (Hn : passes n = false).
    { specialize (Hnone 0%nat ltac:(lia)).
      replace (n + Z.of_nat 0 * step) with n in Hnone by lia. exact Hnone. }
    assert (Hs : told_to_stop flag_seen t = false).
    { unfold told_to_stop. rewrite Hflag. apply andb_false_r. }
    rewrite worker_loop_miss by assumption. cbn [fst]. right.
    replace (n + Z.of_nat (S j) * step)
      with (n + step + Z.of_nat j * step) by lia.
    apply IH; [exact Hflag |].
    intros i Hi. specialize (Hnone (S i) ltac:(lia)).
    replace (n + step + Z.of_nat i * step)
      with (n + Z.of_nat (S i) * step) by lia.
    exact Hnone.
Qed.

End Worker.

(** ** Spawning *)

Lemma py_range_In (n i : Z) : In i (py_range n) <-> 0 <= i < n.
Proof.
  unfold py_range. rewrite List.in_map_iff. split.
  - intros (j & <- & Hj). apply List.in_seq in Hj. lia.
  - intros Hi. exists (Z.to_nat i). split; [lia |].
    apply List.in_seq. lia.
Qed.

Lemma spawn_In (prev : string) (td : list pyvalue) (ts : pyfloat)
    (d n : Z) (a : worker_args) :
  In a (spawn prev td ts d n) <->
  exists i, 0 <= i < n /\ a = mkArgs i prev td ts d i n.
Proof.
  unfold spawn. rewrite List.in_map_iff. split.
  - intros (i & <- & Hi). apply py_range_In in Hi. eauto.
  - intros (i & Hi & ->). exists i. split; [reflexivity |].
    now apply py_range_In.
Qed.

(** A spawned worker reads its transactions back and scans from its own
    number in steps of the number of workers. *)
Lemma run_spawned (prev : string) (txs : list Transaction) (ts : pyfloat)
    (d n i : Z) (flag_seen : Z -> bool) (fuel : nat) :
  run_worker (mkArgs i prev (map Transaction_to_dict txs) ts d i n)
             flag_seen fuel
  = Ok (worker_loop i prev txs ts d n flag_seen fuel i 0).
Proof.
  unfold run_worker, worker_mine. cbn [a_worker_id a_previous_hash
    a_transactions_data a_timestamp a_difficulty a_start_nonce a_step].
  rewrite Transactions_round_trip. reflexivity.
Qed.

(** C7: worker [i] of [N], spawned with start nonce [i] and step [N], tests
    the nonces [i], [i + N], [i + 2 N], ... in this order, all congruent to
    [i] modulo [N]; two different workers never test the same nonce; and
    every non-negative nonce [n] belongs to worker [n mod N], which gets to
    it at its attempt number [n / N] unless it has stopped before. *)
Theorem C7_workers_scan_residue_classes
    (prev : string) (txs : list Transaction) (now : pyfloat)
    (difficulty N : Z) :
  0 < N ->
  let spawned := spawn prev (map Transaction_to_dict txs) now difficulty N in
  (forall a flag_seen fuel,
      In a spawned ->
      0 <= a_worker_id a < N /\
      a_start_nonce a = a_worker_id a /\
      a_step a = N /\
      exists tested r,
        run_worker a flag_seen fuel = Ok (tested, r) /\
        (fuel <> 0%nat -> head tested = Some (a_worker_id a)) /\
        tested = map (fun j => a_worker_id a + Z.of_nat j * N)
                     (seq 0 (length tested)) /\
        Forall (fun n => n mod N = a_worker_id a) tested)
  /\
  (forall a a' flag_seen flag_seen' fuel fuel' tested tested' r r' n,
      In a spawned -> In a' spawned ->
      run_worker a flag_seen fuel = Ok (tested, r) ->
      run_worker a' flag_seen' fuel' = Ok (tested', r') ->
      In n tested -> In n tested' ->
      a = a')
  /\
  (forall n,
      0 <= n ->
      exists a,
        In a spawned /\
        a_worker_id a = n mod N /\
        n = a_worker_id a + (n / N) * N /\
        (forall flag_seen,
            (forall c, flag_seen c = false) ->
            (forall j, 0 <= j < n / N ->
                       meets prev txs now difficulty (a_worker_id a + j * N)
                       = false) ->
            exists tested r,
              run_worker a flag_seen (S (Z.to_nat (n / N)))
                = Ok (tested, r) /\
              In n tested)).
Proof.
  intros HN spawned.
  assert (Hclass : forall a flag_seen fuel tested r n,
             In a spawned ->
             run_worker a flag_seen fuel = Ok (tested, r) ->
             In n tested -> 0 <= a_worker_id a < N /\ n mod N = a_worker_id a).
  { intros a flag_seen fuel tested r n Ha Hrun Hn.
    apply spawn_In in Ha as (i & Hi & ->).
    rewrite run_spawned in Hrun. injection Hrun as Hrun.
    cbn [a_worker_id]. split; [exact Hi |].
    pose proof (worker_loop_tested i prev txs now difficulty N flag_seen
                  fuel i 0) as Hseq.
    rewrite Hrun in Hseq. cbn [fst] in Hseq. rewrite Hseq in Hn.
    apply List.in_map_iff in Hn as (j & <- & _).
    rewrite Z.mod_add by lia. apply Z.mod_small. lia. }
  repeat split.
  - apply spawn_In in H as (i & Hi & ->). cbn [a_worker_id]. lia.
  - apply spawn_In in H as (i & Hi & ->). cbn [a_worker_id]. lia.
  - apply spawn_In in H as (i & Hi & ->). reflexivity.
  - apply spawn_In in H as (i & Hi & ->). reflexivity.
  - pose proof H as Ha. apply spawn_In in H as (i & Hi & ->).
    rewrite run_spawned.
    destruct (worker_loop i prev txs now difficulty N flag_seen fuel i 0)
      as [tested r] eqn:E.
    exists tested, r. split; [reflexivity |]. cbn [a_worker_id].
    assert (Htested :
      tested = fst (worker_loop i prev txs now difficulty N flag_seen fuel i 0))
      by now rewrite E.
    split; [| split].
    + intros Hfuel. destruct fuel as [|fuel]; [contradiction |].
      rewrite Htested. apply worker_loop_starts.
    + rewrite Htested. apply worker_loop_tested.
    + apply List.Forall_forall. intros n Hn.
      apply (Hclass (mkArgs i prev (map Transaction_to_dict txs) now
                            difficulty i N) flag_seen fuel tested r n Ha).
      * rewrite run_spawned, E. reflexivity.
      * exact Hn.
  - intros a a' flag_seen flag_seen' fuel fuel' tested tested' r r' n
      Ha Ha' Hrun Hrun' Hn Hn'.
    destruct (Hclass _ _ _ _ _ _ Ha Hrun Hn) as (_ & Hi).
    destruct (Hclass _ _ _ _ _ _ Ha' Hrun' Hn') as (_ & Hi').
    apply spawn_In in Ha as (i & _ & ->).
    apply spawn_In in Ha' as (i' & _ & ->).
    cbn [a_worker_id] in Hi, Hi'. congruence.
  - intros n Hn.
    exists (mkArgs (n mod N) prev (map Transaction_to_dict txs) now
                   difficulty (n mod N) N).
    cbn [a_worker_id].
    pose proof (Z.mod_pos_bound n N HN) as Hmod.
    pose proof (Z.div_mod n N ltac:(lia)) as Hdiv.
    pose proof (Z.div_pos n N Hn HN) as Hq.
    split; [apply spawn_In; eauto |].
    split; [reflexivity |]. split; [lia |].
    intros flag_seen Hflag Hnone. rewrite run_spawned.
    destruct (worker_loop (n mod N) prev txs now difficulty N flag_seen
                (S (Z.to_nat (n / N))) (n mod N) 0) as [tested r] eqn:E.
    exists tested, r. split; [reflexivity |].
    pose proof (worker_loop_reaches (n mod N) prev txs now difficulty N
                  flag_seen (Z.to_nat (n / N)) (n mod N) 0 Hflag) as Hin.
    rewrite E in Hin. cbn [fst] in Hin.
    rewrite Z2Nat.id in Hin by lia.
    replace (n mod N + n / N * N) with n in Hin by lia.
    apply Hin. intros i Hi. apply Hnone. lia.
Qed.

(** ** The coordinator *)

Lemma account_found_block (st st' : coordinator) (r : worker_result) :
  account st r = Some st' -> found_block st' = found_block st.
Proof.
  unfold account. destruct (worker_stats st !! result_worker_id r);
    [| discriminate].
  intros H. injection H as <-. reflexivity.
Qed.

(** A block enters [found_block] only from the [block_data] of a [Found]
    report. *)
Lemma on_result_found (st : coordinator) (r : worker_result) (b : Block) :
  found_block st = None ->
  found_block (on_result st r) = Some b ->
  exists i w h block_data k b0,
    r = Found i w h block_data k /\
    rebuild block_data = Ok b0 /\
    b = match get_str block_data "hash" with
        | Ok h' => set_hash b0 h'
        | Raise _ => b0
        end.
Proof.
  intros Hnone. unfold on_result.
  destruct (account st r) as [st'|] eqn:Hacc; [| congruence].
  apply account_found_block in Hacc.
  destruct r as [i w h block_data k | i k]; [| congruence].
  destruct (rebuild block_data) as [b0|e] eqn:Hb0; [| congruence].
  cbn [found_block]. intros H. injection H as <-.
  exists i, w, h, block_data, k, b0. auto.
Qed.

Lemma await_winner_found (events : list (option worker_result)) :
  forall st st' rest b,
    found_block st = None ->
    await_winner events st = (st', rest) ->
    found_block st' = Some b ->
    exists r st0,
      In (Some r) events /\ found_block st0 = None /\
      found_block (on_result st0 r) = Some b.
Proof.
  induction events as [|e events IH]; intros st st' rest b Hnone Hrun Hb.
  - cbn [await_winner] in Hrun. injection Hrun as <- _. congruence.
  - cbn [await_winner] in Hrun.
    destruct e as [r|].
    + destruct (found_block (on_result st r)) as [b'|] eqn:Hf.
      * injection Hrun as <- _. exists r, st.
        split; [now left |]. split; [exact Hnone | congruence].
      * destruct (IH _ _ _ _ Hf Hrun Hb) as (r' & st0 & Hin & H0 & H1).
        exists r', st0. split; [now right | auto].
    + rewrite Hnone in Hrun.
      destruct (IH _ _ _ _ Hnone Hrun Hb) as (r' & st0 & Hin & H0 & H1).
      exists r', st0. split; [now right | auto].
Qed.

Lemma rebuild_to_dict (b : Block) :
  rebuild (Block_to_dict b) =
  Ok (Block_init (previous_hash b) (transactions b) (timestamp b) (nonce b)).
Proof.
  unfold rebuild, Block_to_dict.
  change (get_list _ "transactions")
    with (Ok (A := list pyvalue) (map Transaction_to_dict (transactions b))).
  cbn [rbind]. rewrite Transactions_round_trip. reflexivity.
Qed.

(** What the coordinator rebuilds from the report of a spawned worker. *)
Lemma rebuilt_from_report (prev : string) (txs : list Transaction)
    (ts : pyfloat) (d n : Z) (a : worker_args) (r : worker_result)
    (st : coordinator) (b : Block) :
  In a (spawn prev (map Transaction_to_dict txs) ts d n) ->
  reported a r ->
  found_block st = None ->
  found_block (on_result st r) = Some b ->
  b = Block_init prev txs ts (nonce b) /\
  meets prev txs ts d (nonce b) = true.
Proof.
  intros Ha (flag_seen & fuel & tested & Hrun) Hnone Hb.
  apply spawn_In in Ha as (i & Hi & ->).
  rewrite run_spawned in Hrun. injection Hrun as Hrun.
  destruct (on_result_found _ _ _ Hnone Hb)
    as (i' & w & h & block_data & k & b0 & -> & Hb0 & ->).
  assert (Hsnd : snd (worker_loop i prev txs ts d n flag_seen fuel i 0)
                 = Some (Found i' w h block_data k)) by now rewrite Hrun.
  apply worker_loop_found in Hsnd as (_ & _ & -> & Hok & _).
  rewrite rebuild_to_dict in Hb0. injection Hb0 as <-.
  change (get_str (Block_to_dict (Block_init prev txs ts w)) "hash")
    with (Ok (A := string) (hash (Block_init prev txs ts w))).
  cbn [Block_init previous_hash transactions timestamp nonce hash set_hash].
  split; [reflexivity | exact Hok].
Qed.

(** C1: the block that the coordinator rebuilds from the winning report of
    a spawned worker, with the reported hash written over its hash field, is
    the block the worker built: the digest recomputed from its fields is its
    hash field, which begins with [difficulty] zeros, so that the validator
    never answers with a hash mismatch for it. *)
Theorem C1_reconstructed_winner_keeps_contract
    (pool : list worker_args -> list (option worker_result))
    (prev : string) (txs : list Transaction) (difficulty num_workers : Z)
    (now : pyfloat) (b : Block) (total : Z) (stats : gmap Z Z) :
  delivers_reports pool
    (spawn prev (map Transaction_to_dict txs) now difficulty num_workers) ->
  mine_block_parallel pool prev txs difficulty num_workers now
    = Some (b, total, stats) ->
  Block_calculate_hash b = hash b /\
  b = Block_init prev txs now (nonce b) /\
  begins_with_zeros difficulty (hash b) /\
  (forall self d expected got,
      ~ In (HashMismatch expected got) (snd (validate_block self b d))).
Proof.
  intros Hpool Hrun. unfold mine_block_parallel in Hrun. cbv zeta in Hrun.
  destruct (await_winner _ _) as [st1 rest] eqn:Hawait.
  destruct (found_block st1) as [b1|] eqn:Hfound; [| discriminate].
  injection Hrun as <- _ _.
  destruct (fun H => await_winner_found _ _ _ _ _ H Hawait Hfound)
    as (r & st0 & Hin & Hnone & Hb); [reflexivity |].
  destruct (Hpool r Hin) as (a & Ha & Hrep).
  destruct (rebuilt_from_report _ _ _ _ _ _ _ _ _ Ha Hrep Hnone Hb)
    as (Hinit & Hok).
  assert (Hcontract : hash_contract b1)
    by (rewrite Hinit; apply Block_init_contract).
  split; [exact Hcontract |]. split; [exact Hinit |]. split.
  - apply startswith_zeros. rewrite Hinit. exact Hok.
  - intros self d expected got Hmem.
    destruct (validate_block_cases self b1 d)
      as [(tip & _ & _ & E)
         | [(_ & HH & _)
           | [(_ & _ & _ & E)
             | [(_ & _ & _ & _ & E) | (_ & _ & _ & _ & E)]]]];
      try (rewrite E in Hmem; cbn in Hmem; intuition discriminate).
    apply HH. exact Hcontract.
Qed.

(** * Further properties of the code *)

(** ** The validator and the chain *)

Lemma validate_block_true_iff (self : Blockchain) (block : Block) (d : Z) :
  fst (validate_block self block d) = true <->
  (condition self block d LinkageError /\ admitted d block).
Proof.
  unfold admitted.
  change (hash_contract block)
    with (condition self block d HashMismatchError).
  change (begins_with_zeros d (hash block))
    with (condition self block d DifficultyNotMetError).
  change (transactions block <> [])
    with (condition self block d EmptyBlockError).
  destruct (validate_block_cases self block d)
    as [(tip & Htip & Hne & ->)
       | [(HL & HH & ->)
         | [(HL & HH & HD & ->)
           | [(HL & HH & HD & HE & ->) | (HL & HH & HD & HE & ->)]]]];
    cbn [fst]; unfold violated in *.
  - split; [discriminate |]. intros (HL & _). exfalso. apply Hne, HL, Htip.
  - split; [discriminate | tauto].
  - split; [discriminate | tauto].
  - split; [discriminate | tauto].
  - tauto.
Qed.

Lemma add_block_accepts (self : Blockchain) (block : Block) (d : Z) :
  fst (validate_block self block d) = true ->
  add_block self block d =
    (true, mkBlockchain (chain self ++ [block])%list, []).
Proof.
  unfold add_block.
  destruct (validate_block_cases self block d)
    as [(tip & _ & _ & ->)
       | [(_ & _ & ->)
         | [(_ & _ & _ & ->)
           | [(_ & _ & _ & _ & ->) | (_ & _ & _ & _ & ->)]]]];
    cbn [fst negb]; intros H; try discriminate H.
  reflexivity.
Qed.

Lemma begins_with_zeros_fewer (d d' : Z) (h : string) :
  d' <= d -> begins_with_zeros d h -> begins_with_zeros d' h.
Proof. intros Hd H i Hi. apply H. lia. Qed.

Lemma admitted_lower (d d' : Z) (b : Block) :
  d' <= d -> admitted d b -> admitted d' b.
Proof.
  intros Hd (Hc & Hz & Ht). repeat split; auto.
  eapply begins_with_zeros_fewer; eauto.
Qed.

Lemma get_beyond (s : string) :
  forall n, (String.length s <= n)%nat -> String.get n s = None.
Proof.
  induction s as [|c s IH]; intros n Hn; [reflexivity |].
  destruct n as [|n]; cbn [String.length] in Hn; [lia |].
  cbn [String.get]. apply IH. lia.
Qed.

(** No digest begins with more than sixty-four zeros. *)
Lemma digest_zeros_at_most_64 (d : Z) (msg : list Z) :
  64 < d -> ~ begins_with_zeros d (SHA256.hexdigest msg).
Proof.
  intros Hd Hz.
  specialize (Hz 64%nat ltac:(lia)).
  rewrite get_beyond in Hz; [discriminate |].
  destruct (hexdigest_lowercase_hex msg) as (Hlen & _). rewrite Hlen. lia.
Qed.

(** X1: a block that [validate_block] accepts at some difficulty is
    accepted at every lower difficulty, against the same chain. *)
Theorem X1_accepted_at_lower_difficulty
    (self : Blockchain) (block : Block) (d d' : Z) :
  d' <= d ->
  fst (validate_block self block d) = true ->
  fst (validate_block self block d') = true.
Proof.
  intros Hd Hv. apply validate_block_true_iff in Hv as (HL & Ha).
  apply validate_block_true_iff. split; [exact HL |].
  eapply admitted_lower; eauto.
Qed.

(** X2: at a difficulty above 64, the length of a SHA-256 digest in
    hexadecimal, [validate_block] rejects every block and [add_block]
    leaves every chain as it is. *)
Theorem X2_difficulty_above_64_rejects_all
    (self : Blockchain) (block : Block) (d : Z) :
  64 < d ->
  fst (validate_block self block d) = false /\
  fst (fst (add_block self block d)) = false /\
  snd (fst (add_block self block d)) = self.
Proof.
  intros Hd.
  assert (Hv : fst (validate_block self block d) = false).
  { destruct (fst (validate_block self block d)) eqn:E; [| reflexivity].
    apply validate_block_true_iff in E as (_ & Hc & Hz & _).
    exfalso. unfold hash_contract, Block_calculate_hash, digest_of in Hc.
    rewrite <- Hc in Hz. exact (digest_zeros_at_most_64 d _ Hd Hz). }
  split; [exact Hv |].
  unfold add_block. destruct (validate_block self block d) as [ok out].
  cbn [fst] in Hv. subst ok. cbn. auto.
Qed.

Lemma linked_snoc (c : list Block) (tip b : Block) :
  linked c -> last c = Some tip -> previous_hash b = hash tip ->
  linked (c ++ [b]).
Proof.
  induction c as [|b1 rest IH]; intros Hl Htip Hb; [discriminate |].
  destruct rest as [|b2 rest'].
  - cbn in Htip. injection Htip as ->. cbn. auto.
  - cbn [linked] in Hl. destruct Hl as (H12 & Hrest).
    change ((b1 :: b2 :: rest') ++ [b])%list
      with (b1 :: ((b2 :: rest') ++ [b]))%list.
    cbn [linked app]. split; [exact H12 |].
    apply IH; auto.
Qed.

Lemma tl_snoc {A : Type} (c : list A) (b : A) :
  c <> [] -> List.tl (c ++ [b]) = (List.tl c ++ [b])%list.
Proof. destruct c; [congruence | reflexivity]. Qed.

Lemma add_block_keeps_sound (self : Blockchain) (block : Block) (d d' : Z) :
  d <= d' -> chain self <> [] -> sound_chain d (chain self) ->
  sound_chain d (chain (snd (fst (add_block self block d')))) /\
  chain (snd (fst (add_block self block d'))) <> [].
Proof.
  intros Hd Hne (Hl & Hall). unfold add_block.
  destruct (validate_block self block d') as [ok out] eqn:E.
  destruct ok; cbn [negb fst snd chain]; [| split; [split |]; assumption].
  assert (Hv : fst (validate_block self block d') = true) by now rewrite E.
  apply validate_block_true_iff in Hv as (HL & Ha).
  destruct (last (chain self)) as [tip|] eqn:Htip;
    [| apply last_None in Htip; contradiction].
  split; [split |].
  - eapply linked_snoc; eauto.
  - rewrite tl_snoc by assumption. apply List.Forall_app.
    split; [exact Hall |].
    constructor; [| constructor]. eapply admitted_lower; eauto.
  - destruct (chain self); discriminate.
Qed.

(** X3: a fresh [Blockchain()] is a sound chain, and [add_block] at
    difficulty [d] or above keeps a non-empty chain sound at [d], whether it
    appends the block or rejects it. *)
Theorem X3_add_block_keeps_chain_sound
    (self : Blockchain) (block : Block) (d d' : Z) :
  (forall t_tx t_block, sound_chain d (chain (Blockchain_init t_tx t_block)))
  /\
  (d <= d' -> chain self <> [] -> sound_chain d (chain self) ->
   sound_chain d (chain (snd (fst (add_block self block d'))))).
Proof.
  split.
  - intros t_tx t_block. split; cbn; auto.
  - intros Hd Hne Hs.
    now destruct (add_block_keeps_sound self block d d' Hd Hne Hs).
Qed.

(** X4: once [add_block] has appended a block, offering the same block
    again is rejected for its linkage, unless the block names its own hash
    as its previous hash. *)
Theorem X4_same_block_not_added_twice
    (self self' : Blockchain) (block : Block) (d d' : Z) :
  add_block self block d = (true, self', []) ->
  previous_hash block <> hash block ->
  add_block self' block d' =
    (false, self',
     [InvalidPreviousHash (hash block) (previous_hash block);
      ValidationFailed]).
Proof.
  intros Hadd Hself. unfold add_block in Hadd.
  destruct (validate_block self block d) as [ok out].
  destruct ok; cbn [negb] in Hadd; [| discriminate].
  injection Hadd as <- _.
  unfold add_block.
  destruct (validate_block_cases (mkBlockchain (chain self ++ [block])%list)
              block d')
    as [(tip & Htip & Hne & E) | Hrest].
  - rewrite E. cbn [negb app].
    unfold get_latest_block in Htip. cbn [chain] in Htip.
    rewrite last_snoc in Htip. injection Htip as <-. reflexivity.
  - exfalso.
    assert (HL : condition (mkBlockchain (chain self ++ [block])%list) block d'
                           LinkageError) by tauto.
    apply Hself. apply HL. unfold get_latest_block. cbn [chain].
    apply last_snoc.
Qed.

(** ** Dictionaries and loading *)

Lemma rbind_Raise {A B : Type} (m : result A) (k : A -> result B)
    (e : pyerror) :
  m = Raise e -> rbind m k = Raise e.
Proof. intros ->. reflexivity. Qed.

Lemma getitem_missing (items : list (string * pyvalue)) (key : string) :
  assoc key items = None -> getitem (PyDict items) key = Raise (KeyError key).
Proof. intros H. unfold getitem. now rewrite H. Qed.

Lemma Forall2_rmap_Ok {A B : Type} (f : A -> result B) (l : list A)
    (l' : list B) :
  Forall2 (fun a b => f a = Ok b) l l' -> rmap f l = Ok l'.
Proof.
  induction 1 as [|a b l l' Hab _ IH]; [reflexivity |].
  cbn [rmap]. rewrite Hab. cbn [rbind]. rewrite IH. reflexivity.
Qed.

Lemma rmap_Raise {A B : Type} (f : A -> result B) (l : list A) (a : A)
    (e : pyerror) :
  In a l -> f a = Raise e -> exists e', rmap f l = Raise e'.
Proof.
  induction l as [|x l IH]; intros Hin Ha; [contradiction |].
  cbn [rmap]. destruct Hin as [-> | Hin].
  - rewrite Ha. eauto.
  - destruct (f x) as [b|e0]; [| eauto]. cbn [rbind].
    destruct (IH Hin Ha) as (e' & ->). eauto.
Qed.

(** X5: [Transaction.to_dict] and [Transaction.from_dict] are inverse to
    each other on transactions, and so are the two of [Block] and of
    [Blockchain]; hence different transactions, blocks or chains never have
    the same dictionary. *)
Theorem X5_to_dict_loses_nothing (t_tx t_block : pyfloat) :
  (forall tx, Transaction_from_dict (Transaction_to_dict tx) = Ok tx) /\
  (forall b, Block_from_dict (Block_to_dict b) = Ok b) /\
  (forall tx tx', Transaction_to_dict tx = Transaction_to_dict tx' ->
                  tx = tx') /\
  (forall b b', Block_to_dict b = Block_to_dict b' -> b = b') /\
  (forall bc bc', Blockchain_to_dict bc = Blockchain_to_dict bc' -> bc = bc').
Proof.
  split; [exact Transaction_round_trip |].
  split; [exact Block_round_trip |].
  repeat split.
  - intros tx tx' E.
    pose proof (Transaction_round_trip tx) as H. rewrite E in H.
    rewrite Transaction_round_trip in H. congruence.
  - intros b b' E.
    pose proof (Block_round_trip b) as H. rewrite E in H.
    rewrite Block_round_trip in H. congruence.
  - intros bc bc' E.
    pose proof (Blockchain_round_trip t_tx t_block bc) as H. rewrite E in H.
    rewrite Blockchain_round_trip in H. congruence.
Qed.

(** X6: [Blockchain.from_dict] reads nothing but the entry [blocks]: the
    entry [length] is neither needed nor compared with the number of
    blocks, and the clock readings of the constructor leave no trace. *)
Theorem X6_load_reads_only_blocks
    (t_tx t_block t_tx' t_block' : pyfloat) :
  (forall data data',
      get_list data "blocks" = get_list data' "blocks" ->
      Blockchain_from_dict t_tx t_block data
        = Blockchain_from_dict t_tx' t_block' data') /\
  (forall bc n,
      Blockchain_from_dict t_tx t_block
        (PyDict [("length", PyInt n);
                 ("blocks", PyList (map Block_to_dict (chain bc)))]) = Ok bc)
  /\
  (forall bc,
      Blockchain_from_dict t_tx t_block
        (PyDict [("blocks", PyList (map Block_to_dict (chain bc)))]) = Ok bc).
Proof.
  split; [| split].
  - intros data data' E. unfold Blockchain_from_dict. cbv zeta.
    rewrite E. reflexivity.
  - intros [c] n. unfold Blockchain_from_dict. cbn [chain].
    change (get_list _ "blocks")
      with (Ok (A := list pyvalue) (map Block_to_dict c)).
    cbn [rbind]. rewrite Blocks_round_trip. reflexivity.
  - intros [c]. unfold Blockchain_from_dict. cbn [chain].
    change (get_list _ "blocks")
      with (Ok (A := list pyvalue) (map Block_to_dict c)).
    cbn [rbind]. rewrite Blocks_round_trip. reflexivity.
Qed.

(** X7: loading a chain is all or nothing.  It succeeds exactly when every
    stored block is rebuilt by [Block.from_dict], and then the chain holds
    the rebuilt blocks in order; a single stored block that raises makes the
    whole load raise. *)
Theorem X7_load_is_all_or_nothing (t_tx t_block : pyfloat) (data : pyvalue) :
  (forall bc,
      Blockchain_from_dict t_tx t_block data = Ok bc <->
      exists blocks_data,
        get_list data "blocks" = Ok blocks_data /\
        Forall2 (fun d b => Block_from_dict d = Ok b) blocks_data (chain bc))
  /\
  (forall blocks_data d e,
      get_list data "blocks" = Ok blocks_data ->
      In d blocks_data -> Block_from_dict d = Raise e ->
      exists e', Blockchain_from_dict t_tx t_block data = Raise e').
Proof.
  split.
  - intros bc. split.
    + intros H. unfold Blockchain_from_dict in H. cbv zeta in H.
      apply rbind_Ok in H as (blocks_data & Hbd & H).
      apply rbind_Ok in H as (blocks & Hbs & H).
      injection H as <-. exists blocks_data. split; [exact Hbd |].
      cbn [chain app]. now apply rmap_Ok_Forall2.
    + intros (blocks_data & Hbd & Hall).
      unfold Blockchain_from_dict. cbv zeta. rewrite Hbd. cbn [rbind].
      rewrite (Forall2_rmap_Ok _ _ _ Hall). cbn [rbind chain app].
      destruct bc. reflexivity.
  - intros blocks_data d e Hbd Hin Hd.
    unfold Blockchain_from_dict. cbv zeta. rewrite Hbd. cbn [rbind].
    destruct (rmap_Raise _ _ _ _ Hin Hd) as (e' & ->). eauto.
Qed.

(** X8: a block dictionary that lacks one of the five keys is not rebuilt:
    [Block.from_dict] raises; when the missing key is [transactions], the
    first one read, the error is the [KeyError] of that key.  The same
    holds for a transaction dictionary and its four keys. *)
Theorem X8_missing_key_raises (items : list (string * pyvalue))
    (key : string) :
  assoc key items = None ->
  (In key ["transactions"; "previous_hash"; "timestamp"; "nonce"; "hash"] ->
   exists e, Block_from_dict (PyDict items) = Raise e) /\
  (key = "transactions" ->
   Block_from_dict (PyDict items) = Raise (KeyError "transactions")) /\
  (In key ["sender"; "recipient"; "amount"; "timestamp"] ->
   exists e, Transaction_from_dict (PyDict items) = Raise e) /\
  (key = "sender" ->
   Transaction_from_dict (PyDict items) = Raise (KeyError "sender")).
Proof.
  intros Hmiss. repeat split.
  - intros Hkey.
    destruct (Block_from_dict (PyDict items)) as [b|e] eqn:E; [| eauto].
    exfalso.
    destruct (Block_from_dict_Ok _ _ E)
      as (txs_data & H1 & _ & H2 & H3 & H4 & H5).
    unfold get_list, get_str, get_float, get_int in *.
    cbn [In] in Hkey.
    destruct Hkey as [<- | [<- | [<- | [<- | [<- | []]]]]];
      rewrite (getitem_missing _ _ Hmiss) in *; discriminate.
  - intros ->. unfold Block_from_dict, get_list.
    rewrite (getitem_missing _ _ Hmiss). reflexivity.
  - intros Hkey.
    destruct (Transaction_from_dict (PyDict items)) as [tx|e] eqn:E; [| eauto].
    exfalso. unfold Transaction_from_dict in E.
    apply rbind_Ok in E as (s & H1 & E).
    apply rbind_Ok in E as (r & H2 & E).
    apply rbind_Ok in E as (a & H3 & E).
    apply rbind_Ok in E as (t & H4 & E).
    unfold get_str, get_float in *.
    cbn [In] in Hkey.
    destruct Hkey as [<- | [<- | [<- | [<- | []]]]];
      rewrite (getitem_missing _ _ Hmiss) in *; discriminate.
  - intros ->. unfold Transaction_from_dict, get_str.
    rewrite (getitem_missing _ _ Hmiss). reflexivity.
Qed.

(** X9: a representation without blocks is loaded as the empty chain, on
    which [get_latest_block] has nothing to return and [validate_block]
    checks no linkage: whatever previous hash a block names, [add_block]
    makes it the first block as soon as it keeps the hash contract, meets
    the difficulty and has a transaction. *)
Theorem X9_empty_chain_takes_any_first_block
    (t_tx t_block : pyfloat) (block : Block) (d : Z) :
  Blockchain_from_dict t_tx t_block (PyDict [("blocks", PyList [])])
    = Ok (mkBlockchain []) /\
  get_latest_block (mkBlockchain []) = None /\
  (fst (validate_block (mkBlockchain []) block d) = true <->
   admitted d block) /\
  (admitted d block ->
   add_block (mkBlockchain []) block d = (true, mkBlockchain [block], [])).
Proof.
  split; [reflexivity |]. split; [reflexivity |].
  assert (Hiff : fst (validate_block (mkBlockchain []) block d) = true <->
                 admitted d block).
  { rewrite validate_block_true_iff. split; [tauto |].
    intros Ha. split; [apply linkage_of_empty | exact Ha]. }
  split; [exact Hiff |].
  intros Ha. apply Hiff in Ha. now apply add_block_accepts.
Qed.

(** ** The sequential search, further *)


Section SearchLog.
Variables (prev : string) (txs : list Transaction) (d : Z).
Variables (max_nonce : option Z) (ts : pyfloat).


Abbreviation call_ok := (reported_progress prev txs ts).


End SearchLog.



(** X12: a block returned under a bound has its nonce below the bound and
    took at most [max_nonce - start_nonce] attempts; without a bound the
    search never reports failure. *)
Theorem X12_search_respects_bound
    (prev : string) (txs : list Transaction) (d start : Z)
    (cb : bool) (now : pyfloat) (fuel : nat) :
  (forall M b k calls,
      mine_block prev txs d start (Some M) cb now fuel
        = Some (Some b, k, calls) ->
      start <= nonce b < M /\ 1 <= k <= M - start) /\
  (forall k calls,
      mine_block prev txs d start None cb now fuel <> Some (None, k, calls)).
Proof.
  unfold mine_block. split.
  - intros M b k calls H.
    apply mine_loop_found in H as (Hle & _ & _ & Hb & _ & Hk).
    cbn [below_bound] in Hb. apply Z.ltb_lt in Hb. lia.
  - intros k calls H.
    apply mine_loop_exhausted in H as (M & HM & _). discriminate.
Qed.

Lemma never_meets_above_64 (prev : string) (txs : list Transaction)
    (ts : pyfloat) (d n : Z) :
  64 < d -> meets prev txs ts d n = false.
Proof.
  intros Hd. unfold meets.
  destruct (startswith _ _) eqn:E; [| reflexivity].
  apply startswith_zeros in E. unfold digest_of in E.
  exfalso. exact (digest_zeros_at_most_64 d _ Hd E).
Qed.

(** X13: at a difficulty above 64 no nonce can win.  Without a bound
    [mine_block] never returns; with a bound it tests every nonce below the
    bound and returns no block. *)
Theorem X13_difficulty_above_64_never_mined
    (prev : string) (txs : list Transaction) (d start : Z)
    (cb : bool) (now : pyfloat) :
  64 < d ->
  (forall fuel, mine_block prev txs d start None cb now fuel = None) /\
  (forall M fuel,
      (Z.to_nat (M - start) <= fuel)%nat ->
      exists calls,
        mine_block prev txs d start (Some M) cb now fuel
          = Some (None, Z.max 0 (M - start), calls)).
Proof.
  intros Hd. unfold mine_block. split.
  - intros fuel. generalize start at 1. generalize 0.
    generalize (@nil (Z * string)).
    induction fuel as [|fuel IH]; intros calls t n.
    + now rewrite mine_loop_idle.
    + rewrite mine_loop_miss;
        [apply IH | reflexivity | now apply never_meets_above_64].
  - intros M fuel Hfuel.
    destruct (mine_loop_runs_out prev txs d M cb now
                (Z.to_nat (M - start)) start 0 [] fuel)
      as (calls & Hc); try lia.
    + intros m _. now apply never_meets_above_64.
    + exists calls. rewrite Hc. reflexivity.
Qed.

(** A block built on the hash of the tip whose digest passes the test at
    difficulty [d] is appended when it has a transaction, and rejected for
    having none otherwise. *)
Lemma offer_mined_block (self : Blockchain) (tip : Block)
    (txs : list Transaction) (d n : Z) (ts : pyfloat) (b : Block) :
  get_latest_block self = Some tip ->
  b = Block_init (hash tip) txs ts n ->
  meets (hash tip) txs ts d n = true ->
  (txs <> [] ->
   add_block self b d =
     (true, mkBlockchain (chain self ++ [b])%list, [])) /\
  (txs = [] ->
   add_block self b d = (false, self, [NoTransactions; ValidationFailed])).
Proof.
  intros Htip -> Hok.
  set (b := Block_init (hash tip) txs ts n).
  assert (HL : condition self b d LinkageError).
  { intros tip' Htip'. rewrite Htip in Htip'. now injection Htip' as <-. }
  assert (HH : condition self b d HashMismatchError)
    by apply Block_init_contract.
  assert (HD : condition self b d DifficultyNotMetError)
    by (apply startswith_zeros; exact Hok).
  split.
  - intros Hne. apply add_block_accepts. apply validate_block_true_iff.
    unfold admitted. repeat split; assumption.
  - intros ->. unfold add_block.
    destruct (validate_block_cases self b d)
      as [(tip' & Htip' & Hne & _)
         | [(_ & HH' & _)
           | [(_ & _ & HD' & _)
             | [(_ & _ & _ & _ & ->) | (_ & _ & _ & HE & _)]]]].
    + exfalso. apply Hne, HL, Htip'.
    + contradiction.
    + contradiction.
    + reflexivity.
    + exfalso. apply HE. reflexivity.
Qed.

(** X14: what the sequential driver relies on.  A block mined on the hash
    of the tip, at the difficulty of the chain, over a batch with at least
    one transaction, is appended by [add_block]; over an empty batch it is
    mined all the same and then rejected for having no transactions. *)
Theorem X14_mined_block_is_appended
    (self : Blockchain) (tip : Block) (txs : list Transaction)
    (d start : Z) (max_nonce : option Z) (cb : bool) (now : pyfloat)
    (fuel : nat) (b : Block) (k : Z) (calls : list (Z * string)) :
  get_latest_block self = Some tip ->
  mine_block (hash tip) txs d start max_nonce cb now fuel
    = Some (Some b, k, calls) ->
  (txs <> [] ->
   add_block self b d =
     (true, mkBlockchain (chain self ++ [b])%list, [])) /\
  (txs = [] ->
   add_block self b d = (false, self, [NoTransactions; ValidationFailed])).
Proof.
  intros Htip H. unfold mine_block in H.
  apply mine_loop_found in H as (_ & Hb & Hok & _).
  exact (offer_mined_block self tip txs d (nonce b) now b Htip Hb Hok).
Qed.

(** ** The worker, further *)

Section WorkerReports.
Variables (worker_id : Z) (prev : string) (txs : list Transaction).
Variables (ts : pyfloat) (d step : Z) (flag_seen : Z -> bool).

Abbreviation run := (worker_loop worker_id prev txs ts d step flag_seen).

(** What a report says about the scan that led to it. *)
Lemma worker_loop_report (fuel : nat) :
  forall n t r,
    snd (run fuel n t) = Some r ->
    let k := result_nonces_tested r in
    result_worker_id r = worker_id /\
    t < k /\
    Z.of_nat (length (fst (run fuel n t))) = k - t /\
    (forall j, 0 <= j < k - t - 1 ->
               meets prev txs ts d (n + j * step) = false) /\
    match r with
    | Found _ w h block_data _ =>
        w = n + (k - t - 1) * step /\
        meets prev txs ts d w = true /\
        h = digest_of prev ts w txs /\
        block_data = Block_to_dict (Block_init prev txs ts w)
    | NotFound _ _ =>
        meets prev txs ts d (n + (k - t - 1) * step) = false /\
        k mod check_interval = 0 /\
        flag_seen k = true
    end.
Proof.
  induction fuel as [|fuel IH]; intros n t r; [discriminate |].
  destruct (meets prev txs ts d n) eqn:Hok.
  - rewrite worker_loop_hit by assumption. cbn [fst snd].
    intros H. injection H as <-. cbn [result_nonces_tested result_worker_id].
    cbv zeta. repeat split; try lia.
    + cbn [length]. lia.
    + replace (n + (t + 1 - t - 1) * step) with n by lia. exact Hok.
  - destruct (told_to_stop flag_seen t) eqn:Hstop.
    + rewrite worker_loop_quit by assumption. cbn [fst snd].
      intros H. injection H as <-.
      cbn [result_nonces_tested result_worker_id]. cbv zeta.
      unfold told_to_stop in Hstop. apply andb_prop in Hstop as (Hm & Hf).
      apply Z.eqb_eq in Hm.
      repeat split; try lia; try assumption.
      * cbn [length]. lia.
      * replace (n + (t + 1 - t - 1) * step) with n by lia. exact Hok.
    + rewrite worker_loop_miss by assumption. cbn [fst snd].
      intros H. specialize (IH _ _ _ H). cbv zeta in IH.
      destruct IH as (Hid & Hk & Hlen & Hfail & Hr).
      cbv zeta. split; [exact Hid |]. split; [lia |].
      split; [cbn [length]; lia |]. split.
      * intros j Hj. destruct (Z.eq_dec j 0) as [-> | Hj0].
        -- replace (n + 0 * step) with n by lia. exact Hok.
        -- replace (n + j * step) with (n + step + (j - 1) * step) by lia.
           apply Hfail. lia.
      * destruct r as [i w h block_data k | i k];
          cbn [result_nonces_tested] in *.
        -- destruct Hr as (Hw & Hrest). split; [| exact Hrest].
           rewrite Hw. lia.
        -- destruct Hr as (Hm & Hrest). split; [| exact Hrest].
           replace (n + (k - t - 1) * step)
             with (n + step + (k - (t + 1) - 1) * step) by lia.
           exact Hm.
Qed.

(** Once the flag reads set from attempt [c0] on, the scan ends at the next
    check. *)
Lemma worker_loop_stops (m : Z) (gap : nat) :
  forall n t fuel,
    m mod check_interval = 0 -> flag_seen m = true ->
    m - t <= Z.of_nat gap -> t < m -> (gap <= fuel)%nat ->
    exists r, snd (run fuel n t) = Some r /\ result_nonces_tested r <= m.
Proof.
  induction gap as [|gap IH]; intros n t fuel Hm Hf Hgap Ht Hfuel; [lia |].
  destruct fuel as [|fuel]; [lia |].
  destruct (meets prev txs ts d n) eqn:Hok.
  - rewrite worker_loop_hit by assumption. cbn [snd].
    eexists. split; [reflexivity |]. cbn. lia.
  - destruct (told_to_stop flag_seen t) eqn:Hstop.
    + rewrite worker_loop_quit by assumption. cbn [snd].
      eexists. split; [reflexivity |]. cbn. lia.
    + rewrite worker_loop_miss by assumption. cbn [snd].
      assert (t + 1 < m).
      { destruct (Z.eq_dec (t + 1) m) as [E|E]; [| lia].
        unfold told_to_stop in Hstop. rewrite E, Hm, Hf in Hstop.
        discriminate. }
      apply IH; auto; lia.
Qed.

End WorkerReports.

(** X15: a report with [found] set tells the truth about the scan.  The
    worker made [nonces_tested] attempts, at [start_nonce],
    [start_nonce + step], ...; the reported nonce is the last of them and
    the first whose digest passes the test; the reported hash is its digest
    and [block_data] is read back by [Block.from_dict] as the block the
    worker built. *)
Theorem X15_found_report_is_first_hit
    (worker_id : Z) (prev : string) (transactions_data : list pyvalue)
    (txs : list Transaction) (ts : pyfloat) (d start step : Z)
    (flag_seen : Z -> bool) (fuel : nat) (tested : list Z)
    (i w : Z) (h : string) (block_data : pyvalue) (k : Z) :
  rmap Transaction_from_dict transactions_data = Ok txs ->
  worker_mine worker_id prev transactions_data ts d start step flag_seen fuel
    = Ok (tested, Some (Found i w h block_data k)) ->
  i = worker_id /\
  1 <= k /\ Z.of_nat (length tested) = k /\
  w = start + (k - 1) * step /\
  (forall j, 0 <= j < k - 1 ->
             ~ begins_with_zeros d (digest_of prev ts (start + j * step) txs))
  /\
  begins_with_zeros d h /\
  h = digest_of prev ts w txs /\
  Block_from_dict block_data = Ok (Block_init prev txs ts w).
Proof.
  intros Htxs H. unfold worker_mine in H. rewrite Htxs in H.
  cbn [rbind] in H. injection H as H.
  pose proof (worker_loop_report worker_id prev txs ts d step flag_seen
                fuel start 0 (Found i w h block_data k)) as R.
  rewrite H in R. cbn [fst snd] in R. specialize (R eq_refl).
  cbv zeta in R. cbn [result_nonces_tested result_worker_id] in R.
  destruct R as (Hid & Hk & Hlen & Hfail & Hw & Hok & Hh & Hbd).
  repeat split; try lia; try assumption.
  - intros j Hj Hz. apply startswith_zeros in Hz.
    specialize (Hfail j ltac:(lia)). unfold meets in Hfail. congruence.
  - apply startswith_zeros. rewrite Hh. exact Hok.
  - rewrite Hbd. apply Block_round_trip.
Qed.

(** X16: a report without [found] comes from a check of the flag.  Its
    count is a positive multiple of the check interval of 10000, the flag
    read set at that check, and none of the nonces tested passes the
    test. *)
Theorem X16_stop_report_at_check_interval
    (worker_id : Z) (prev : string) (transactions_data : list pyvalue)
    (txs : list Transaction) (ts : pyfloat) (d start step : Z)
    (flag_seen : Z -> bool) (fuel : nat) (tested : list Z) (i k : Z) :
  rmap Transaction_from_dict transactions_data = Ok txs ->
  worker_mine worker_id prev transactions_data ts d start step flag_seen fuel
    = Ok (tested, Some (NotFound i k)) ->
  i = worker_id /\
  10000 <= k /\ k mod 10000 = 0 /\ flag_seen k = true /\
  Z.of_nat (length tested) = k /\
  (forall j, 0 <= j < k ->
             meets prev txs ts d (start + j * step) = false).
Proof.
  intros Htxs H. unfold worker_mine in H. rewrite Htxs in H.
  cbn [rbind] in H. injection H as H.
  pose proof (worker_loop_report worker_id prev txs ts d step flag_seen
                fuel start 0 (NotFound i k)) as R.
  rewrite H in R. cbn [fst snd] in R. specialize (R eq_refl).
  cbv zeta in R. cbn [result_nonces_tested result_worker_id] in R.
  destruct R as (Hid & Hk & Hlen & Hfail & Hlast & Hm & Hf).
  unfold check_interval in Hm.
  pose proof (Z.div_mod k 10000 ltac:(lia)) as Hdm.
  repeat split; try lia; try assumption.
  intros j Hj. destruct (Z.eq_dec j (k - 1)) as [-> | Hne].
  - replace (k - 0 - 1) with (k - 1) in Hlast by lia. exact Hlast.
  - apply Hfail. lia.
Qed.

(** X17: the overshoot of a worker is bounded.  If the flag reads set from
    attempt count [c0] on, a worker given the time for it puts a report on
    the queue after at most [c0 + 9999] attempts, that is, no later than at
    its next check. *)
Theorem X17_worker_reports_by_next_check
    (worker_id : Z) (prev : string) (txs : list Transaction)
    (ts : pyfloat) (d start step : Z) (flag_seen : Z -> bool) (c0 : Z)
    (fuel : nat) :
  1 <= c0 ->
  (forall c, c0 <= c -> flag_seen c = true) ->
  (Z.to_nat (c0 + 9999) <= fuel)%nat ->
  exists tested r,
    worker_mine worker_id prev (map Transaction_to_dict txs) ts d start step
                flag_seen fuel = Ok (tested, Some r) /\
    result_nonces_tested r <= c0 + 9999.
Proof.
  intros Hc0 Hflag Hfuel. unfold worker_mine.
  rewrite Transactions_round_trip. cbn [rbind].
  set (m := 10000 * ((c0 + 9999) / 10000)).
  pose proof (Z.div_mod (c0 + 9999) 10000 ltac:(lia)) as Hdm.
  pose proof (Z.mod_pos_bound (c0 + 9999) 10000 ltac:(lia)) as Hmb.
  assert (Hm1 : c0 <= m <= c0 + 9999) by (unfold m; lia).
  assert (Hm2 : m mod check_interval = 0).
  { unfold m, check_interval. rewrite Z.mul_comm. apply Z.mod_mul. lia. }
  pose proof (worker_loop_stops worker_id prev txs ts d step flag_seen m
                (Z.to_nat m) start 0 fuel Hm2) as Hstop.
  destruct (worker_loop worker_id prev txs ts d step flag_seen fuel start 0)
    as [tested r'] eqn:E.
  cbn [snd] in Hstop.
  destruct Hstop as (r & Hr & Hk); try lia; [apply Hflag; lia |].
  subst r'. exists tested, r. split; [reflexivity | lia].
Qed.

(** A worker that can find nothing and reads the flag set at its first
    check reports there. *)
Lemma worker_told_at_first_check
    (worker_id : Z) (prev : string) (txs : list Transaction)
    (ts : pyfloat) (d start step : Z) (fuel : nat) :
  64 < d -> (Z.to_nat 10000 <= fuel)%nat ->
  exists tested,
    worker_mine worker_id prev (map Transaction_to_dict txs) ts d start step
                (fun _ => true) fuel
    = Ok (tested, Some (NotFound worker_id 10000)).
Proof.
  intros Hd Hfuel. unfold worker_mine.
  rewrite Transactions_round_trip. cbn [rbind].
  pose proof (worker_loop_stops worker_id prev txs ts d step (fun _ => true)
                10000 (Z.to_nat 10000) start 0 fuel eq_refl eq_refl
                ltac:(lia) ltac:(lia) Hfuel) as Hstop.
  pose proof (worker_loop_report worker_id prev txs ts d step (fun _ => true)
                fuel start 0) as Hrep.
  destruct (worker_loop worker_id prev txs ts d step (fun _ => true)
              fuel start 0) as [tested r'].
  cbn [fst snd] in Hstop, Hrep.
  destruct Hstop as (r & -> & Hk).
  specialize (Hrep r eq_refl). cbv zeta in Hrep.
  destruct Hrep as (Hid & Hpos & _ & _ & Hr).
  exists tested. do 3 f_equal.
  destruct r as [i w h block_data k | i k];
    cbn [result_nonces_tested result_worker_id] in *.
  - destruct Hr as (_ & Hok & _).
    rewrite never_meets_above_64 in Hok by assumption. discriminate.
  - destruct Hr as (_ & Hm & _). unfold check_interval in Hm.
    pose proof (Z.div_mod k 10000 ltac:(lia)) as Hdm.
    f_equal; lia.
Qed.

(** ** The coordinator, further *)

Lemma py_range_NoDup (n : Z) : List.NoDup (py_range n).
Proof.
  unfold py_range. generalize (Z.to_nat n) as k. generalize 0%nat as a.
  intros a k. revert a. induction k as [|k IH]; intros a; cbn [seq map].
  - constructor.
  - constructor; [| apply IH].
    intros Hin. apply List.in_map_iff in Hin as (x & Hx & Hin).
    apply List.in_seq in Hin. lia.
Qed.

Lemma initial_stats_lookup (n i : Z) :
  initial_stats n !! i = if decide (0 <= i < n) then Some 0 else None.
Proof.
  unfold initial_stats.
  assert (H : forall l : list Z,
             (list_to_map (map (fun i => (i, 0)) l) : gmap Z Z) !! i =
             if in_dec Z.eq_dec i l then Some 0 else None).
  { induction l as [|a l IH]; cbn [map].
    - rewrite list_to_map_nil, lookup_empty.
      destruct (in_dec Z.eq_dec i []) as [[]|]; reflexivity.
    - rewrite list_to_map_cons, lookup_insert.
      destruct (decide (a = i)) as [->|Hne].
      + destruct (in_dec Z.eq_dec i (i :: l)) as [|Hn]; [reflexivity |].
        exfalso. apply Hn. now left.
      + rewrite IH.
        destruct (in_dec Z.eq_dec i l) as [Hin|Hin];
          destruct (in_dec Z.eq_dec i (a :: l)) as [Hin'|Hin'];
          try reflexivity.
        * exfalso. apply Hin'. now right.
        * exfalso. destruct Hin' as [E|Hin']; [congruence | contradiction]. }
  rewrite H.
  destruct (in_dec Z.eq_dec i (py_range n)) as [Hin|Hin];
    destruct (decide (0 <= i < n)) as [Hr|Hr]; try reflexivity;
    exfalso; rewrite py_range_In in Hin; contradiction.
Qed.

Lemma sum_after_insert (stats : gmap Z Z) (i c v : Z) (l : list Z) :
  List.NoDup l -> stats !! i = Some c ->
  fold_right Z.add 0 (map (fun j => default 0 (<[i := v]> stats !! j)) l) =
  fold_right Z.add 0 (map (fun j => default 0 (stats !! j)) l)
  + (if in_dec Z.eq_dec i l then v - c else 0).
Proof.
  intros Hnd Hi. induction Hnd as [|a l Ha Hnd IH]; cbn [map fold_right].
  - destruct (in_dec Z.eq_dec i []) as [[]|]. cbn beta iota. lia.
  - rewrite IH. rewrite lookup_insert.
    destruct (decide (i = a)) as [->|Hne].
    + rewrite Hi. cbn [from_option]. unfold id.
      destruct (in_dec Z.eq_dec a l) as [|_]; [contradiction |].
      destruct (in_dec Z.eq_dec a (a :: l)) as [_|Hn];
        [cbn beta iota; lia | exfalso; apply Hn; now left].
    + destruct (in_dec Z.eq_dec i l) as [Hin|Hin];
        destruct (in_dec Z.eq_dec i (a :: l)) as [Hin'|Hin'];
        cbn beta iota; try lia.
      * exfalso. apply Hin'. now right.
      * exfalso. destruct Hin' as [E|Hin']; [congruence | contradiction].
Qed.

Lemma account_tallied (n : Z) (st st' : coordinator) (r : worker_result) :
  tallied n st -> account st r = Some st' ->
  tallied n st' /\
  total_nonces_tested st' = total_nonces_tested st + result_nonces_tested r /\
  found_block st' = found_block st.
Proof.
  intros (Hkeys & Hsum) H. unfold account in H.
  destruct (worker_stats st !! result_worker_id r) as [c|] eqn:Hc;
    [| discriminate].
  injection H as <-. cbn [worker_stats total_nonces_tested found_block].
  assert (Hin : 0 <= result_worker_id r < n) by (apply Hkeys; eauto).
  split; [| split; reflexivity].
  split; cbn [worker_stats total_nonces_tested].
  - intros i. rewrite lookup_insert.
    destruct (decide (result_worker_id r = i)) as [<-|]; [| apply Hkeys].
    split; [intros _; exact Hin | eauto].
  - unfold stats_sum.
    rewrite (sum_after_insert _ _ c _ _ (py_range_NoDup n) Hc).
    destruct (in_dec Z.eq_dec (result_worker_id r) (py_range n)) as [|Hn];
      cbn beta iota.
    + unfold stats_sum in Hsum. lia.
    + exfalso. apply Hn. now apply py_range_In.
Qed.

Lemma on_result_tallied (n : Z) (st : coordinator) (r : worker_result) :
  tallied n st -> tallied n (on_result st r).
Proof.
  intros Hst. unfold on_result.
  destruct (account st r) as [st'|] eqn:Hacc; [| exact Hst].
  destruct (account_tallied _ _ _ _ Hst Hacc) as (Hst' & _ & _).
  destruct r as [i w h block_data k | i k]; [| exact Hst'].
  destruct (rebuild block_data); [| exact Hst'].
  exact Hst'.
Qed.

Lemma await_winner_tallied (n : Z) (events : list (option worker_result)) :
  forall st, tallied n st -> tallied n (fst (await_winner events st)).
Proof.
  induction events as [|e events IH]; intros st Hst; [exact Hst |].
  cbn [await_winner].
  assert (Hst' : tallied n (match e with
                            | Some r => on_result st r
                            | None => st
                            end))
    by (destruct e; [now apply on_result_tallied | exact Hst]).
  destruct (found_block _); [exact Hst' | now apply IH].
Qed.

Lemma drain_tallied (n : Z) (turns : nat) :
  forall events st, tallied n st -> tallied n (drain turns events st).
Proof.
  induction turns as [|turns IH]; intros events st Hst; [exact Hst |].
  cbn [drain]. destruct events as [|[r|] rest]; try exact Hst.
  destruct (account st r) as [st'|] eqn:Hacc; [| exact Hst].
  apply IH. now destruct (account_tallied _ _ _ _ Hst Hacc).
Qed.

Lemma drain_found_block (turns : nat) :
  forall events st, found_block (drain turns events st) = found_block st.
Proof.
  induction turns as [|turns IH]; intros events st; [reflexivity |].
  cbn [drain]. destruct events as [|[r|] rest]; try reflexivity.
  destruct (account st r) as [st'|] eqn:Hacc; [| reflexivity].
  rewrite IH. now apply account_found_block in Hacc.
Qed.

Lemma initial_tallied (n : Z) :
  tallied n (mkCoordinator None 0 (initial_stats n)).
Proof.
  split; cbn [worker_stats total_nonces_tested].
  - intros i. rewrite initial_stats_lookup.
    destruct (decide (0 <= i < n)); split; intros H; eauto;
      try contradiction.
    destruct H as (x & Hx). discriminate.
  - unfold stats_sum. induction (py_range n) as [|a l IH];
      cbn [map fold_right]; [reflexivity |].
    rewrite initial_stats_lookup. rewrite <- IH.
    destruct (decide (0 <= a < n)); reflexivity.
Qed.

(** X18: the statistics the coordinator returns are consistent.  The keys
    of [worker_stats] are exactly the worker numbers [0 .. num_workers - 1],
    and [total_nonces_tested] is the sum of its counters, whatever arrived
    on the queue and however many reports were left undrained. *)
Theorem X18_total_is_sum_of_worker_stats
    (pool : list worker_args -> list (option worker_result))
    (prev : string) (txs : list Transaction) (d num_workers : Z)
    (now : pyfloat) (b : Block) (total : Z) (stats : gmap Z Z) :
  mine_block_parallel pool prev txs d num_workers now
    = Some (b, total, stats) ->
  total = stats_sum num_workers stats /\
  (forall i, is_Some (stats !! i) <-> 0 <= i < num_workers).
Proof.
  unfold mine_block_parallel. cbv zeta.
  pose proof (await_winner_tallied num_workers
                (pool (spawn prev (map Transaction_to_dict txs) now d
                             num_workers))
                _ (initial_tallied num_workers)) as Hst1.
  destruct (await_winner _ _) as [st1 rest]. cbn [fst] in Hst1.
  destruct (found_block st1) as [b1|]; [| discriminate].
  intros H. injection H as _ <- <-.
  destruct (drain_tallied num_workers (Z.to_nat (num_workers - 1)) rest st1
              Hst1) as (Hkeys & Hsum).
  split; [exact Hsum | exact Hkeys].
Qed.

Lemma on_result_unknown_worker (st : coordinator) (r : worker_result) :
  worker_stats st !! result_worker_id r = None -> on_result st r = st.
Proof. intros H. unfold on_result, account. now rewrite H. Qed.

(** X19: a report whose worker number is not a key of [worker_stats] is
    dropped whole, block and all; so with [num_workers] at zero or below,
    where there is no key, the coordinator never has a winner: it waits
    forever, whatever arrives on the queue. *)
Theorem X19_without_workers_no_winner
    (pool : list worker_args -> list (option worker_result))
    (prev : string) (txs : list Transaction) (d num_workers : Z)
    (now : pyfloat) :
  num_workers <= 0 ->
  spawn prev (map Transaction_to_dict txs) now d num_workers = [] /\
  mine_block_parallel pool prev txs d num_workers now = None.
Proof.
  intros Hn.
  assert (Hspawn : spawn prev (map Transaction_to_dict txs) now d num_workers
                   = []).
  { unfold spawn, py_range. replace (Z.to_nat num_workers) with 0%nat by lia.
    reflexivity. }
  split; [exact Hspawn |].
  unfold mine_block_parallel. cbv zeta.
  assert (H : forall events st,
             (forall i, worker_stats st !! i = None) ->
             found_block st = None ->
             found_block (fst (await_winner events st)) = None).
  { induction events as [|e events IH]; intros st Hkeys Hnone;
      [exact Hnone |].
    cbn [await_winner].
    assert (E : match e with Some r => on_result st r | None => st end = st)
      by (destruct e; [now apply on_result_unknown_worker | reflexivity]).
    rewrite E, Hnone. now apply IH. }
  specialize (H (pool (spawn prev (map Transaction_to_dict txs) now d
                             num_workers))
                (mkCoordinator None 0 (initial_stats num_workers))).
  destruct (await_winner _ _) as [st1 rest]. cbn [fst] in H.
  rewrite H; [reflexivity | | reflexivity].
  intros i. cbn [worker_stats]. rewrite initial_stats_lookup.
  destruct (decide (0 <= i < num_workers)); [lia | reflexivity].
Qed.

Lemma await_winner_skips (n : Z) (pre : list (option worker_result)) :
  forall rest st,
    Forall no_winner pre -> tallied n st -> found_block st = None ->
    exists st',
      await_winner (pre ++ rest) st = await_winner rest st' /\
      tallied n st' /\ found_block st' = None.
Proof.
  induction pre as [|e pre IH]; intros rest st Hpre Hst Hnone.
  - exists st. auto.
  - apply List.Forall_cons_iff in Hpre as (He & Hpre).
    cbn [app await_winner].
    set (st1 := match e with Some r => on_result st r | None => st end).
    assert (H1 : tallied n st1 /\ found_block st1 = None).
    { unfold st1. destruct e as [r|]; [| auto].
      split; [now apply on_result_tallied |].
      destruct r as [i w h block_data k | i k]; [contradiction |].
      unfold on_result. destruct (account st (NotFound i k)) as [st'|] eqn:E;
        [| exact Hnone].
      apply account_found_block in E. congruence. }
    destruct H1 as (Hst1 & Hnone1). rewrite Hnone1.
    apply IH; assumption.
Qed.

(** X20: the first report with a block ends the wait and is the winner.
    If nothing but timeouts and reports without a block arrive before a
    [found] report of a worker in [0 .. num_workers - 1] that carries the
    dictionary of a block, the coordinator returns that block, whatever
    arrives afterwards, later winners included. *)
Theorem X20_first_winner_is_returned
    (pool : list worker_args -> list (option worker_result))
    (prev : string) (txs : list Transaction) (d num_workers : Z)
    (now : pyfloat) (pre post : list (option worker_result))
    (i w : Z) (h : string) (blk : Block) (k : Z) :
  pool (spawn prev (map Transaction_to_dict txs) now d num_workers)
    = (pre ++ Some (Found i w h (Block_to_dict blk) k) :: post)%list ->
  Forall no_winner pre ->
  0 <= i < num_workers ->
  exists total stats,
    mine_block_parallel pool prev txs d num_workers now
      = Some (blk, total, stats).
Proof.
  intros Hpool Hpre Hi. unfold mine_block_parallel. cbv zeta. rewrite Hpool.
  destruct (await_winner_skips num_workers pre
              (Some (Found i w h (Block_to_dict blk) k) :: post)
              _ Hpre (initial_tallied num_workers) eq_refl)
    as (st' & -> & Hst' & Hnone).
  cbn [await_winner].
  assert (Hwin : found_block
                   (on_result st' (Found i w h (Block_to_dict blk) k))
                 = Some blk).
  { unfold on_result, account. cbn [result_worker_id result_nonces_tested].
    destruct Hst' as (Hkeys & _).
    destruct (proj2 (Hkeys i) Hi) as (c & ->).
    rewrite rebuild_to_dict.
    change (get_str (Block_to_dict blk) "hash")
      with (Ok (A := string) (hash blk)).
    cbn [found_block]. now rewrite set_hash_init. }
  rewrite Hwin. cbn beta iota. rewrite Hwin. eauto.
Qed.

Lemma on_result_total (st : coordinator) (r : worker_result) :
  0 <= result_nonces_tested r ->
  total_nonces_tested st <= total_nonces_tested (on_result st r) /\
  (found_block st = None -> found_block (on_result st r) <> None ->
   total_nonces_tested (on_result st r)
     = total_nonces_tested st + result_nonces_tested r).
Proof.
  intros Hr. unfold on_result.
  destruct (account st r) as [st'|] eqn:Hacc.
  - assert (Ht : total_nonces_tested st'
                 = total_nonces_tested st + result_nonces_tested r).
    { unfold account in Hacc.
      destruct (worker_stats st !! result_worker_id r); [| discriminate].
      injection Hacc as <-. reflexivity. }
    destruct r as [i w h block_data k | i k]; [| split; [lia | auto]].
    destruct (rebuild block_data); cbn [total_nonces_tested];
      split; auto; lia.
  - split; [lia |]. intros Hnone Hsome. contradiction.
Qed.

Lemma await_winner_total (events : list (option worker_result)) :
  forall st st' rest,
    (forall r, In (Some r) events -> 0 <= result_nonces_tested r) ->
    found_block st = None ->
    await_winner events st = (st', rest) ->
    found_block st' <> None ->
    exists r st0,
      In (Some r) events /\ found_block st0 = None /\
      st' = on_result st0 r /\
      total_nonces_tested st <= total_nonces_tested st0 /\
      incl rest events.
Proof.
  induction events as [|e events IH]; intros st st' rest Hpos Hnone Hrun Hb.
  - cbn [await_winner] in Hrun. injection Hrun as <- _. contradiction.
  - cbn [await_winner] in Hrun. destruct e as [r|].
    + destruct (found_block (on_result st r)) as [b'|] eqn:Hf.
      * injection Hrun as <- <-. exists r, st.
        split; [now left |]. repeat split; auto; try lia.
        apply List.incl_tl, List.incl_refl.
      * destruct (IH _ _ _ (fun r' H => Hpos r' (or_intror H)) Hf Hrun Hb)
          as (r' & st0 & Hin & H0 & H1 & Ht & Hincl).
        exists r', st0. split; [now right |]. repeat split; auto.
        -- pose proof (proj1 (on_result_total st r
                                (Hpos r (or_introl eq_refl)))). lia.
        -- now apply List.incl_tl.
    + rewrite Hnone in Hrun.
      destruct (IH _ _ _ (fun r' H => Hpos r' (or_intror H)) Hnone Hrun Hb)
        as (r' & st0 & Hin & H0 & H1 & Ht & Hincl).
      exists r', st0. split; [now right |]. repeat split; auto.
      now apply List.incl_tl.
Qed.

Lemma drain_total (turns : nat) :
  forall events st,
    (forall r, In (Some r) events -> 0 <= result_nonces_tested r) ->
    total_nonces_tested st <= total_nonces_tested (drain turns events st).
Proof.
  induction turns as [|turns IH]; intros events st Hpos; [cbn; lia |].
  cbn [drain]. destruct events as [|[r|] rest]; try lia.
  destruct (account st r) as [st'|] eqn:Hacc; [| lia].
  assert (Ht : total_nonces_tested st'
               = total_nonces_tested st + result_nonces_tested r).
  { unfold account in Hacc.
    destruct (worker_stats st !! result_worker_id r); [| discriminate].
    injection Hacc as <-. reflexivity. }
  pose proof (Hpos r (or_introl eq_refl)).
  pose proof (IH rest st' (fun r' H => Hpos r' (or_intror H))). lia.
Qed.

(** What an honest report says, in terms of the spawned call. *)
Lemma reported_by_spawned (prev : string) (txs : list Transaction)
    (ts : pyfloat) (d n : Z) (a : worker_args) (r : worker_result) :
  In a (spawn prev (map Transaction_to_dict txs) ts d n) ->
  reported a r ->
  1 <= result_nonces_tested r /\
  0 <= result_worker_id r < n /\
  match r with
  | Found _ w _ block_data k =>
      w = result_worker_id r + (k - 1) * n /\
      meets prev txs ts d w = true /\
      block_data = Block_to_dict (Block_init prev txs ts w)
  | NotFound _ _ => True
  end.
Proof.
  intros Ha (flag_seen & fuel & tested & Hrun).
  apply spawn_In in Ha as (i & Hi & ->).
  rewrite run_spawned in Hrun. injection Hrun as Hrun.
  pose proof (worker_loop_report i prev txs ts d n flag_seen fuel i 0 r) as R.
  rewrite Hrun in R. cbn [fst snd] in R. specialize (R eq_refl).
  cbv zeta in R. destruct R as (Hid & Hk & _ & _ & Hr).
  rewrite Hid. split; [lia |]. split; [exact Hi |].
  destruct r as [i' w h block_data k | i' k]; [| exact I].
  cbn [result_nonces_tested] in *.
  destruct Hr as (Hw & Hok & _ & Hbd).
  repeat split; auto. rewrite Hw. lia.
Qed.

(** X21: with honest workers the total bounds the winning nonce.  The
    coordinator's total counts at least the attempts of the winner, which
    scanned its residue class up to the winning nonce: the nonce returned is
    below [num_workers] times the total, and the total is at least 1. *)
Theorem X21_total_bounds_winning_nonce
    (pool : list worker_args -> list (option worker_result))
    (prev : string) (txs : list Transaction) (d num_workers : Z)
    (now : pyfloat) (b : Block) (total : Z) (stats : gmap Z Z) :
  0 < num_workers ->
  delivers_reports pool
    (spawn prev (map Transaction_to_dict txs) now d num_workers) ->
  mine_block_parallel pool prev txs d num_workers now
    = Some (b, total, stats) ->
  1 <= total /\ 0 <= nonce b < num_workers * total.
Proof.
  intros HN Hpool Hrun. unfold mine_block_parallel in Hrun. cbv zeta in Hrun.
  set (events := pool (spawn prev (map Transaction_to_dict txs) now d
                             num_workers)) in *.
  assert (Hpos : forall r, In (Some r) events -> 0 <= result_nonces_tested r).
  { intros r Hin. destruct (Hpool r Hin) as (a & Ha & Hrep).
    pose proof (reported_by_spawned _ _ _ _ _ _ _ Ha Hrep). lia. }
  destruct (await_winner events _) as [st1 rest] eqn:Hawait.
  destruct (found_block st1) as [b1|] eqn:Hfound; [| discriminate].
  injection Hrun as <- <- _.
  destruct (fun H => await_winner_total events _ _ _ Hpos H Hawait)
    as (r & st0 & Hin & Hnone & -> & Ht0 & Hincl);
    [reflexivity | congruence |].
  cbn [total_nonces_tested] in Ht0.
  destruct (Hpool r Hin) as (a & Ha & Hrep).
  destruct (reported_by_spawned _ _ _ _ _ _ _ Ha Hrep) as (Hk & Hid & Hr).
  destruct (on_result_found _ _ _ Hnone Hfound)
    as (i & w & h & block_data & k & b0 & -> & Hb0 & Hb1).
  cbn [result_nonces_tested result_worker_id] in *.
  destruct Hr as (Hw & _ & ->).
  rewrite rebuild_to_dict in Hb0. injection Hb0 as <-.
  assert (Hnonce : nonce b1 = w).
  { rewrite Hb1. destruct (get_str _ "hash"); reflexivity. }
  pose proof (proj2 (on_result_total st0 (Found i w h
                (Block_to_dict (Block_init prev txs now w)) k)
                ltac:(cbn; lia)) Hnone ltac:(congruence)) as Htot.
  cbn [result_nonces_tested] in Htot.
  pose proof (drain_total (Z.to_nat (num_workers - 1)) rest
                (on_result st0 (Found i w h
                   (Block_to_dict (Block_init prev txs now w)) k))
                (fun r' H => Hpos r' (Hincl _ H))) as Hdrain.
  rewrite Hnonce. nia.
Qed.

(** The winner an honest queue yields is the block a worker mined. *)
Lemma parallel_winner_mined
    (pool : list worker_args -> list (option worker_result))
    (prev : string) (txs : list Transaction) (d num_workers : Z)
    (now : pyfloat) (b : Block) (total : Z) (stats : gmap Z Z) :
  delivers_reports pool
    (spawn prev (map Transaction_to_dict txs) now d num_workers) ->
  mine_block_parallel pool prev txs d num_workers now
    = Some (b, total, stats) ->
  b = Block_init prev txs now (nonce b) /\
  meets prev txs now d (nonce b) = true.
Proof.
  intros Hpool Hrun. unfold mine_block_parallel in Hrun. cbv zeta in Hrun.
  destruct (await_winner _ _) as [st1 rest] eqn:Hawait.
  destruct (found_block st1) as [b1|] eqn:Hfound; [| discriminate].
  injection Hrun as <- _ _.
  destruct (fun H => await_winner_found _ _ _ _ _ H Hawait Hfound)
    as (r & st0 & Hin & Hnone & Hb); [reflexivity |].
  destruct (Hpool r Hin) as (a & Ha & Hrep).
  exact (rebuilt_from_report _ _ _ _ _ _ _ _ _ Ha Hrep Hnone Hb).
Qed.

(** X22: what the parallel driver relies on.  The winner of honest workers
    that mined on the hash of the tip at the difficulty of the chain is
    appended by [add_block] when the batch has a transaction, and rejected
    for having none when the batch is empty. *)
Theorem X22_parallel_winner_is_appended
    (pool : list worker_args -> list (option worker_result))
    (self : Blockchain) (tip : Block) (txs : list Transaction)
    (d num_workers : Z) (now : pyfloat) (b : Block) (total : Z)
    (stats : gmap Z Z) :
  get_latest_block self = Some tip ->
  delivers_reports pool
    (spawn (hash tip) (map Transaction_to_dict txs) now d num_workers) ->
  mine_block_parallel pool (hash tip) txs d num_workers now
    = Some (b, total, stats) ->
  (txs <> [] ->
   add_block self b d =
     (true, mkBlockchain (chain self ++ [b])%list, [])) /\
  (txs = [] ->
   add_block self b d = (false, self, [NoTransactions; ValidationFailed])).
Proof.
  intros Htip Hpool Hrun.
  destruct (parallel_winner_mined _ _ _ _ _ _ _ _ _ Hpool Hrun) as (Hb & Hok).
  exact (offer_mined_block self tip txs d (nonce b) now b Htip Hb Hok).
Qed.

(** ** File names *)

Lemma string_of_uint_numeric (u : Decimal.uint) :
  numeric (NilEmpty.string_of_uint u).
Proof.
  unfold numeric.
  induction u; cbn [NilEmpty.string_of_uint list_ascii_of_string];
    try apply List.Forall_nil;
    (apply List.Forall_cons; [unfold numeric_char; cbn; tauto | assumption]).
Qed.

Lemma str_of_int_numeric (n : Z) : numeric (str_of_int n).
Proof.
  unfold str_of_int, NilZero.string_of_int, NilZero.string_of_uint.
  assert (Hz : numeric "0")
    by (unfold numeric; cbn; constructor;
        [unfold numeric_char; cbn; tauto | constructor]).
  destruct (Z.to_int n) as [u|u].
  - destruct u; try exact Hz; apply string_of_uint_numeric.
  - unfold numeric. cbn [list_ascii_of_string].
    apply List.Forall_cons; [unfold numeric_char; cbn; tauto |].
    destruct u; try exact Hz; apply string_of_uint_numeric.
Qed.

Lemma str_of_int_inj (a b : Z) : str_of_int a = str_of_int b -> a = b.
Proof.
  assert (H : forall d, exists d',
             NilZero.int_of_string (NilZero.string_of_int d) = Some d' /\
             Z.of_int d' = Z.of_int d).
  { intros d.
    destruct d as [u|u]; destruct u;
      try (eexists; split; [apply NilZero.isi; discriminate | reflexivity]).
    - eexists. split; [apply NilZero.isi_posnil | reflexivity].
    - eexists. split; [apply NilZero.isi_negnil | reflexivity]. }
  unfold str_of_int. intros E.
  destruct (H (Z.to_int a)) as (da & Ha & Hza).
  destruct (H (Z.to_int b)) as (db & Hb & Hzb).
  rewrite E in Ha. rewrite Ha in Hb. injection Hb as ->.
  rewrite DecimalZ.of_to in Hza, Hzb. congruence.
Qed.

(** Two numbers followed by something that is no part of a number: equal
    texts have equal numbers and equal rests. *)
Lemma numeric_prefix_unique (s1 : string) :
  forall s2 r1 r2,
    numeric s1 -> numeric s2 -> ends_number r1 -> ends_number r2 ->
    s1 ++ r1 = s2 ++ r2 -> s1 = s2 /\ r1 = r2.
Proof.
  unfold numeric.
  induction s1 as [|c s1 IH]; intros s2 r1 r2 H1 H2 E1 E2 E.
  - destruct s2 as [|c2 s2]; [auto |].
    cbn in E. subst r1. cbn in E1, H2.
    apply List.Forall_cons_iff in H2 as (Hc & _). contradiction.
  - destruct s2 as [|c2 s2].
    + cbn in E. subst r2. cbn in E2, H1.
      apply List.Forall_cons_iff in H1 as (Hc & _). contradiction.
    + cbn in E. injection E as <- E.
      cbn [list_ascii_of_string] in H1, H2.
      apply List.Forall_cons_iff in H1 as (_ & H1).
      apply List.Forall_cons_iff in H2 as (_ & H2).
      destruct (IH s2 r1 r2 H1 H2 E1 E2 E) as (-> & ->). auto.
Qed.

Lemma ends_number_empty : ends_number EmptyString.
Proof. exact I. Qed.

Lemma ends_number_underscore (s : string) : ends_number ("_" ++ s).
Proof.
  cbn. unfold numeric_char. cbn. intros H.
  repeat (destruct H as [H|H]; [discriminate H |]). exact H.
Qed.

Lemma append_empty_r (s : string) : s ++ EmptyString = s.
Proof. induction s as [|c s IH]; cbn; [reflexivity | now rewrite IH]. Qed.

(** The suffix, part by part. *)
Lemma get_config_suffix_parts (d b : Z) (t w : option Z) :
  get_config_suffix d b t w =
  "d" ++ str_of_int d ++ "_b" ++ str_of_int b
      ++ match t with Some t => "_t" ++ str_of_int t | None => EmptyString end
      ++ match w with Some w => "_w" ++ str_of_int w | None => EmptyString end.
Proof.
  unfold get_config_suffix.
  destruct t as [t|], w as [w|]; cbn [app str_join];
    rewrite ?append_assoc, ?append_empty_r; reflexivity.
Qed.

Lemma underscore_not_numeric : ~ numeric_char "_"%char.
Proof.
  unfold numeric_char. cbn. intros H.
  repeat (destruct H as [H|H]; [discriminate H |]). exact H.
Qed.

(** X23: [get_config_suffix] names a configuration without loss: two
    calls return the same suffix only for the same difficulty, the same
    number of blocks, and the same optional transaction and worker counts
    (present or absent alike), so result files of different configurations
    never share a name. *)
Theorem X23_config_suffix_injective
    (d b d' b' : Z) (t w t' w' : option Z) :
  get_config_suffix d b t w = get_config_suffix d' b' t' w' ->
  d = d' /\ b = b' /\ t = t' /\ w = w'.
Proof.
  rewrite !get_config_suffix_parts. intros E.
  cbn [String.append] in E. injection E as E.
  apply numeric_prefix_unique in E as (Ed & E);
    try apply str_of_int_numeric;
    try (cbn; exact underscore_not_numeric).
  apply str_of_int_inj in Ed. split; [exact Ed |].
  cbn [String.append] in E. injection E as E.
  assert (Hend : forall (t w : option Z),
             ends_number
               (match t with
                | Some t => "_t" ++ str_of_int t
                | None => EmptyString
                end ++
                match w with
                | Some w => "_w" ++ str_of_int w
                | None => EmptyString
                end)).
  { intros [x|] [y|]; cbn; try exact underscore_not_numeric; exact I. }
  apply numeric_prefix_unique in E as (Eb & E);
    try apply str_of_int_numeric; try apply Hend.
  apply str_of_int_inj in Eb. split; [exact Eb |].
  assert (Hw : forall x y : option Z,
             match x with
             | Some w => "_w" ++ str_of_int w
             | None => EmptyString
             end =
             match y with
             | Some w => "_w" ++ str_of_int w
             | None => EmptyString
             end -> x = y).
  { intros [x|] [y|] H; cbn [String.append] in H;
      try discriminate H; [| reflexivity].
    injection H as H. now apply str_of_int_inj in H as ->. }
  assert (Hendw : forall y : option Z,
             ends_number
               match y with
               | Some w => "_w" ++ str_of_int w
               | None => EmptyString
               end).
  { intros [y|]; cbn; [exact underscore_not_numeric | exact I]. }
  destruct t as [x|], t' as [x'|]; cbn [String.append] in E.
  - injection E as E.
    apply numeric_prefix_unique in E as (Et & E);
      try apply str_of_int_numeric; try apply Hendw.
    apply str_of_int_inj in Et as ->. apply Hw in E as ->. auto.
  - exfalso. destruct w' as [y'|]; cbn [String.append] in E; discriminate E.
  - exfalso. destruct w as [y|]; cbn [String.append] in E; discriminate E.
  - apply Hw in E as ->. auto.
Qed.

(** ** The mining loops *)

Lemma latest_of_nonempty (bc : Blockchain) :
  chain bc <> [] -> exists tip, get_latest_block bc = Some tip.
Proof.
  intros Hne. unfold get_latest_block.
  destruct (last (chain bc)) as [tip|] eqn:E; [eauto |].
  apply last_None in E. contradiction.
Qed.

Lemma attempts_app (l1 l2 : list progress_entry) :
  attempts (l1 ++ l2) = attempts l1 + attempts l2.
Proof.
  unfold attempts. induction l1 as [|e l1 IH]; cbn [app map fold_right];
    [lia | rewrite IH; lia].
Qed.

(** What the loop of the sequential driver adds to a chain and to its
    records. *)
Lemma sequential_loop_done (d : Z) (fuel : nat)
    (batches : list (list Transaction * pyfloat)) :
  forall i bc progress total bc' progress' total',
    chain bc <> [] -> sound_chain d (chain bc) ->
    sequential_loop d fuel batches i bc progress total
      = Done (bc', progress', total') ->
    exists blocks entries,
      chain bc' = (chain bc ++ blocks)%list /\
      progress' = (progress ++ entries)%list /\
      sound_chain d (chain bc') /\
      Forall2 (fun e b => describes e b /\
                          entry_nonces_tested e = nonce b + 1)
              entries blocks /\
      map block_number entries = kept_numbers i batches /\
      total' = total + attempts entries.
Proof.
  induction batches as [|[txs now] rest IH];
    intros i bc progress total bc' progress' total' Hne Hs H.
  - cbn [sequential_loop] in H. injection H as <- <- <-.
    exists [], []. rewrite !List.app_nil_r. cbn.
    repeat split; try apply Hs; try constructor; lia.
  - cbn [sequential_loop] in H.
    destruct (latest_of_nonempty bc Hne) as (tip & Htip).
    rewrite Htip in H.
    destruct (mine_block (hash tip) txs d 0 None true now fuel)
      as [[[[block|] k] calls]|] eqn:Hmine; try discriminate H.
    unfold mine_block in Hmine.
    apply mine_loop_found in Hmine as (_ & Hb & Hok & _ & _ & Hk).
    destruct (offer_mined_block bc tip txs d (nonce block) now block
                Htip Hb Hok) as (Hyes & Hno).
    destruct txs as [|tx txs].
    + rewrite (Hno eq_refl) in H.
      apply IH in H as (blocks & entries & H1 & H2 & H3 & H4 & H5 & H6);
        auto.
      exists blocks, entries. cbn [kept_numbers]. auto 10.
    + rewrite (Hyes ltac:(discriminate)) in H.
      apply IH in H as (blocks & entries & H1 & H2 & H3 & H4 & H5 & H6).
      * cbn [chain] in H1.
        exists (block :: blocks),
          (mkProgress (i + 1) (nonce block) k (hash block)
                      (Z.of_nat (length (tx :: txs))) :: entries).
        rewrite <- List.app_assoc in H1, H2. cbn [app] in H1, H2.
        split; [exact H1 |]. split; [exact H2 |]. split; [exact H3 |].
        split; [| split].
        -- constructor; [| exact H4].
           unfold describes. cbn [entry_nonce entry_hash num_transactions
             entry_nonces_tested].
           repeat split; try lia. rewrite Hb. reflexivity.
        -- cbn [map block_number kept_numbers]. now rewrite H5.
        -- rewrite H6. unfold attempts. cbn [map fold_right
             entry_nonces_tested]. lia.
      * cbn [chain]. destruct (chain bc); discriminate.
      * pose proof (add_block_keeps_sound bc block d d ltac:(lia) Hne Hs)
          as (Hs' & _).
        rewrite (Hyes ltac:(discriminate)) in Hs'. exact Hs'.
Qed.

Lemma sequential_loop_no_crash (d : Z) (fuel : nat)
    (batches : list (list Transaction * pyfloat)) :
  forall i bc progress total,
    chain bc <> [] ->
    sequential_loop d fuel batches i bc progress total <> Crashed.
Proof.
  induction batches as [|[txs now] rest IH];
    intros i bc progress total Hne; [discriminate |].
  cbn [sequential_loop].
  destruct (latest_of_nonempty bc Hne) as (tip & ->).
  destruct (mine_block (hash tip) txs d 0 None true now fuel)
    as [[[[block|] k] calls]|] eqn:Hmine; try discriminate.
  - destruct (add_block bc block d) as [[ok bc'] out] eqn:Hadd.
    assert (Hne' : chain bc' <> []).
    { unfold add_block in Hadd.
      destruct (validate_block bc block d) as [v o].
      destruct v; cbn [negb] in Hadd; injection Hadd as _ <- _;
        [cbn [chain]; destruct (chain bc); discriminate | exact Hne]. }
    destruct ok; now apply IH.
  - unfold mine_block in Hmine.
    apply mine_loop_exhausted in Hmine as (M & HM & _). discriminate.
Qed.

(** X24: the sequential driver returns a sound chain and a faithful
    record.  Whenever it ends, it has not crashed; the chain is the genesis
    block followed by the blocks of the batches that have a transaction, in
    order, linked and each admitted at the difficulty; there is one record
    per such block, with its number, nonce, hash and transaction count;
    each search took its nonce plus one attempts, and the total is the sum
    over the records.  A block mined over an empty batch is rejected and
    leaves no record. *)
Theorem X24_sequential_driver_chain_and_records
    (d : Z) (batches : list (list Transaction * pyfloat))
    (t_tx t_block : pyfloat) (fuel : nat) :
  mine_blockchain_sequential d batches t_tx t_block fuel <> Crashed /\
  (forall bc progress total,
      mine_blockchain_sequential d batches t_tx t_block fuel
        = Done (bc, progress, total) ->
      sound_chain d (chain bc) /\
      exists blocks,
        chain bc = create_genesis_block t_tx t_block :: blocks /\
        Forall2 (fun e b => describes e b /\
                            entry_nonces_tested e = nonce b + 1)
                progress blocks /\
        map block_number progress = kept_numbers 0 batches /\
        total = attempts progress).
Proof.
  unfold mine_blockchain_sequential. split.
  - apply sequential_loop_no_crash. discriminate.
  - intros bc progress total H.
    apply sequential_loop_done in H
      as (blocks & entries & H1 & H2 & H3 & H4 & H5 & H6).
    + cbn [app] in H2. subst entries.
      split; [exact H3 |]. exists blocks. repeat split; auto.
    + discriminate.
    + split; cbn; auto.
Qed.

Lemma block_numbers_from (i : Z) (n : nat) :
  map (fun k => i + 1 + Z.of_nat k + 1) (seq 0 n) =
  map (fun k => i + Z.of_nat k + 1) (seq 1 n).
Proof.
  rewrite <- seq_shift, map_map. apply map_ext. intros k. lia.
Qed.

(** What the loop of the parallel driver adds to a chain and to its
    records. *)
Lemma parallel_loop_done
    (pool : list worker_args -> list (option worker_result))
    (d n : Z) (batches : list (list Transaction * pyfloat)) :
  forall i bc progress total bc' progress' total',
    chain bc <> [] -> sound_chain d (chain bc) ->
    parallel_loop pool d n batches i bc progress total
      = Done (bc', progress', total') ->
    exists entries,
      progress' = (progress ++ entries)%list /\
      sound_chain d (chain bc') /\
      map block_number entries =
        map (fun k => i + Z.of_nat k + 1) (seq 0 (length batches)) /\
      map num_transactions entries =
        map (fun batch => Z.of_nat (length (fst batch))) batches /\
      total' = total + attempts entries /\
      ((forall spawned, delivers_reports pool spawned) ->
       exists blocks,
         chain bc' = (chain bc ++ blocks)%list /\
         Forall2 describes (with_transactions entries) blocks).
Proof.
  induction batches as [|[txs now] rest IH];
    intros i bc progress total bc' progress' total' Hne Hs H.
  - cbn [parallel_loop] in H. injection H as <- <- <-.
    exists []. rewrite List.app_nil_r. cbn.
    repeat split; try apply Hs; try lia.
    intros _. exists []. rewrite List.app_nil_r. split; [reflexivity |].
    constructor.
  - cbn [parallel_loop] in H.
    destruct (latest_of_nonempty bc Hne) as (tip & Htip).
    rewrite Htip in H.
    destruct (mine_block_parallel pool (hash tip) txs d n now)
      as [[[block k] stats]|] eqn:Hmine; [| discriminate H].
    pose proof (add_block_keeps_sound bc block d d ltac:(lia) Hne Hs)
      as (Hs' & Hne').
    destruct (add_block bc block d) as [[ok bc1] out] eqn:Hadd.
    cbn [fst snd] in Hs', Hne'.
    apply IH in H as (entries & H1 & H2 & H3 & H4 & H5 & H6); auto.
    exists (mkProgress (i + 1) (nonce block) k (hash block)
                       (Z.of_nat (length txs)) :: entries).
    rewrite H1, <- List.app_assoc. cbn [app].
    split; [reflexivity |]. split; [exact H2 |]. split; [| split; [| split]].
    + cbn [map block_number length seq]. rewrite H3.
      rewrite block_numbers_from. f_equal. lia.
    + cbn [map num_transactions fst]. now rewrite H4.
    + rewrite H5. unfold attempts.
      cbn [map fold_right entry_nonces_tested]. lia.
    + intros Hpool. destruct (H6 Hpool) as (blocks & Hc & Hall).
      destruct (parallel_winner_mined _ _ _ _ _ _ _ _ _ (Hpool _) Hmine)
        as (Hb & Hok).
      destruct (offer_mined_block bc tip txs d (nonce block) now block
                  Htip Hb Hok) as (Hyes & Hno).
      unfold with_transactions. cbn [filter num_transactions].
      destruct txs as [|tx txs].
      * rewrite (Hno eq_refl) in Hadd. injection Hadd as _ <- _.
        cbn [length]. change (0 <? Z.of_nat 0) with false.
        exists blocks. split; [exact Hc | exact Hall].
      * rewrite (Hyes ltac:(discriminate)) in Hadd.
        injection Hadd as _ <- _. cbn [chain] in Hc.
        replace (0 <? Z.of_nat (length (tx :: txs))) with true
          by (symmetry; apply Z.ltb_lt; cbn [length]; lia).
        exists (block :: blocks). rewrite Hc, <- List.app_assoc.
        split; [reflexivity |]. constructor; [| exact Hall].
        unfold describes. cbn [entry_nonce entry_hash num_transactions].
        repeat split. rewrite Hb. reflexivity.
Qed.

Lemma parallel_loop_no_crash
    (pool : list worker_args -> list (option worker_result))
    (d n : Z) (batches : list (list Transaction * pyfloat)) :
  forall i bc progress total,
    chain bc <> [] ->
    parallel_loop pool d n batches i bc progress total <> Crashed.
Proof.
  induction batches as [|[txs now] rest IH];
    intros i bc progress total Hne; [discriminate |].
  cbn [parallel_loop].
  destruct (latest_of_nonempty bc Hne) as (tip & ->).
  destruct (mine_block_parallel pool (hash tip) txs d n now)
    as [[[block k] stats]|]; [| discriminate].
  destruct (add_block bc block d) as [[ok bc'] out] eqn:Hadd.
  apply IH.
  unfold add_block in Hadd. destruct (validate_block bc block d) as [v o].
  destruct v; cbn [negb] in Hadd; injection Hadd as _ <- _;
    [cbn [chain]; destruct (chain bc); discriminate | exact Hne].
Qed.

(** X25: the parallel driver raises exactly when it is asked for fewer
    than one worker, at the construction of the pool.  Otherwise it returns
    a sound chain whatever the queue delivered, but records every block it
    was handed, taken or not: there is one record per batch, numbered from
    1, with the size of its batch, and the total is the sum over the
    records.  With honest workers the chain is the genesis block followed
    by the blocks whose record has a transaction; a block mined over an
    empty batch is recorded and is not in the chain. *)
Theorem X25_parallel_driver_chain_and_records
    (pool : list worker_args -> list (option worker_result))
    (d num_workers : Z) (batches : list (list Transaction * pyfloat))
    (t_tx t_block : pyfloat) :
  (mine_blockchain_parallel pool d num_workers batches t_tx t_block
     = Crashed <-> num_workers < 1) /\
  (forall bc progress total,
      mine_blockchain_parallel pool d num_workers batches t_tx t_block
        = Done (bc, progress, total) ->
      sound_chain d (chain bc) /\
      map block_number progress =
        map (fun k => Z.of_nat k + 1) (seq 0 (length batches)) /\
      map num_transactions progress =
        map (fun batch => Z.of_nat (length (fst batch))) batches /\
      total = attempts progress /\
      ((forall spawned, delivers_reports pool spawned) ->
       exists blocks,
         chain bc = create_genesis_block t_tx t_block :: blocks /\
         Forall2 describes (with_transactions progress) blocks)).
Proof.
  unfold mine_blockchain_parallel.
  destruct (Z.ltb_spec num_workers 1) as [Hn | Hn]; split.
  - split; [intros _; exact Hn | reflexivity].
  - discriminate.
  - split; [| lia]. intros H. exfalso. revert H.
    apply parallel_loop_no_crash. discriminate.
  - intros bc progress total H.
    apply parallel_loop_done in H
      as (entries & H1 & H2 & H3 & H4 & H5 & H6).
    + cbn [app] in H1. subst entries.
      split; [exact H2 |]. split; [exact H3 |]. split; [exact H4 |].
      split; [lia | exact H6].
    + discriminate.
    + split; cbn; auto.
Qed.

End Properties.

(** * The properties on the sample data *)

Import Sample.
#[local] Existing Instance whole_floats.

(** The sample scheduler only hands on what the workers report. *)
Lemma pool_in_order_delivers (fuel : nat) (spawned : list worker_args) :
  delivers_reports (pool_in_order fuel) spawned.
Proof.
  intros r Hin. unfold pool_in_order in Hin.
  apply List.in_map_iff in Hin as (a & Hr & Ha).
  exists a. split; [exact Ha |].
  destruct (run_worker a (fun _ => false) fuel) as [[tested r']|e] eqn:E;
    [| discriminate].
  subst r'. exists (fun _ => false), fuel, tested. exact E.
Qed.

(** Two workers on top of the genesis block at difficulty 1: worker 1 wins
    with nonce 3 at its second attempt, and the coordinator's block keeps
    the contract. *)
Lemma C1_witness :
  mine_block_parallel (pool_in_order 5) tip_hash [tx1] 1 2 now
    = Some (candidate 3, 2, <[1 := 2]> (initial_stats 2)) /\
  Block_calculate_hash (candidate 3) = hash (candidate 3) /\
  candidate 3 = Block_init tip_hash [tx1] now (nonce (candidate 3)) /\
  begins_with_zeros 1 (hash (candidate 3)) /\
  (forall self d expected got,
      ~ In (HashMismatch expected got)
           (snd (validate_block self (candidate 3) d))).
Proof.
  assert (Hrun : mine_block_parallel (pool_in_order 5) tip_hash [tx1] 1 2 now
                 = Some (candidate 3, 2, <[1 := 2]> (initial_stats 2)))
    by (vm_compute; reflexivity).
  split; [exact Hrun |].
  exact (C1_reconstructed_winner_keeps_contract
           (pool_in_order 5) tip_hash [tx1] 1 2 now (candidate 3) 2
           (<[1 := 2]> (initial_stats 2))
           (pool_in_order_delivers 5 _) Hrun).
Defined.

(** The block of nonce 3 on the fresh chain, at difficulty 1: accepted, and
    the four conditions hold. *)
Lemma C2_witness :
  0 <= 1 /\
  fst (validate_block chain0 (candidate 3) 1) = true /\
  ((forall tip, get_latest_block chain0 = Some tip ->
                previous_hash (candidate 3) = hash tip) /\
   Block_calculate_hash (candidate 3) = hash (candidate 3) /\
   begins_with_zeros 1 (hash (candidate 3)) /\
   transactions (candidate 3) <> []).
Proof.
  assert (H0 : 0 <= 1) by lia.
  assert (Hv : fst (validate_block chain0 (candidate 3) 1) = true)
    by (vm_compute; reflexivity).
  split; [exact H0 |]. split; [exact Hv |].
  exact (proj1 (C2_validate_iff_four_conditions chain0 (candidate 3) 1 H0) Hv).
Defined.

Lemma unlinked_breaks_linkage (b : Block) (d : Z) :
  previous_hash b = zeros64 -> violated chain0 b d LinkageError.
Proof.
  intros Hprev Hcond.
  specialize (Hcond (create_genesis_block (1700000000 : Z) (1700000000 : Z))
                    eq_refl).
  rewrite Hprev in Hcond. vm_compute in Hcond. discriminate Hcond.
Qed.

(** C3 as the document words it fails on the code.  The value returned is
    the same [False] for a candidate that only breaks the linkage and for
    one that only has no transactions, so it names no error kind; and for a
    candidate that breaks both, the output shows the linkage alone: the
    later checks did not run. *)
Lemma C3_counterexample :
  ~ returns_error_kind /\ ~ runs_every_check.
Proof.
  split.
  - intros (classify & H).
    pose proof (H chain0 unlinked 0) as H1.
    pose proof (H chain0 empty_block 0) as H2.
    assert (E1 : fst (fst (add_block chain0 unlinked 0)) = false)
      by (vm_compute; reflexivity).
    assert (E2 : fst (fst (add_block chain0 empty_block 0)) = false)
      by (vm_compute; reflexivity).
    rewrite E1 in H1. rewrite E2 in H2.
    specialize (H1 ltac:(vm_compute; reflexivity)).
    specialize (H2 ltac:(vm_compute; reflexivity)).
    destruct (classify false).
    + apply H2. intros tip Htip. injection Htip as <-.
      vm_compute. reflexivity.
    + apply H1. apply Block_init_contract.
    + apply H1. intros i Hi. simpl in Hi. lia.
    + apply H1. discriminate.
  - intros H.
    destruct (H chain0 unlinked_empty 0 EmptyBlockError)
      as (diag & Hin & Hk).
    + intros Hcond. apply Hcond. reflexivity.
    + assert (E : snd (add_block chain0 unlinked_empty 0)
                  = [InvalidPreviousHash tip_hash zeros64; ValidationFailed])
        by (vm_compute; reflexivity).
      rewrite E in Hin.
      destruct Hin as [<- | [<- | []]]; discriminate Hk.
Qed.

(** A candidate with the wrong previous hash and no transactions: rejected
    for the linkage, the chain as before. *)
Lemma C3_witness :
  fst (validate_block chain0 unlinked_empty 0) = false /\
  exists k diag,
    violated chain0 unlinked_empty 0 k /\
    (forall k', (rank k' < rank k)%nat ->
                condition chain0 unlinked_empty 0 k') /\
    kind_of diag = Some k /\
    add_block chain0 unlinked_empty 0 = (false, chain0, [diag; ValidationFailed]).
Proof.
  assert (Hv : fst (validate_block chain0 unlinked_empty 0) = false)
    by (vm_compute; reflexivity).
  split; [exact Hv |].
  exact (proj1 (C3_add_block_rejects_at_first_violation
                  chain0 unlinked_empty 0) Hv).
Defined.

(** C4 as the document words it fails on the code: the character after the
    colon of the first key is a space, the digest input is not the one
    without white space, and neither is the digest. *)
Lemma C4_counterexample :
  String.get 87 (block_string tip_hash now 3 [tx1]) = Some ":"%char /\
  String.get 88 (block_string tip_hash now 3 [tx1]) = Some " "%char /\
  block_string tip_hash now 3 [tx1]
    <> canonical_input "," ":" tip_hash now 3 [tx1] /\
  Block_calculate_hash (candidate 3) <> canonical_digest "," ":" (candidate 3).
Proof.
  split; [vm_compute; reflexivity |].
  split; [vm_compute; reflexivity |].
  split.
  - intros E.
    assert (H : String.get 88 (canonical_input "," ":" tip_hash now 3 [tx1])
                = Some " "%char)
      by (rewrite <- E; vm_compute; reflexivity).
    vm_compute in H. discriminate H.
  - intros E. apply String.eqb_eq in E. vm_compute in E. discriminate E.
Qed.

(** The search on top of the genesis block at difficulty 1 returns nonce 3
    after four attempts. *)
Lemma C5_witness :
  mine_block tip_hash [tx1] 1 0 None true now 10
    = Some (Some (candidate 3), 4, []) /\
  0 <= nonce (candidate 3) /\
  candidate 3 = Block_init tip_hash [tx1] now (nonce (candidate 3)) /\
  begins_with_zeros 1 (hash (candidate 3)) /\
  (forall m, 0 <= m < nonce (candidate 3) ->
             ~ begins_with_zeros 1 (digest_of tip_hash now m [tx1])).
Proof.
  assert (Hrun : mine_block tip_hash [tx1] 1 0 None true now 10
                 = Some (Some (candidate 3), 4, []))
    by (vm_compute; reflexivity).
  split; [exact Hrun |].
  exact (proj1 (C5_mine_block_smallest_nonce tip_hash [tx1] 1 0 None true now)
               10%nat (candidate 3) 4 [] Hrun).
Defined.

(** The same search bounded by 3 finds nothing and reports three
    candidates. *)
Lemma C6_witness :
  (forall m, 0 <= m < 3 ->
             ~ begins_with_zeros 1 (digest_of tip_hash now m [tx1])) /\
  (Z.to_nat (3 - 0) <= 3)%nat /\
  exists calls,
    mine_block tip_hash [tx1] 1 0 (Some 3) true now 3
      = Some (None, Z.max 0 (3 - 0), calls).
Proof.
  assert (Hnone : forall m, 0 <= m < 3 ->
            ~ begins_with_zeros 1 (digest_of tip_hash now m [tx1])).
  { intros m Hm Hz.
    specialize (Hz 0%nat ltac:(vm_compute; lia)).
    assert (Hcases : m = 0 \/ m = 1 \/ m = 2) by lia.
    destruct Hcases as [-> | [-> | ->]]; vm_compute in Hz; discriminate Hz. }
  assert (Hfuel : (Z.to_nat (3 - 0) <= 3)%nat) by (vm_compute; lia).
  split; [exact Hnone |]. split; [exact Hfuel |].
  exact (C6_bounded_search_exhausts tip_hash [tx1] 1 0 3 true now
           Hnone 3%nat Hfuel).
Defined.

(** Two workers: nonce 3 belongs to worker 1, whose scan starts at 1 and
    stays in the odd nonces. *)
Lemma C7_witness :
  0 < 2 /\
  exists a,
    In a (spawn tip_hash (map Transaction_to_dict [tx1]) now 1 2) /\
    a_worker_id a = 3 mod 2 /\
    3 = a_worker_id a + (3 / 2) * 2 /\
    exists tested r,
      run_worker a (fun _ => false) 5 = Ok (tested, r) /\
      head tested = Some (a_worker_id a) /\
      Forall (fun n => n mod 2 = a_worker_id a) tested.
Proof.
  assert (H2 : 0 < 2) by lia.
  split; [exact H2 |].
  destruct (proj2 (proj2 (C7_workers_scan_residue_classes
                            tip_hash [tx1] now 1 2 H2)) 3 ltac:(lia))
    as (a & Ha & Hid & Heq & _).
  destruct (proj1 (C7_workers_scan_residue_classes
                     tip_hash [tx1] now 1 2 H2) a (fun _ => false) 5%nat Ha)
    as (_ & _ & _ & tested & r & Hrun & Hhead & _ & Hall).
  exists a. repeat split; try assumption.
  exists tested, r. repeat split; try assumption.
  apply Hhead. discriminate.
Defined.

(** C8 as the document words it fails on the code: the dictionary of a
    block whose stored hash is sixty-four zeros is rebuilt by
    [Block.from_dict], and the digest of the rebuilt block is not its hash
    field. *)
Lemma C8_counterexample :
  exists data b,
    data = Block_to_dict forged /\
    Block_from_dict data = Ok b /\
    Block_calculate_hash b <> hash b.
Proof.
  exists (Block_to_dict forged), forged.
  split; [reflexivity |]. split; [apply Block_round_trip |].
  intros E. apply String.eqb_eq in E. vm_compute in E. discriminate E.
Qed.

(** The dictionary of the mined block is rebuilt with its hash, which is
    the digest of the stored fields. *)
Lemma C8_witness :
  Block_from_dict (Block_to_dict (candidate 3)) = Ok (candidate 3) /\
  get_str (Block_to_dict (candidate 3)) "hash" = Ok (hash (candidate 3)) /\
  (hash_contract (candidate 3) <->
   get_str (Block_to_dict (candidate 3)) "hash" =
     Ok (digest_of (previous_hash (candidate 3)) (timestamp (candidate 3))
                   (nonce (candidate 3)) (transactions (candidate 3)))).
Proof.
  assert (Hload : Block_from_dict (Block_to_dict (candidate 3))
                  = Ok (candidate 3)) by apply Block_round_trip.
  split; [exact Hload |].
  exact (proj1 (proj2 (proj2 C8_hash_contract_of_constructions))
               (Block_to_dict (candidate 3)) (candidate 3) Hload).
Defined.

(** C9 as the document words it fails on the code: a persisted chain whose
    second block stores a hash of sixty-four zeros is loaded, and the loaded
    chain holds a block whose digest is not its hash field. *)
Lemma C9_counterexample :
  exists data bc b,
    data = Blockchain_to_dict
             (mkBlockchain (chain chain0 ++ [forged])%list) /\
    Blockchain_from_dict (0 : Z) (0 : Z) data = Ok bc /\
    In b (chain bc) /\
    Block_calculate_hash b <> hash b.
Proof.
  exists (Blockchain_to_dict (mkBlockchain (chain chain0 ++ [forged])%list)),
         (mkBlockchain (chain chain0 ++ [forged])%list), forged.
  split; [reflexivity |].
  split; [apply Blockchain_round_trip |].
  split; [cbn [chain]; apply List.in_or_app; right; now left |].
  intros E. apply String.eqb_eq in E. vm_compute in E. discriminate E.
Qed.

(** The persisted fresh chain with the mined block on top is read back as
    it was. *)
Lemma C9_witness :
  Blockchain_from_dict (0 : Z) (0 : Z)
    (Blockchain_to_dict (mkBlockchain (chain chain0 ++ [candidate 3])%list))
  = Ok (mkBlockchain (chain chain0 ++ [candidate 3])%list).
Proof.
  exact (proj1 (C9_load_keeps_stored_hashes (F := whole_floats) 0 0)
               (mkBlockchain (chain chain0 ++ [candidate 3])%list)).
Defined.

(** Nonce 3 from start nonce 0: four attempts. *)
Lemma C10_witness :
  mine_block tip_hash [tx1] 1 0 None true now 10
    = Some (Some (candidate 3), 4, []) /\
  4 = nonce (candidate 3) - 0 + 1 /\
  1 <= 4 /\
  (forall m, 0 <= m < nonce (candidate 3) ->
             meets tip_hash [tx1] now 1 m = false) /\
  meets tip_hash [tx1] now 1 (nonce (candidate 3)) = true.
Proof.
  assert (Hrun : mine_block tip_hash [tx1] 1 0 None true now 10
                 = Some (Some (candidate 3), 4, []))
    by (vm_compute; reflexivity).
  split; [exact Hrun |].
  exact (C10_nonces_tested_count tip_hash [tx1] 1 0 None true now 10%nat
           (candidate 3) 4 [] Hrun).
Defined.

(** * The further properties on the sample data *)

(** The mined block is also accepted at difficulty 0. *)
Lemma X1_witness :
  0 <= 1 /\
  fst (validate_block chain0 (candidate 3) 1) = true /\
  fst (validate_block chain0 (candidate 3) 0) = true.
Proof.
  assert (Hd : 0 <= 1) by lia.
  assert (Hv : fst (validate_block chain0 (candidate 3) 1) = true)
    by (vm_compute; reflexivity).
  split; [exact Hd |]. split; [exact Hv |].
  exact (X1_accepted_at_lower_difficulty chain0 (candidate 3) 1 0 Hd Hv).
Defined.

(** At difficulty 65 the mined block is turned away. *)
Lemma X2_witness :
  64 < 65 /\
  fst (validate_block chain0 (candidate 3) 65) = false /\
  fst (fst (add_block chain0 (candidate 3) 65)) = false /\
  snd (fst (add_block chain0 (candidate 3) 65)) = chain0.
Proof.
  assert (Hd : 64 < 65) by lia.
  split; [exact Hd |].
  exact (X2_difficulty_above_64_rejects_all chain0 (candidate 3) 65 Hd).
Defined.

(** The fresh sample chain is sound at difficulty 1 and stays so when the
    mined block is added. *)
Lemma X3_witness :
  1 <= 1 /\ chain chain0 <> [] /\ sound_chain 1 (chain chain0) /\
  sound_chain 1 (chain (snd (fst (add_block chain0 (candidate 3) 1)))).
Proof.
  destruct (X3_add_block_keeps_chain_sound chain0 (candidate 3) 1 1)
    as [Hfresh Hkeep].
  assert (H1 : 1 <= 1) by lia.
  assert (Hne : chain chain0 <> []) by discriminate.
  assert (Hs : sound_chain 1 (chain chain0)) by apply Hfresh.
  split; [exact H1 |]. split; [exact Hne |]. split; [exact Hs |].
  exact (Hkeep H1 Hne Hs).
Defined.

(** The mined block is appended once and turned away the second time. *)
Lemma X4_witness :
  add_block chain0 (candidate 3) 1
    = (true, mkBlockchain [genesis; candidate 3], []) /\
  previous_hash (candidate 3) <> hash (candidate 3) /\
  add_block (mkBlockchain [genesis; candidate 3]) (candidate 3) 1 =
    (false, mkBlockchain [genesis; candidate 3],
     [InvalidPreviousHash (hash (candidate 3)) (previous_hash (candidate 3));
      ValidationFailed]).
Proof.
  assert (Hadd : add_block chain0 (candidate 3) 1
                 = (true, mkBlockchain [genesis; candidate 3], []))
    by (vm_compute; reflexivity).
  assert (Hne : previous_hash (candidate 3) <> hash (candidate 3)).
  { intros E. apply String.eqb_eq in E. vm_compute in E. discriminate E. }
  split; [exact Hadd |]. split; [exact Hne |].
  exact (X4_same_block_not_added_twice chain0
           (mkBlockchain [genesis; candidate 3]) (candidate 3) 1 1 Hadd Hne).
Defined.

(** A block dictionary with the previous hash alone. *)
Lemma X8_witness :
  assoc "transactions" [("previous_hash", PyStr zeros64)] = None /\
  Block_from_dict (PyDict [("previous_hash", PyStr zeros64)])
    = Raise (KeyError "transactions").
Proof.
  assert (H : assoc "transactions" [("previous_hash", PyStr zeros64)] = None)
    by reflexivity.
  split; [exact H |].
  exact (proj1 (proj2 (X8_missing_key_raises
                         [("previous_hash", PyStr zeros64)]
                         "transactions" H)) eq_refl).
Defined.

(** A block that names sixty-four zeros as its previous hash becomes the
    first block of the empty chain. *)
Lemma X9_witness :
  admitted 0 unlinked /\
  add_block (mkBlockchain []) unlinked 0 = (true, mkBlockchain [unlinked], []).
Proof.
  destruct (X9_empty_chain_takes_any_first_block
              (F := whole_floats) 0 0 unlinked 0)
    as (_ & _ & Hiff & Hadd).
  assert (Ha : admitted 0 unlinked)
    by (apply Hiff; vm_compute; reflexivity).
  split; [exact Ha | exact (Hadd Ha)].
Defined.


(** Under the bound 10 the search returns nonce 3 after four attempts. *)
Lemma X12_witness :
  mine_block tip_hash [tx1] 1 0 (Some 10) true now 10
    = Some (Some (candidate 3), 4, []) /\
  0 <= nonce (candidate 3) < 10 /\ 1 <= 4 <= 10 - 0.
Proof.
  assert (Hrun : mine_block tip_hash [tx1] 1 0 (Some 10) true now 10
                 = Some (Some (candidate 3), 4, []))
    by (vm_compute; reflexivity).
  split; [exact Hrun |].
  exact (proj1 (X12_search_respects_bound tip_hash [tx1] 1 0 true now 10)
               10 (candidate 3) 4 [] Hrun).
Defined.

(** At difficulty 65 the search over nonces 0, 1 and 2 finds nothing. *)
Lemma X13_witness :
  64 < 65 /\
  exists calls,
    mine_block tip_hash [tx1] 65 0 (Some 3) true now 3
      = Some (None, Z.max 0 (3 - 0), calls).
Proof.
  assert (Hd : 64 < 65) by lia.
  split; [exact Hd |].
  exact (proj2 (X13_difficulty_above_64_never_mined
                  tip_hash [tx1] 65 0 true now Hd) 3 3%nat
               ltac:(vm_compute; lia)).
Defined.

(** The block mined on the genesis block is appended to the fresh chain. *)
Lemma X14_witness :
  get_latest_block chain0 = Some genesis /\
  mine_block (hash genesis) [tx1] 1 0 None true now 10
    = Some (Some (candidate 3), 4, []) /\
  add_block chain0 (candidate 3) 1 =
    (true, mkBlockchain (chain chain0 ++ [candidate 3])%list, []).
Proof.
  assert (Htip : get_latest_block chain0 = Some genesis) by reflexivity.
  assert (Hrun : mine_block (hash genesis) [tx1] 1 0 None true now 10
                 = Some (Some (candidate 3), 4, []))
    by (vm_compute; reflexivity).
  split; [exact Htip |]. split; [exact Hrun |].
  exact (proj1 (X14_mined_block_is_appended chain0 genesis [tx1] 1 0 None
                  true now 10 (candidate 3) 4 [] Htip Hrun)
               ltac:(discriminate)).
Defined.

(** Worker 1 of 2 finds nonce 3 at its second attempt. *)
Lemma X15_witness :
  rmap Transaction_from_dict (map Transaction_to_dict [tx1]) = Ok [tx1] /\
  worker_mine 1 tip_hash (map Transaction_to_dict [tx1]) now 1 1 2
              (fun _ => false) 5
    = Ok ([1; 3],
          Some (Found 1 3 (hash (candidate 3)) (Block_to_dict (candidate 3))
                      2)) /\
  3 = 1 + (2 - 1) * 2 /\
  Block_from_dict (Block_to_dict (candidate 3))
    = Ok (Block_init tip_hash [tx1] now 3).
Proof.
  assert (Htxs : rmap Transaction_from_dict (map Transaction_to_dict [tx1])
                 = Ok [tx1]) by apply Transactions_round_trip.
  assert (Hrun : worker_mine 1 tip_hash (map Transaction_to_dict [tx1]) now
                             1 1 2 (fun _ => false) 5
                 = Ok ([1; 3],
                       Some (Found 1 3 (hash (candidate 3))
                                   (Block_to_dict (candidate 3)) 2)))
    by (vm_compute; reflexivity).
  split; [exact Htxs |]. split; [exact Hrun |].
  destruct (X15_found_report_is_first_hit
              1 tip_hash (map Transaction_to_dict [tx1]) [tx1] now 1 1 2
              (fun _ => false) 5 [1; 3] 1 3 (hash (candidate 3))
              (Block_to_dict (candidate 3)) 2 Htxs Hrun)
    as (_ & _ & _ & Hw & _ & _ & _ & Hbd).
  split; [exact Hw | exact Hbd].
Defined.

(** A worker at difficulty 65 that reads the flag set reports at its first
    check, after 10000 attempts. *)
Lemma X16_witness :
  exists tested,
    worker_mine 0 tip_hash (map Transaction_to_dict [tx1]) now 65 0 2
                (fun _ => true) (Z.to_nat 10000)
      = Ok (tested, Some (NotFound 0 10000)) /\
    10000 mod 10000 = 0 /\
    Z.of_nat (length tested) = 10000.
Proof.
  destruct (worker_told_at_first_check 0 tip_hash [tx1] now 65 0 2
              (Z.to_nat 10000) ltac:(lia) ltac:(lia)) as (tested & Hrun).
  exists tested. split; [exact Hrun |].
  destruct (X16_stop_report_at_check_interval
              0 tip_hash (map Transaction_to_dict [tx1]) [tx1] now 65 0 2
              (fun _ => true) (Z.to_nat 10000) tested 0 10000
              (Transactions_round_trip [tx1]) Hrun)
    as (_ & _ & Hm & _ & Hlen & _).
  split; [exact Hm | exact Hlen].
Defined.

(** With the flag set from the start, a worker reports within 10000
    attempts. *)
Lemma X17_witness :
  1 <= 1 /\
  (forall c, 1 <= c -> (fun _ : Z => true) c = true) /\
  (Z.to_nat (1 + 9999) <= Z.to_nat 10000)%nat /\
  exists tested r,
    worker_mine 0 tip_hash (map Transaction_to_dict [tx1]) now 1 0 2
                (fun _ => true) (Z.to_nat 10000) = Ok (tested, Some r) /\
    result_nonces_tested r <= 1 + 9999.
Proof.
  assert (H1 : 1 <= 1) by lia.
  assert (Hflag : forall c, 1 <= c -> (fun _ : Z => true) c = true)
    by reflexivity.
  assert (Hfuel : (Z.to_nat (1 + 9999) <= Z.to_nat 10000)%nat) by lia.
  split; [exact H1 |]. split; [exact Hflag |]. split; [exact Hfuel |].
  exact (X17_worker_reports_by_next_check 0 tip_hash [tx1] now 1 0 2
           (fun _ => true) 1 (Z.to_nat 10000) H1 Hflag Hfuel).
Defined.

(** Two workers: the total of 2 is the sum of the counters 0 and 2. *)
Lemma X18_witness :
  mine_block_parallel (pool_in_order 5) tip_hash [tx1] 1 2 now
    = Some (candidate 3, 2, <[1 := 2]> (initial_stats 2)) /\
  2 = stats_sum 2 (<[1 := 2]> (initial_stats 2)) /\
  (forall i, is_Some ((<[1 := 2]> (initial_stats 2) : gmap Z Z) !! i)
             <-> 0 <= i < 2).
Proof.
  assert (Hrun : mine_block_parallel (pool_in_order 5) tip_hash [tx1] 1 2 now
                 = Some (candidate 3, 2, <[1 := 2]> (initial_stats 2)))
    by (vm_compute; reflexivity).
  split; [exact Hrun |].
  exact (X18_total_is_sum_of_worker_stats (pool_in_order 5) tip_hash [tx1]
           1 2 now (candidate 3) 2 (<[1 := 2]> (initial_stats 2)) Hrun).
Defined.

(** No workers: nothing is spawned and the coordinator has no winner. *)
Lemma X19_witness :
  0 <= 0 /\
  spawn tip_hash (map Transaction_to_dict [tx1]) now 1 0 = [] /\
  mine_block_parallel (pool_of two_winners) tip_hash [tx1] 1 0 now = None.
Proof.
  assert (H0 : 0 <= 0) by lia.
  split; [exact H0 |].
  exact (X19_without_workers_no_winner (pool_of two_winners) tip_hash [tx1]
           1 0 now H0).
Defined.

(** Of two winners on the queue the first is returned. *)
Lemma X20_witness :
  pool_of two_winners (spawn tip_hash (map Transaction_to_dict [tx1]) now 1 2)
    = ([None; Some (NotFound 0 10000)] ++
       Some (Found 1 3 (hash (candidate 3)) (Block_to_dict (candidate 3)) 2)
       :: [Some (Found 0 44 (hash (candidate 44))
                       (Block_to_dict (candidate 44)) 23)])%list /\
  Forall no_winner [None; Some (NotFound 0 10000)] /\
  0 <= 1 < 2 /\
  exists total stats,
    mine_block_parallel (pool_of two_winners) tip_hash [tx1] 1 2 now
      = Some (candidate 3, total, stats).
Proof.
  assert (Hpool :
    pool_of two_winners
      (spawn tip_hash (map Transaction_to_dict [tx1]) now 1 2)
    = ([None; Some (NotFound 0 10000)] ++
       Some (Found 1 3 (hash (candidate 3)) (Block_to_dict (candidate 3)) 2)
       :: [Some (Found 0 44 (hash (candidate 44))
                       (Block_to_dict (candidate 44)) 23)])%list)
    by reflexivity.
  assert (Hpre : Forall no_winner [None; Some (NotFound 0 10000)])
    by (repeat (apply List.Forall_cons; [exact I |]); apply List.Forall_nil).
  assert (Hi : 0 <= 1 < 2) by lia.
  split; [exact Hpool |]. split; [exact Hpre |]. split; [exact Hi |].
  exact (X20_first_winner_is_returned (pool_of two_winners) tip_hash [tx1]
           1 2 now _ _ 1 3 (hash (candidate 3)) (candidate 3) 2
           Hpool Hpre Hi).
Defined.

(** Two workers, winner at nonce 3 after a total of 2 attempts. *)
Lemma X21_witness :
  0 < 2 /\
  mine_block_parallel (pool_in_order 5) tip_hash [tx1] 1 2 now
    = Some (candidate 3, 2, <[1 := 2]> (initial_stats 2)) /\
  1 <= 2 /\ 0 <= nonce (candidate 3) < 2 * 2.
Proof.
  assert (H2 : 0 < 2) by lia.
  assert (Hrun : mine_block_parallel (pool_in_order 5) tip_hash [tx1] 1 2 now
                 = Some (candidate 3, 2, <[1 := 2]> (initial_stats 2)))
    by (vm_compute; reflexivity).
  split; [exact H2 |]. split; [exact Hrun |].
  exact (X21_total_bounds_winning_nonce (pool_in_order 5) tip_hash [tx1]
           1 2 now (candidate 3) 2 (<[1 := 2]> (initial_stats 2)) H2
           (pool_in_order_delivers 5 _) Hrun).
Defined.

(** The winner of two workers is appended to the fresh chain. *)
Lemma X22_witness :
  get_latest_block chain0 = Some genesis /\
  mine_block_parallel (pool_in_order 5) (hash genesis) [tx1] 1 2 now
    = Some (candidate 3, 2, <[1 := 2]> (initial_stats 2)) /\
  add_block chain0 (candidate 3) 1 =
    (true, mkBlockchain (chain chain0 ++ [candidate 3])%list, []).
Proof.
  assert (Htip : get_latest_block chain0 = Some genesis) by reflexivity.
  assert (Hrun : mine_block_parallel (pool_in_order 5) (hash genesis) [tx1]
                                     1 2 now
                 = Some (candidate 3, 2, <[1 := 2]> (initial_stats 2)))
    by (vm_compute; reflexivity).
  split; [exact Htip |]. split; [exact Hrun |].
  exact (proj1 (X22_parallel_winner_is_appended (pool_in_order 5) chain0
                  genesis [tx1] 1 2 now (candidate 3) 2
                  (<[1 := 2]> (initial_stats 2)) Htip
                  (pool_in_order_delivers 5 _) Hrun)
               ltac:(discriminate)).
Defined.

(** The suffix of difficulty 4, 5 blocks, 5 transactions, 4 workers. *)
Lemma X23_witness :
  get_config_suffix 4 5 (Some 5) (Some 4) = "d4_b5_t5_w4" /\
  get_config_suffix 4 5 (Some 5) (Some 4)
    = get_config_suffix 4 5 (Some 5) (Some 4) /\
  4 = 4 /\ 5 = 5 /\ Some 5 = Some 5 /\ Some 4 = Some 4.
Proof.
  split; [vm_compute; reflexivity |].
  assert (E : get_config_suffix 4 5 (Some 5) (Some 4)
              = get_config_suffix 4 5 (Some 5) (Some 4)) by reflexivity.
  split; [exact E |].
  exact (X23_config_suffix_injective 4 5 4 5 (Some 5) (Some 4)
           (Some 5) (Some 4) E).
Defined.

(** Two batches, the first one empty: the sequential driver ends with the
    genesis block and the block of the second batch, and with one record,
    of block number 2. *)
Lemma X24_witness :
  mine_blockchain_sequential 1 [([], now); ([tx1], now)]
    (1700000000 : Z) (1700000000 : Z) 20
  = Done (mkBlockchain [genesis; candidate 3],
          [mkProgress 2 3 4 (hash (candidate 3)) 1], 4) /\
  sound_chain 1 [genesis; candidate 3].
Proof.
  assert (Hrun :
    mine_blockchain_sequential 1 [([], now); ([tx1], now)]
      (1700000000 : Z) (1700000000 : Z) 20
    = Done (mkBlockchain [genesis; candidate 3],
            [mkProgress 2 3 4 (hash (candidate 3)) 1], 4))
    by (vm_compute; reflexivity).
  split; [exact Hrun |].
  exact (proj1 (proj2 (X24_sequential_driver_chain_and_records
                         (F := whole_floats) 1 [([], now); ([tx1], now)]
                         1700000000 1700000000 20) _ _ _ Hrun)).
Defined.

(** The same two batches under the parallel driver with two workers: the
    same chain, but two records, the first of a block that is not in the
    chain. *)
Lemma X25_witness :
  exists first_hash,
    mine_blockchain_parallel (pool_in_order 8) 1 2
      [([], now); ([tx1], now)] (1700000000 : Z) (1700000000 : Z)
    = Done (mkBlockchain [genesis; candidate 3],
            [mkProgress 1 14 15 first_hash 0;
             mkProgress 2 3 2 (hash (candidate 3)) 1], 17) /\
    sound_chain 1 [genesis; candidate 3].
Proof.
  exists (hash (Block_init tip_hash [] now 14)).
  assert (Hrun :
    mine_blockchain_parallel (pool_in_order 8) 1 2
      [([], now); ([tx1], now)] (1700000000 : Z) (1700000000 : Z)
    = Done (mkBlockchain [genesis; candidate 3],
            [mkProgress 1 14 15 (hash (Block_init tip_hash [] now 14)) 0;
             mkProgress 2 3 2 (hash (candidate 3)) 1], 17))
    by (vm_compute; reflexivity).
  split; [exact Hrun |].
  exact (proj1 (proj2 (X25_parallel_driver_chain_and_records
                         (F := whole_floats) (pool_in_order 8) 1 2
                         [([], now); ([tx1], now)] 1700000000 1700000000)
                      _ _ _ Hrun)).
Defined.
